(** * Wildfire backend: the emergency fan-out pipeline

    A shallow embedding of the alert classifier (services/fireAlertService.js),
    the SNS ingress (routes/sns.js, routes/fireAlerts.js) and the Socket.IO hub
    (websocket/socketHandler.js), followed by the properties the
    specification states about them. *)

From Stdlib Require Import Floats ZArith Lia.
From stdpp Require Import base option list strings gmap.

Set Default Proof Using "Type".
Set Warnings "-inexact-float".
Local Open Scope string_scope.

(** ** JavaScript values

    What [JSON.parse] can produce, plus [undefined] for a property that is
    absent.  Numbers are IEEE binary64, as in the engine. *)

#[warnings="-register-all"]
Inductive value : Type :=
| VUndefined
| VNull
| VBool (b : bool)
| VNum (x : float)
| VStr (s : string)
| VArr (l : list value)
| VObj (o : gmap string value).

Inductive error : Type :=
| TypeError
| SyntaxError
| Error (msg : string).

(** A computation that returns or throws. *)
Inductive result (A : Type) : Type :=
| Ok (a : A)
| Throw (e : error).
Arguments Ok {A} a.
Arguments Throw {A} e.

#[global] Instance result_ret : MRet result := fun A a => Ok a.
#[global] Instance result_bind : MBind result := fun A B k r =>
  match r with Ok a => k a | Throw e => Throw e end.

Module JS.

(** ToBoolean. *)
Definition truthy (v : value) : bool :=
  match v with
  | VUndefined | VNull => false
  | VBool b => b
  | VNum x => negb (PrimFloat.eqb x 0 || PrimFloat.is_nan x)
  | VStr s => negb (String.eqb s "")
  | VArr _ | VObj _ => true
  end.

(** [a || b] *)
Definition or (a b : value) : value := if truthy a then a else b.

Definition nullish (v : value) : bool :=
  match v with VUndefined | VNull => true | _ => false end.

(** Property read on a value that is neither [null] nor [undefined].  The
    routes only read names that no prototype defines ([deviceId],
    [payload], [latitude], ...), so a primitive or an array has none of
    them and an object has exactly its own. *)
Definition prop (v : value) (k : string) : value :=
  match v with
  | VObj o => default VUndefined (o !! k)
  | _ => VUndefined
  end.

(** [v.k] *)
Definition member (v : value) (k : string) : result value :=
  if nullish v then Throw TypeError else Ok (prop v k).

(** [v?.k] *)
Definition opt (v : value) (k : string) : value :=
  if nullish v then VUndefined else prop v k.

(** [typeof v === 'object'] *)
Definition typeof_object (v : value) : bool :=
  match v with VNull | VArr _ | VObj _ => true | _ => false end.

(** [v === 'literal'] *)
Definition is_string (v : value) (literal : string) : bool :=
  match v with VStr s => String.eqb s literal | _ => false end.

(** Whether a parsed object carries an own [toString]; being data, it is
    not callable, and converting such an object to a primitive throws. *)
Definition shadows_toString (o : gmap string value) : bool :=
  bool_decide (is_Some (o !! "toString")).

(** [String.prototype.toLowerCase] and [includes] on ASCII text. *)
Definition lower (c : Ascii.ascii) : Ascii.ascii :=
  let n := Ascii.nat_of_ascii c in
  if (65 <=? n)%nat && (n <=? 90)%nat then Ascii.ascii_of_nat (n + 32) else c.

Fixpoint toLowerCase (s : string) : string :=
  match s with
  | EmptyString => EmptyString
  | String c r => String (lower c) (toLowerCase r)
  end.

Fixpoint includes (s needle : string) : bool :=
  String.prefix needle s
  || match s with
     | EmptyString => false
     | String _ r => includes r needle
     end.

(** [v.toLowerCase()]: only a string has the method. *)
Definition call_toLowerCase (v : value) : result string :=
  match v with VStr s => Ok (toLowerCase s) | _ => Throw TypeError end.

(** [arr.slice(0, end)] for an integer [end]. *)
Definition slice0 {A} (l : list A) (end_ : Z) : list A :=
  let len := Z.of_nat (length l) in
  let k := if (end_ <? 0)%Z then Z.max (len + end_) 0 else Z.min end_ len in
  take (Z.to_nat k) l.

End JS.

(** ** Coercions of the engine *)

Section Coercions.

(** The engine's Number::toString, StringToNumber and [JSON.parse] on a
    text ([None]: a SyntaxError); no property below depends on what they
    compute. *)
Variable NumberToString : float -> string.
Variable StringToNumber : string -> float.
Variable JSON_parse_text : string -> option value.

(** ToString, as template literals, [+] with a string and [JSON.parse]
    apply it. *)
Fixpoint ToString (v : value) : result string :=
  match v with
  | VUndefined => Ok "undefined"
  | VNull => Ok "null"
  | VBool b => Ok (if b then "true" else "false")
  | VNum x => Ok (NumberToString x)
  | VStr s => Ok s
  | VArr l =>
      (fix join (l : list value) : result string :=
         match l with
         | [] => Ok ""
         | x :: r =>
             s ← (match x with
                  | VUndefined | VNull => Ok ""
                  | _ => ToString x
                  end);
             match r with
             | [] => Ok s
             | _ => t ← join r; Ok (s +:+ "," +:+ t)
             end
         end) l
  | VObj o =>
      if JS.shadows_toString o then Throw TypeError else Ok "[object Object]"
  end.

(** ToNumber, as the relational operators apply it to one operand when the
    other is a number. *)
Definition ToNumber (v : value) : result float :=
  match v with
  | VUndefined => Ok nan
  | VNull => Ok 0%float
  | VBool b => Ok (if b then 1%float else 0%float)
  | VNum x => Ok x
  | VStr s => Ok (StringToNumber s)
  | VArr _ => s ← ToString v; Ok (StringToNumber s)
  | VObj o => if JS.shadows_toString o then Throw TypeError else Ok nan
  end.

(** [v > c] and [v < c] against a numeric literal. *)
Definition gt (v : value) (c : float) : result bool :=
  x ← ToNumber v; Ok (PrimFloat.ltb c x).
Definition lt (v : value) (c : float) : result bool :=
  x ← ToNumber v; Ok (PrimFloat.ltb x c).

(** [JSON.parse(v)] *)
Definition JSON_parse (v : value) : result value :=
  s ← ToString v;
  match JSON_parse_text s with
  | Some r => Ok r
  | None => Throw SyntaxError
  end.

End Coercions.

(** ** The process: log, network, hub, alert service *)

Inductive level : Type := LError | LWarn | LInfo.

Inductive target : Type :=
| ToAll                     (* io.emit *)
| ToRoom (room : string)    (* io.to(room).emit *)
| ToSocket (id : string).   (* socket.emit *)

Inductive event : Type :=
| Log (lvl : level) (msg : string)
| Fetch (url : value)
| Emit (to : target) (name : string) (payload : value).

(** The Socket.IO server: connected sockets and room membership. *)
Record Hub : Type := {
  clients : gset string;
  rooms : gmap string (gset string)
}.

(** The singleton of services/fireAlertService.js. *)
Record FireAlertService : Type := {
  alertHistory : list value;
  maxHistorySize : nat
}.

Record world : Type := {
  trace : list event;
  hub : Hub;
  global_io : bool;           (* whether server.js has assigned global.io *)
  service : FireAlertService
}.

Definition M (A : Type) : Type := world -> result A * world.

#[global] Instance M_ret : MRet M := fun A a w => (Ok a, w).
#[global] Instance M_bind : MBind M := fun A B k m w =>
  match m w with
  | (Ok a, w') => k a w'
  | (Throw e, w') => (Throw e, w')
  end.

Definition throw {A} (e : error) : M A := fun w => (Throw e, w).

Definition lift {A} (r : result A) : M A := fun w => (r, w).

(** [try { m } catch (error) { handler }] *)
Definition try_catch {A} (m : M A) (handler : error -> M A) : M A := fun w =>
  match m w with
  | (Ok a, w') => (Ok a, w')
  | (Throw e, w') => handler e w'
  end.

(** The world after more events. *)
Definition extend (w : world) (new : list event) : world :=
  {| trace := trace w ++ new; hub := hub w;
     global_io := global_io w; service := service w |}.

(** What a run added to the trace. *)
Definition new_events (before after : world) : list event :=
  drop (length (trace before)) (trace after).

(** [Log] keeps the level and the fixed text of a logger call; what a call
    interpolates is evaluated where it can throw, and not kept.  A call
    whose [meta] can be [null] is a [log_with], which throws where the
    logger does; the other calls pass an object, a text, a number or
    nothing.  The lines a handler prints with [console.log] are not
    recorded; what they evaluate is kept where it can throw. *)
Definition record (e : event) : M unit := fun w => (Ok (), extend w [e]).

Definition log (lvl : level) (msg : string) : M unit := record (Log lvl msg).
Definition emit (to : target) (name : string) (payload : value) : M unit :=
  record (Emit to name payload).

Definition get_global_io : M bool := fun w => (Ok (global_io w), w).
Definition get_service : M FireAlertService := fun w => (Ok (service w), w).
Definition put_service (s : FireAlertService) : M unit := fun w =>
  (Ok (), {| trace := trace w; hub := hub w;
             global_io := global_io w; service := s |}).
Definition update_hub (f : Hub -> Hub) : M unit := fun w =>
  (Ok (), {| trace := trace w; hub := f (hub w);
             global_io := global_io w; service := service w |}).

(** The names every object inherits from [Object.prototype]. *)
Definition Object_prototype_names : list string :=
  [ "constructor"; "__defineGetter__"; "__defineSetter__"; "hasOwnProperty";
    "__lookupGetter__"; "__lookupSetter__"; "isPrototypeOf";
    "propertyIsEnumerable"; "toString"; "valueOf"; "__proto__";
    "toLocaleString" ].

(** ** utils/logger.js *)

Definition LOG_LEVELS : list (string * Z) :=
  [ ("ERROR", 0%Z); ("WARN", 1%Z); ("INFO", 2%Z); ("DEBUG", 3%Z) ].

(** [String.prototype.toUpperCase] on ASCII text. *)
Definition upper (c : Ascii.ascii) : Ascii.ascii :=
  let n := Ascii.nat_of_ascii c in
  if (97 <=? n)%nat && (n <=? 122)%nat then Ascii.ascii_of_nat (n - 32) else c.

Fixpoint toUpperCase (s : string) : string :=
  match s with
  | EmptyString => EmptyString
  | String c r => String (upper c) (toUpperCase r)
  end.

(** What [this.level] holds: a number of the table, or the member of
    [Object.prototype] that the key names. *)
Inductive configured : Type :=
| Numbered (n : Z)
| InheritedMember (name : string).

(** [getLogLevel()]; the argument is [process.env.LOG_LEVEL]. *)
Definition getLogLevel (LOG_LEVEL : option string) : configured :=
  let level := match LOG_LEVEL with
               | Some s => if String.eqb s "" then "info" else s
               | None => "info"
               end in
  let key := toUpperCase level in
  match (list_to_map LOG_LEVELS : gmap string Z) !! key with
  | Some n => if (n =? 0)%Z then Numbered 2 else Numbered n
  | None =>
      if bool_decide (key ∈ Object_prototype_names) then InheritedMember key
      else Numbered 2
  end.

(** [this.level >= LOG_LEVELS.<NAME>], the guard of the method of that
    name; a level that is no number compares as NaN. *)
Definition prints (level : configured) (method : string) : bool :=
  match level, (list_to_map LOG_LEVELS : gmap string Z) !! method with
  | Numbered n, Some m => (m <=? n)%Z
  | _, _ => false
  end.

(** Whether a text has a lower-case ASCII letter. *)
Fixpoint has_lower (s : string) : bool :=
  match s with
  | EmptyString => false
  | String c r =>
      let n := Ascii.nat_of_ascii c in
      ((97 <=? n)%nat && (n <=? 122)%nat) || has_lower r
  end.

(** The name a method of the logger stands under in [LOG_LEVELS]. *)
Definition method_of (lvl : level) : string :=
  match lvl with LError => "ERROR" | LWarn => "WARN" | LInfo => "INFO" end.

(** Whether [logger.<method>(message, meta)] throws: the line is formatted
    only when the level prints, and [formatMessage] runs
    [Object.keys(meta)], a TypeError on null (an undefined [meta] takes the
    default [{}]). *)
Definition formatMessage_throws (LOG_LEVEL : option string) (method : string)
    (meta : value) : bool :=
  prints (getLogLevel LOG_LEVEL) method
  && match meta with VNull => true | _ => false end.

(** [logger.<method>(message, meta)] for a [meta] that can be null. *)
Definition log_with (LOG_LEVEL : option string) (lvl : level) (msg : string)
    (meta : value) : M unit :=
  if formatMessage_throws LOG_LEVEL (method_of lvl) meta then throw TypeError
  else log lvl msg.

(** What a [fetch] resolves to. *)
Record fetch_response : Type := { ok : bool; status_code : Z }.

(** Who receives an emit. *)
Definition recipients (h : Hub) (to : target) : gset string :=
  match to with
  | ToAll => clients h
  | ToRoom r => default ∅ (rooms h !! r) ∩ clients h
  | ToSocket id => {[ id ]} ∩ clients h
  end.

(** The events of a trace that reach socket [id]. *)
Definition received (h : Hub) (id : string) (t : list event) : list (target * string * value) :=
  omap (fun e => match e with
                 | Emit to name payload =>
                     if bool_decide (id ∈ recipients h to)
                     then Some (to, name, payload) else None
                 | _ => None
                 end) t.

(** The URLs a trace fetched, in order. *)
Definition fetches (t : list event) : list value :=
  omap (fun e => match e with Fetch url => Some url | _ => None end) t.

(** What a trace emitted, in order. *)
Definition emits (t : list event) : list (target * string * value) :=
  omap (fun e => match e with
                 | Emit to name payload => Some (to, name, payload)
                 | _ => None
                 end) t.

(** An object literal. *)
Definition obj (fields : list (string * value)) : value :=
  VObj (list_to_map fields).

Definition join_room (id : string) (room : string) (h : Hub) : Hub :=
  {| clients := clients h;
     rooms := <[ room := {[ id ]} ∪ default ∅ (rooms h !! room) ]> (rooms h) |}.

Definition leave_room (id : string) (room : string) (h : Hub) : Hub :=
  {| clients := clients h;
     rooms := <[ room := default ∅ (rooms h !! room) ∖ {[ id ]} ]> (rooms h) |}.

(** ** What reaches the server from outside *)

Inductive body : Type :=
| BodyBuffer (text : string)   (* express.raw matched: a Buffer *)
| BodyValue (v : value).       (* parsed by express.json, or left as it was *)

Record request : Type := {
  message_type : option string;   (* header x-amz-sns-message-type *)
  content_type : option string;   (* header content-type *)
  req_body : body
}.

Inductive res_body : Type :=
| JsonBody (v : value)    (* res.json *)
| TextBody (s : string).  (* res.send *)

Record response : Type := { status : Z; sent : res_body }.

Section Server.

Variable NumberToString : float -> string.
Variable StringToNumber : string -> float.
Variable JSON_parse_text : string -> option value.

(** The outcome of [fetch(url)], given what has happened so far: a
    response, or a rejection.  The handlers set no timeout; a fetch that
    never settles is outside this model. *)
Variable network : list event -> value -> result fetch_response.

(** Clock and random source, read by [new Date().toISOString()],
    [Date.now()] and [Math.random().toString(36).substr(2, 9)]. *)
Variable now_iso : string.
Variable Date_now : float.
Variable random_suffix : string.

(** [error.message] of an error the engine raised. *)
Variable engine_message : error -> string.

(** [process.env.LOG_LEVEL] when the logger was made. *)
Variable LOG_LEVEL : option string.

Local Abbreviation ToString := (ToString NumberToString).
Local Abbreviation JSON_parse := (JSON_parse NumberToString JSON_parse_text).
Local Abbreviation gt := (gt NumberToString StringToNumber).
Local Abbreviation lt := (lt NumberToString StringToNumber).

Definition message_of (e : error) : string :=
  match e with Error msg => msg | _ => engine_message e end.

Definition fetch (url : value) : M fetch_response := fun w =>
  (network (trace w) url, extend w [Fetch url]).

(** *** services/fireAlertService.js *)

Definition new_FireAlertService : FireAlertService :=
  {| alertHistory := []; maxHistorySize := 100 |}.

Definition validateAlertData (data : value) : M bool :=
  (fix required (fields : list string) : M bool :=
     match fields with
     | field :: rest =>
         v ← lift (JS.member data field);
         if negb (JS.truthy v) then
           log LError ("Missing required field: " +:+ field);;
           mret false
         else required rest
     | [] =>
         location ← lift (JS.member data "location");
         latitude ← lift (JS.member location "latitude");
         if negb (JS.truthy latitude) then
           log LError "Invalid location data";; mret false
         else
           longitude ← lift (JS.member location "longitude");
           if negb (JS.truthy longitude) then
             log LError "Invalid location data";; mret false
           else mret true
     end) ["deviceId"; "temperature"; "location"].

(** One [if / else if / else if] ladder adding to [severityScore]. *)
Definition ladder3 (cmp : value -> float -> result bool) (v : value)
    (c3 c2 c1 : float) : result Z :=
  b3 ← cmp v c3;
  if b3 : bool then Ok 3%Z else
  b2 ← cmp v c2;
  if b2 : bool then Ok 2%Z else
  b1 ← cmp v c1;
  Ok (if b1 : bool then 1%Z else 0%Z).

Definition ladder2 (cmp : value -> float -> result bool) (v : value)
    (c2 c1 : float) : result Z :=
  b2 ← cmp v c2;
  if b2 : bool then Ok 2%Z else
  b1 ← cmp v c1;
  Ok (if b1 : bool then 1%Z else 0%Z).

Definition severityLevel (severityScore : Z) : string :=
  if (8 <=? severityScore)%Z then "EXTREME"
  else if (6 <=? severityScore)%Z then "CRITICAL"
  else if (4 <=? severityScore)%Z then "HIGH"
  else if (2 <=? severityScore)%Z then "MODERATE"
  else "LOW".

Definition calculateSeverity (data : value) : result string :=
  temperature ← JS.member data "temperature";
  s1 ← ladder3 gt temperature 60 45 35;
  humidity ← JS.member data "humidity";
  s2 ← ladder3 lt humidity 20 35 50;
  smoke_level ← JS.member data "smoke_level";
  s3 ← ladder3 gt smoke_level 300 200 100;
  air_quality ← JS.member data "air_quality";
  s4 ← ladder2 gt air_quality 250 150;
  Ok (severityLevel (0 + s1 + s2 + s3 + s4)).

Definition generateAlertId : string :=
  "FIRE_" +:+ NumberToString Date_now +:+ "_" +:+ random_suffix.

Definition addToHistory (alert : value) : M unit :=
  s ← get_service;
  let unshifted := alert :: alertHistory s in
  put_service
    {| alertHistory :=
         if (maxHistorySize s <? length unshifted)%nat
         then JS.slice0 unshifted (Z.of_nat (maxHistorySize s))
         else unshifted;
       maxHistorySize := maxHistorySize s |}.

(** A run of [addToHistory] calls, oldest alert first. *)
Fixpoint add_sequence (alerts : list value) : M unit :=
  match alerts with
  | [] => mret ()
  | alert :: rest => addToHistory alert;; add_sequence rest
  end.

(** [getRecentAlerts(limit = 10)]; [None] is a call without argument. *)
Definition getRecentAlerts (limit : option Z) : M (list value) :=
  s ← get_service;
  mret (JS.slice0 (alertHistory s) (default 10%Z limit)).

Definition processFireAlert (alertData : value) : M value :=
  try_catch
    (log LInfo "Processing fire alert data";;
     valid ← validateAlertData alertData;
     if negb valid then throw (Error "Invalid alert data structure") else
     severity ← lift (calculateSeverity alertData);
     let processedAlert := obj [
       ("id", VStr generateAlertId);
       ("type", VStr "FIRE_EMERGENCY");
       ("deviceId", JS.prop alertData "deviceId");
       ("severity", VStr severity);
       ("timestamp", VStr now_iso);
       ("data", obj [
          ("temperature", JS.prop alertData "temperature");
          ("humidity", JS.prop alertData "humidity");
          ("smoke_level", JS.prop alertData "smoke_level");
          ("air_quality", JS.prop alertData "air_quality");
          ("location", JS.prop alertData "location") ]);
       ("emergency", VBool true);
       ("processed", VBool true) ] in
     addToHistory processedAlert;;
     log LInfo ("Fire alert processed: " +:+ severity +:+ " level emergency");;
     mret processedAlert)
    (fun error =>
       log LError "Error processing fire alert:";;
       throw error).

(** *** websocket/socketHandler.js *)

(** [io.on('connection', ...)]: the socket is registered, then greeted. *)
Definition on_connection (id : string) : M unit :=
  update_hub (fun h => {| clients := {[ id ]} ∪ clients h; rooms := rooms h |});;
  log LInfo "Client connected";;
  emit (ToSocket id) "connected" (obj [
    ("message", VStr "Connected to wildfire device data server");
    ("socketId", VStr id);
    ("timestamp", VStr now_iso) ]).

Definition on_subscribe_device (id : string) (deviceId : value) : M unit :=
  d ← lift (ToString deviceId);
  let room := "device-" +:+ d in
  update_hub (join_room id room);;
  log LInfo "Client subscribed to device";;
  emit (ToSocket id) "subscription-confirmed" (obj [
    ("deviceId", deviceId);
    ("room", VStr room);
    ("message", VStr ("Subscribed to updates for device: " +:+ d)) ]).

Definition on_subscribe_fire_alerts (id : string) : M unit :=
  update_hub (join_room id "fire-alerts");;
  log LInfo "Client subscribed to fire emergency alerts";;
  emit (ToSocket id) "fire-alerts-subscription-confirmed" (obj [
    ("message", VStr "Subscribed to fire emergency alerts");
    ("timestamp", VStr now_iso) ]).

Definition on_unsubscribe_fire_alerts (id : string) : M unit :=
  update_hub (leave_room id "fire-alerts");;
  log LInfo "Client unsubscribed from fire emergency alerts".

Definition on_unsubscribe_device (id : string) (deviceId : value) : M unit :=
  d ← lift (ToString deviceId);
  let room := "device-" +:+ d in
  update_hub (leave_room id room);;
  log LInfo "Client unsubscribed from device";;
  emit (ToSocket id) "unsubscription-confirmed" (obj [
    ("deviceId", deviceId);
    ("room", VStr room);
    ("message", VStr ("Unsubscribed from updates for device: " +:+ d)) ]).

(** The transport drops a socket that disconnects; the handler logs. *)
Definition on_disconnect (id : string) : M unit :=
  update_hub (fun h => {| clients := clients h ∖ {[ id ]};
                          rooms := (fun members => members ∖ {[ id ]}) <$> rooms h |});;
  log LInfo "Client disconnected".

(** [broadcast.newData] *)
Definition newData (data : value) : M unit :=
  emit ToAll "new-data" data;;
  deviceId ← lift (JS.member data "deviceId");
  (if JS.truthy deviceId then
     d ← lift (ToString deviceId);
     emit (ToRoom ("device-" +:+ d)) "device-data-update" data
   else mret ());;
  _ ← lift (ToString (JS.or deviceId (VStr "unknown")));
  log LInfo "Broadcasted new data for device".

(** [broadcast.deviceUpdate] *)
Definition deviceUpdate (deviceId data : value) : M unit :=
  d ← lift (ToString deviceId);
  emit (ToRoom ("device-" +:+ d)) "device-update" data;;
  log LInfo "Broadcasted device update".

Definition ui_critical : value :=
  obj [ ("showPopup", VBool true); ("autoExpire", VBool false);
        ("sound", VBool true); ("vibrate", VBool true);
        ("priority", VStr "HIGH") ].

(** The envelope [broadcast.fireEmergency] sends; [d] is the device id as
    the template literal prints it. *)
Definition emergencyBroadcast (alertData : value) (d : string) : value :=
  obj [
    ("type", VStr "FIRE_EMERGENCY");
    ("level", VStr "CRITICAL");
    ("title", VStr "🚨 WILDFIRE EMERGENCY!");
    ("message", VStr ("Fire emergency detected by " +:+ d));
    ("data", alertData);
    ("ui", ui_critical);
    ("timestamp", VStr now_iso) ].

(** [broadcast.fireEmergency] *)
Definition fireEmergency (alertData : value) : M unit :=
  deviceId ← lift (JS.member alertData "deviceId");
  d ← lift (ToString deviceId);
  emit ToAll "fire-emergency" (emergencyBroadcast alertData d);;
  emit ToAll "emergency-popup" (emergencyBroadcast alertData d);;
  (if JS.truthy deviceId then
     emit (ToRoom ("device-" +:+ d)) "device-emergency"
          (emergencyBroadcast alertData d)
   else mret ());;
  log LError "FIRE EMERGENCY broadcasted for device".

(** *** routes/sns.js *)

(** The flag [processNotification] decides on. *)
Definition isEmergency (messageData : value) : value :=
  let payload := JS.prop messageData "payload" in
  JS.or (JS.or (JS.or (JS.or
    (JS.prop messageData "is_emergency")
    (JS.prop messageData "emergency"))
    (JS.opt payload "is_emergency"))
    (JS.opt payload "emergency"))
    (VBool false).

Definition deviceName (messageData : value) : value :=
  JS.or (JS.or (JS.prop messageData "deviceId") (JS.prop messageData "device"))
        (VStr "Unknown Device").

(** [messageData.payload?.<field> || messageData.<field> || 0] *)
Definition reading (messageData : value) (field : string) : value :=
  JS.or (JS.or (JS.opt (JS.prop messageData "payload") field)
               (JS.prop messageData field))
        (VNum 0).

(** [messageData.payload?.gps?.<axis> || messageData.location?.<axis>
     || messageData.gps?.<axis> || fallback] *)
Definition coordinate (messageData : value) (axis : string) (fallback : float) : value :=
  JS.or (JS.or (JS.or
    (JS.opt (JS.opt (JS.prop messageData "payload") "gps") axis)
    (JS.opt (JS.prop messageData "location") axis))
    (JS.opt (JS.prop messageData "gps") axis))
    (VNum fallback).

Definition fireAlertPayload (messageData : value) : value :=
  obj [
    ("deviceId", deviceName messageData);
    ("temperature", reading messageData "temperature");
    ("humidity", reading messageData "humidity");
    ("smoke_level", reading messageData "smoke_level");
    ("air_quality", reading messageData "air_quality");
    ("location", obj [
       ("latitude", coordinate messageData "latitude" 36.006397);
       ("longitude", coordinate messageData "longitude" 10.1715) ]);
    ("timestamp", JS.or (JS.prop messageData "timestamp")
                        (VStr (NumberToString Date_now)));
    ("alertTime", VStr now_iso);
    ("emergency", VBool true);
    ("severity", JS.or (JS.prop messageData "severity") (VStr "CRITICAL")) ].

Definition fireAlertData (messageData : value) : result value :=
  d ← ToString (deviceName messageData);
  Ok (obj [
    ("type", VStr "FIRE_EMERGENCY");
    ("level", VStr "CRITICAL");
    ("title", VStr "🚨 WILDFIRE EMERGENCY!");
    ("message", VStr ("Emergency detected by " +:+ d +:+ "!"));
    ("data", fireAlertPayload messageData);
    ("timestamp", VStr now_iso);
    ("urgent", VBool true) ]).

Definition mentions_fire (subject : value) : result bool :=
  if JS.truthy subject then
    lowered ← JS.call_toLowerCase subject;
    Ok (JS.includes lowered "fire")
  else Ok false.

Definition processNotification (subject messageData : value) : M unit :=
  try_catch
    (_ ← lift (ToString subject);
     log LInfo "Processing notification";;
     fire ← lift (mentions_fire subject);
     (if fire : bool then
        log LWarn "FIRE-RELATED NOTIFICATION DETECTED!";;
        if JS.truthy messageData && JS.typeof_object messageData then
          if JS.truthy (isEmergency messageData) then
            log LError "EMERGENCY STATUS CONFIRMED IN MESSAGE DATA!";;
            alert ← lift (fireAlertData messageData);
            io ← get_global_io;
            if io : bool then
              emit ToAll "fire-emergency" alert;;
              log LInfo "FIRE EMERGENCY BROADCASTED TO ALL CLIENTS"
            else
              log LWarn "WebSocket not available for broadcasting"
          else mret ()
        else mret ()
      else mret ());;
     log LInfo "Notification processed successfully")
    (fun error => log LError "Error in processNotification:").

Definition header_is (h : option string) (literal : string) : bool :=
  match h with Some s => String.eqb s literal | None => false end.

Definition subscribeUrl (snsMessage : value) : value :=
  JS.or (JS.or (JS.prop snsMessage "SubscribeURL")
               (JS.prop snsMessage "subscribeURL"))
        (JS.prop snsMessage "SubscribeUrl").

(** The [SubscriptionConfirmation] case of the switch. *)
Definition confirmSubscription (snsMessage : value) : M unit :=
  log LInfo "SNS Subscription Confirmation received";;
  log_with LOG_LEVEL LInfo "Subscription URL:" (subscribeUrl snsMessage);;
  if JS.truthy (subscribeUrl snsMessage) then
    try_catch
      (response ← fetch (subscribeUrl snsMessage);
       if ok response then log LInfo "Auto-confirmed SNS subscription:"
       else log LError "Confirmation request failed:")
      (fun error => log LError "Failed to auto-confirm subscription:")
  else
    log LWarn "No SubscribeURL found in confirmation message".

(** The envelope the /sns handler reads out of [req.body]: a Buffer or a
    string is parsed, anything else is taken as it is. *)
Definition parse_body (b : body) : result value :=
  match b with
  | BodyBuffer text => JSON_parse (VStr text)
  | BodyValue (VStr text) => JSON_parse (VStr text)
  | BodyValue v => Ok v
  end.

(** The two answers of the /sns handler. *)
Definition acknowledged (messageId : value) : response :=
  {| status := 200;
     sent := JsonBody (obj [
       ("success", VBool true);
       ("message", VStr "SNS notification processed");
       ("messageId", messageId);
       ("timestamp", VStr now_iso) ]) |}.

Definition refused (error : error) : response :=
  {| status := 500;
     sent := JsonBody (obj [
       ("success", VBool false);
       ("error", VStr (message_of error)) ]) |}.

(** [router.post('/webhook', ...)], mounted at /sns. *)
Definition sns_webhook (req : request) : M response :=
  try_catch
    (snsMessage ← lift (parse_body (req_body req));
     messageId ← lift (JS.member snsMessage "MessageId");
     _ ← lift (JS.member snsMessage "Timestamp");
     log LInfo "Received SNS notification:";;
     (if header_is (message_type req) "SubscriptionConfirmation" then
        confirmSubscription snsMessage
      else if header_is (message_type req) "Notification" then
        log LInfo "SNS Notification received";;
        messageData ← try_catch
          (lift (JSON_parse (JS.prop snsMessage "Message")))
          (fun error => mret (JS.prop snsMessage "Message"));
        processNotification (JS.prop snsMessage "Subject") messageData
      else if header_is (message_type req) "UnsubscribeConfirmation" then
        log LInfo "SNS Unsubscribe Confirmation received"
      else
        log LWarn "Unknown SNS message type:");;
     mret (acknowledged messageId))
    (fun error =>
       log LError "Error processing SNS notification:";;
       mret (refused error)).

(** *** routes/fireAlerts.js *)

(** The envelope the /webhook handler reads: [req.body.toString()] under
    content type text/plain, [req.body] otherwise, through [JSON.parse]. *)
Definition parse_alert_body (req : request) : result value :=
  let text_plain :=
    match content_type req with
    | Some ct => JS.truthy (VStr ct) && JS.includes ct "text/plain"
    | None => false
    end in
  body ← match req_body req with
         | BodyBuffer text => Ok (VStr text)
         | BodyValue v =>
             if text_plain then
               if JS.nullish v then Throw TypeError
               else s ← ToString v; Ok (VStr s)
             else Ok v
         end;
  JSON_parse body.

(** The answers of the /webhook handler. *)
Definition alert_failed : response :=
  {| status := 500;
     sent := JsonBody (obj [("error", VStr "Failed to process fire alert")]) |}.
Definition subscription_processed : response :=
  {| status := 200; sent := TextBody "SNS Subscription processed" |}.
Definition alert_ok : response :=
  {| status := 200; sent := TextBody "OK" |}.

(** [router.post('/fire-alert', ...)], mounted at /webhook. *)
Definition fire_alert_webhook (req : request) : M response :=
  try_catch
    (message ← lift (parse_alert_body req);
     type ← lift (JS.member message "Type");
     log_with LOG_LEVEL LInfo "SNS message received:" type;;
     if JS.is_string type "SubscriptionConfirmation" then
       log LInfo "SNS Subscription confirmation received";;
       log_with LOG_LEVEL LInfo "Confirmation URL:" (JS.prop message "SubscribeURL");;
       try_catch
         (_ ← fetch (JS.prop message "SubscribeURL");
          log LInfo "SNS Subscription confirmed automatically")
         (fun error => log LError "Failed to auto-confirm SNS subscription:");;
       mret subscription_processed
     else
       (if JS.is_string type "Notification" then
          alertData ← lift (JSON_parse (JS.prop message "Message"));
          log LWarn "FIRE EMERGENCY ALERT RECEIVED FROM AWS LAMBDA";;
          (* the details printed to the console *)
          deviceId ← lift (JS.member alertData "deviceId");
          _ ← lift (ToString (JS.prop alertData "temperature"));
          _ ← lift (ToString (JS.prop alertData "humidity"));
          location ← lift (JS.member alertData "location");
          latitude ← lift (JS.member location "latitude");
          _ ← lift (ToString latitude);
          longitude ← lift (JS.member location "longitude");
          _ ← lift (ToString longitude);
          (* the broadcast *)
          d ← lift (ToString deviceId);
          let emergencyBroadcast := obj [
            ("type", VStr "FIRE_EMERGENCY");
            ("level", VStr "CRITICAL");
            ("title", VStr "🚨 WILDFIRE EMERGENCY DETECTED!");
            ("message", VStr ("Fire emergency detected by " +:+ d));
            ("data", obj [
               ("deviceId", deviceId);
               ("temperature", JS.prop alertData "temperature");
               ("humidity", JS.prop alertData "humidity");
               ("smoke_level", JS.prop alertData "smoke_level");
               ("air_quality", JS.prop alertData "air_quality");
               ("location", obj [ ("latitude", latitude);
                                  ("longitude", longitude) ]);
               ("timestamp", JS.prop alertData "timestamp");
               ("alertTime", JS.prop alertData "alertTime");
               ("emergency", VBool true);
               ("severity", JS.or (JS.prop alertData "severity")
                                  (VStr "CRITICAL")) ]);
            ("ui", ui_critical);
            ("timestamp", VStr now_iso) ] in
          io ← get_global_io;
          (if io : bool then
             emit ToAll "fire-emergency" emergencyBroadcast;;
             emit (ToRoom ("device-" +:+ d)) "device-emergency" emergencyBroadcast;;
             emit ToAll "emergency-popup" emergencyBroadcast;;
             log LInfo "FIRE EMERGENCY broadcasted to connected clients"
           else
             log LError "WebSocket not available! Cannot broadcast emergency alert!");;
          log LError "FIRE EMERGENCY PROCESSED:"
        else mret ());;
       mret alert_ok)
    (fun error =>
       log LError "Error processing fire alert webhook:";;
       mret alert_failed).

End Server.

(** ** The scoring policy as the specification tabulates it *)

Module Spec.

Inductive tier : Type := LOW | MODERATE | HIGH | CRITICAL | EXTREME.

Definition tier_name (t : tier) : string :=
  match t with
  | LOW => "LOW" | MODERATE => "MODERATE" | HIGH => "HIGH"
  | CRITICAL => "CRITICAL" | EXTREME => "EXTREME"
  end.

(** A metric's table: (threshold, points). *)
Definition temperature_table : list (float * Z) :=
  [(35%float, 1%Z); (45%float, 2%Z); (60%float, 3%Z)].
Definition humidity_table : list (float * Z) :=
  [(50%float, 1%Z); (35%float, 2%Z); (20%float, 3%Z)].
Definition smoke_table : list (float * Z) :=
  [(100%float, 1%Z); (200%float, 2%Z); (300%float, 3%Z)].
Definition air_quality_table : list (float * Z) :=
  [(150%float, 1%Z); (250%float, 2%Z)].

Definition above (x threshold : float) : bool := PrimFloat.ltb threshold x.
Definition below (x threshold : float) : bool := PrimFloat.ltb x threshold.

(** The rows a reading matches, and the largest award among them: only the
    highest matching row counts, rows do not add up. *)
Definition matching (meets : float -> float -> bool) (table : list (float * Z))
    (x : float) : list Z :=
  (filter (fun row => meets x row.1 = true) table).*2.

Definition contribution (meets : float -> float -> bool)
    (table : list (float * Z)) (x : float) : Z :=
  foldr Z.max 0%Z (matching meets table x).

Definition total (t h s a : float) : Z :=
  (contribution above temperature_table t
   + contribution below humidity_table h
   + contribution above smoke_table s
   + contribution above air_quality_table a)%Z.

(** The first candidate that is truthy, or [otherwise]. *)
Definition first_truthy (candidates : list value) (otherwise : value) : value :=
  default otherwise (head (filter (fun v => JS.truthy v = true) candidates)).

(** A subject that contains the keyword, whatever the case. *)
Definition subject_has_fire (subject : value) : bool :=
  match subject with
  | VStr s => JS.includes (JS.toLowerCase s) "fire"
  | _ => false
  end.

Definition tier_names : list string :=
  ["LOW"; "MODERATE"; "HIGH"; "CRITICAL"; "EXTREME"].

Definition tier_table : list (Z * tier) :=
  [(8, EXTREME); (6, CRITICAL); (4, HIGH); (2, MODERATE)]%Z.

Definition tier_of (score : Z) : tier :=
  default LOW (snd <$> head (filter (fun row => (row.1 <= score)%Z) tier_table)).

End Spec.

(** ** Conditions on a payload *)

(** The fields [validateAlertData] insists on, all present and truthy. *)
Definition required_present (data : value) : bool :=
  JS.truthy (JS.prop data "deviceId")
  && JS.truthy (JS.prop data "temperature")
  && JS.truthy (JS.prop data "location")
  && JS.truthy (JS.prop (JS.prop data "location") "latitude")
  && JS.truthy (JS.prop (JS.prop data "location") "longitude").

(** A reading that is absent or a primitive. *)
Definition scalar (v : value) : bool :=
  match v with VArr _ | VObj _ => false | _ => true end.

(** ** Sample inputs *)

Module Sample.

(** Stand-ins for the engine and the environment in the examples: no
    example consults the number conversions or the network beyond what is
    fixed here. *)
Definition NumberToString : float -> string := fun _ => "0".
Definition StringToNumber : string -> float := fun _ => nan.
Definition now_iso : string := "2025-01-01T00:00:00.000Z".
Definition Date_now : float := 0%float.
Definition random_suffix : string := "k3j9x2m1q".
Definition engine_message : error -> string := fun _ => "engine error".
(** [LOG_LEVEL] is not set: the logger prints at info. *)
Definition LOG_LEVEL : option string := None.
Definition unreachable : list event -> value -> result fetch_response :=
  fun _ _ => Throw (Error "request to the confirmation URL failed").

Definition quoted (s : string) : string :=
  String (Ascii.ascii_of_nat 34) (s +:+ String (Ascii.ascii_of_nat 34) "").

(** The text [{"Type":"Notification","Message":"{}"}]. *)
Definition envelope_text : string :=
  "{" +:+ quoted "Type" +:+ ":" +:+ quoted "Notification" +:+ ","
      +:+ quoted "Message" +:+ ":" +:+ quoted "{}" +:+ "}".

(** A text as it stands inside a JSON string: each double quote takes a
    backslash. *)
Fixpoint escape (s : string) : string :=
  match s with
  | EmptyString => EmptyString
  | String c r =>
      if Ascii.eqb c (Ascii.ascii_of_nat 34)
      then String (Ascii.ascii_of_nat 92) (String c (escape r))
      else String c (escape r)
  end.

(** The text
    [{"deviceId":"Node-1","temperature":95.5,
      "location":{"latitude":36.5,"longitude":10.25}}]. *)
Definition alert_text : string :=
  "{" +:+ quoted "deviceId" +:+ ":" +:+ quoted "Node-1" +:+ ","
      +:+ quoted "temperature" +:+ ":95.5,"
      +:+ quoted "location" +:+ ":{" +:+ quoted "latitude" +:+ ":36.5,"
      +:+ quoted "longitude" +:+ ":10.25}}".

Definition located : value :=
  obj [ ("deviceId", VStr "Node-1"); ("temperature", VNum 95.5);
        ("location", obj [("latitude", VNum 36.5); ("longitude", VNum 10.25)]) ].

(** The text [{"Type":"Notification","Subject":"Routine Check",
    "Message":"..."}] whose Message is [alert_text]. *)
Definition routine_text : string :=
  "{" +:+ quoted "Type" +:+ ":" +:+ quoted "Notification" +:+ ","
      +:+ quoted "Subject" +:+ ":" +:+ quoted "Routine Check" +:+ ","
      +:+ quoted "Message" +:+ ":" +:+ quoted (escape alert_text) +:+ "}".

(** The text [{"Type":"SubscriptionConfirmation",
    "SubscribeURL":"https://sns.example/confirm"}]. *)
Definition confirmation_text : string :=
  "{" +:+ quoted "Type" +:+ ":" +:+ quoted "SubscriptionConfirmation" +:+ ","
      +:+ quoted "SubscribeURL" +:+ ":" +:+ quoted "https://sns.example/confirm"
      +:+ "}".

Definition confirmation_message : value :=
  obj [ ("Type", VStr "SubscriptionConfirmation");
        ("SubscribeURL", VStr "https://sns.example/confirm") ].

(** The text [{"Type":"SubscriptionConfirmation","MessageId":"c-3",
    "SubscribeURL":null,"SubscribeUrl":null}]. *)
Definition unaddressed_text : string :=
  "{" +:+ quoted "Type" +:+ ":" +:+ quoted "SubscriptionConfirmation" +:+ ","
      +:+ quoted "MessageId" +:+ ":" +:+ quoted "c-3" +:+ ","
      +:+ quoted "SubscribeURL" +:+ ":null,"
      +:+ quoted "SubscribeUrl" +:+ ":null}".

Definition unaddressed : value :=
  obj [ ("Type", VStr "SubscriptionConfirmation");
        ("MessageId", VStr "c-3");
        ("SubscribeURL", VNull);
        ("SubscribeUrl", VNull) ].

(** [JSON.parse] on the texts the examples feed it; any other text the
    examples use ("[object Object]") is not JSON. *)
Definition JSON_parse_text (s : string) : option value :=
  if String.eqb s envelope_text then
    Some (obj [("Type", VStr "Notification"); ("Message", VStr "{}")])
  else if String.eqb s routine_text then
    Some (obj [ ("Type", VStr "Notification");
                ("Subject", VStr "Routine Check");
                ("Message", VStr alert_text) ])
  else if String.eqb s alert_text then Some located
  else if String.eqb s "{}" then Some (obj [])
  else if String.eqb s confirmation_text then Some confirmation_message
  else if String.eqb s unaddressed_text then Some unaddressed
  else None.

Definition world0 : world :=
  {| trace := [];
     hub := {| clients := ∅; rooms := ∅ |};
     global_io := true;
     service := new_FireAlertService |}.

(** One client, connected and subscribed to the fire alerts. *)
Definition subscribed : world :=
  ((on_connection now_iso "c1";; on_subscribe_fire_alerts now_iso "c1") world0).2.

(** Scenario 1 of the specification, flattened. *)
Definition readings : value :=
  obj [ ("deviceId", VStr "Node-1");
        ("temperature", VNum 95.5); ("humidity", VNum 15.25);
        ("smoke_level", VNum 950); ("air_quality", VNum 120) ].

Definition alerts : list value :=
  (fun n => VArr (replicate n VNull)) <$> seq 0 101.

(** Readings that score 3 + 3 + 3 + 2 and carry no emergency flag. *)
Definition unflagged : value :=
  obj [ ("deviceId", VStr "Node-1");
        ("temperature", VNum 70); ("humidity", VNum 10);
        ("smoke_level", VNum 400); ("air_quality", VNum 300) ].

(** The same reading at top level and under [payload]. *)
Definition twice_temperature : value :=
  obj [ ("is_emergency", VBool true);
        ("temperature", VNum 10);
        ("payload", obj [("temperature", VNum 99)]) ].

(** A latitude of exactly 0 next to a longitude of 5. *)
Definition equator : value :=
  obj [ ("is_emergency", VBool true);
        ("location", obj [("latitude", VNum 0); ("longitude", VNum 5)]) ].

(** A payload without [location], and one with temperature 0. *)
Definition no_location : value :=
  obj [ ("deviceId", VStr "Node-1"); ("temperature", VNum 95.5) ].
Definition freezing : value :=
  obj [ ("deviceId", VStr "Node-1"); ("temperature", VNum 0);
        ("location", obj [("latitude", VNum 36.5); ("longitude", VNum 10.25)]) ].
Definition complete : value :=
  obj [ ("deviceId", VStr "Node-1"); ("temperature", VNum 95.5);
        ("humidity", VNum 15.25); ("smoke_level", VNum 950);
        ("location", obj [("latitude", VNum 36.5); ("longitude", VNum 10.25)]) ].

(** The alert [processNotification] builds from a message. *)
Definition alert_of (messageData : value) : value :=
  match fireAlertData NumberToString now_iso Date_now messageData with
  | Ok alert => alert
  | Throw _ => VUndefined
  end.

Definition notification (subject : string) : request :=
  {| message_type := Some "Notification";
     content_type := Some "application/json";
     req_body := BodyValue (obj [ ("Type", VStr "Notification");
                                  ("MessageId", VStr "m-1");
                                  ("Subject", VStr subject);
                                  ("Message", VStr "{}") ]) |}.

Definition confirmation : request :=
  {| message_type := Some "SubscriptionConfirmation";
     content_type := Some "text/plain; charset=UTF-8";
     req_body := BodyValue confirmation_message |}.


(** A confirmation whose URL is [null], parsed by [express.json] and as a
    text. *)
Definition confirmation_without_url : request :=
  {| message_type := Some "SubscriptionConfirmation";
     content_type := Some "application/json";
     req_body := BodyValue unaddressed |}.

Definition alias_confirmation_without_url : request :=
  {| message_type := Some "SubscriptionConfirmation";
     content_type := Some "text/plain; charset=UTF-8";
     req_body := BodyBuffer unaddressed_text |}.

(** An SNS delivery to /webhook/fire-alert whose alert has no location. *)
Definition alias_delivery : request :=
  {| message_type := Some "Notification";
     content_type := Some "text/plain; charset=UTF-8";
     req_body := BodyBuffer envelope_text |}.

(** An SNS delivery to /webhook/fire-alert under the subject
    "Routine Check". *)
Definition routine_delivery : request :=
  {| message_type := Some "Notification";
     content_type := Some "text/plain; charset=UTF-8";
     req_body := BodyBuffer routine_text |}.

End Sample.

(** The world with another history in the service. *)
Definition with_history (w : world) (h : list value) : world :=
  {| trace := trace w; hub := hub w; global_io := global_io w;
     service := {| alertHistory := h;
                   maxHistorySize := maxHistorySize (service w) |} |}.

(** ** The rest of services/fireAlertService.js *)

(** The order of the tiers. *)
Definition tier_rank (t : Spec.tier) : nat :=
  match t with
  | Spec.LOW => 0 | Spec.MODERATE => 1 | Spec.HIGH => 2
  | Spec.CRITICAL => 3 | Spec.EXTREME => 4
  end.

(** What one metric adds for a reading that may be absent. *)
Definition reading_points (meets : float -> float -> bool)
    (table : list (float * Z)) (r : option float) : Z :=
  match r with
  | Some x => Spec.contribution meets table x
  | None => 0%Z
  end.

Definition reading_value (r : option float) : value :=
  match r with Some x => VNum x | None => VUndefined end.

(** The score of four readings, each a number or absent. *)
Definition readings_total (rt rh rs ra : option float) : Z :=
  (reading_points Spec.above Spec.temperature_table rt
   + reading_points Spec.below Spec.humidity_table rh
   + reading_points Spec.above Spec.smoke_table rs
   + reading_points Spec.above Spec.air_quality_table ra)%Z.

(** A reading that is kept, or dropped from the payload. *)
Definition kept_or_dropped (r r' : option float) : Prop :=
  r' = r \/ r' = None.

(** A counter of [getSeverityBreakdown]: a number of alerts, or the NaN that
    [++] leaves on a property that did not hold a number. *)
Inductive count : Type :=
| Count (n : nat)
| NotANumber.

(** What [colors[severity] || '#FF0000'] evaluates to: a colour code, or the
    member of [Object.prototype] the key names. *)
Inductive color : Type :=
| Hex (code : string)
| Inherited (name : string).

Record ui_hints : Type := {
  ui_showPopup : bool;
  ui_autoExpire : bool;
  ui_sound : bool;
  ui_vibrate : bool;
  ui_priority : string;
  ui_color : color
}.

(** The object [createEmergencyBroadcast] returns. *)
Record EmergencyBroadcast : Type := {
  broadcast_type : string;
  broadcast_level : value;
  broadcast_title : string;
  broadcast_message : string;
  broadcast_alert : value;
  broadcast_ui : ui_hints;
  broadcast_timestamp : string
}.

(** The object [getAlertStats] returns. *)
Record AlertStats : Type := {
  stats_total : nat;
  stats_last24Hours : nat;
  stats_lastWeek : nat;
  stats_severityBreakdown : gmap string count;
  stats_timestamp : string
}.

(** [array.filter(callback)] for a callback that can throw. *)
Fixpoint filter_throwing {A} (keep : A -> result bool) (l : list A) : result (list A) :=
  match l with
  | [] => Ok []
  | x :: rest =>
      b ← keep x;
      kept ← filter_throwing keep rest;
      Ok (if b : bool then x :: kept else kept)
  end.

(** [array.forEach(callback)] threading what the callback mutates. *)
Fixpoint forEach_throwing {A S} (visit : S -> A -> result S) (l : list A) (s : S) : result S :=
  match l with
  | [] => Ok s
  | x :: rest => s' ← visit s x; forEach_throwing visit rest s'
  end.

(** [array.map(callback)] for a callback that can throw. *)
Fixpoint map_throwing {A B} (f : A -> result B) (l : list A) : result (list B) :=
  match l with
  | [] => Ok []
  | x :: rest => y ← f x; ys ← map_throwing f rest; Ok (y :: ys)
  end.

Section ServiceRest.

Variable NumberToString : float -> string.
Variable StringToNumber : string -> float.
Variable now_iso : string.
Variable Date_now : float.
Variable random_suffix : string.

(** [Date.parse] on a text and the time value of a number, both [None] for
    an invalid date, and the clock reading [now.getTime()]. *)
Variable Date_parse_text : string -> option Z.
Variable NumberToTime : float -> option Z.
Variable now_ms : Z.

(** The time value of [new Date(t)] for an integer [t]. *)
Definition TimeClip (t : Z) : option Z :=
  if (Z.abs t <=? 8640000000000000)%Z then Some t else None.

(** The time value of [new Date(v)]. *)
Definition new_Date (v : value) : result (option Z) :=
  match v with
  | VUndefined => Ok None
  | VNull => Ok (Some 0%Z)
  | VBool b => Ok (Some (if b then 1%Z else 0%Z))
  | VNum x => Ok (NumberToTime x)
  | VStr s => Ok (Date_parse_text s)
  | VArr _ | VObj _ =>
      s ← ToString NumberToString v; Ok (Date_parse_text s)
  end.

(** [a > b] on two dates. *)
Definition date_gt (a b : option Z) : bool :=
  match a, b with
  | Some x, Some y => (y <? x)%Z
  | _, _ => false
  end.

(** [alert => new Date(alert.timestamp) > threshold] *)
Definition newer_than (threshold : option Z) (alert : value) : result bool :=
  timestamp ← JS.member alert "timestamp";
  d ← new_Date timestamp;
  Ok (date_gt d threshold).

Definition empty_breakdown : gmap string count :=
  list_to_map [ ("EXTREME", Count 0); ("CRITICAL", Count 0); ("HIGH", Count 0);
                ("MODERATE", Count 0); ("LOW", Count 0) ].

(** One round of the [forEach] in [getSeverityBreakdown]. *)
Definition count_alert (breakdown : gmap string count) (alert : value)
    : result (gmap string count) :=
  severity ← JS.member alert "severity";
  key ← ToString NumberToString severity;
  match breakdown !! key with
  | Some (Count n) => Ok (<[ key := Count (S n) ]> breakdown)
  | Some NotANumber => Ok breakdown
  | None =>
      if bool_decide (key ∈ Object_prototype_names) then
        if String.eqb key "__proto__" then Ok breakdown
        else Ok (<[ key := NotANumber ]> breakdown)
      else Ok breakdown
  end.

Definition getSeverityBreakdown : M (gmap string count) :=
  s ← get_service;
  lift (forEach_throwing count_alert (alertHistory s) empty_breakdown).

Definition getAlertStats : M AlertStats :=
  let last24h := TimeClip (now_ms - 24 * 60 * 60 * 1000) in
  let lastWeek := TimeClip (now_ms - 7 * 24 * 60 * 60 * 1000) in
  s ← get_service;
  last24hAlerts ← lift (filter_throwing (newer_than last24h) (alertHistory s));
  lastWeekAlerts ← lift (filter_throwing (newer_than lastWeek) (alertHistory s));
  breakdown ← getSeverityBreakdown;
  mret {| stats_total := length (alertHistory s);
          stats_last24Hours := length last24hAlerts;
          stats_lastWeek := length lastWeekAlerts;
          stats_severityBreakdown := breakdown;
          stats_timestamp := now_iso |}.

(** The alert [processFireAlert] builds once the severity is known. *)
Definition assessment (alertData : value) (severity : string) : value :=
  obj [
    ("id", VStr (generateAlertId NumberToString Date_now random_suffix));
    ("type", VStr "FIRE_EMERGENCY");
    ("deviceId", JS.prop alertData "deviceId");
    ("severity", VStr severity);
    ("timestamp", VStr now_iso);
    ("data", obj [
       ("temperature", JS.prop alertData "temperature");
       ("humidity", JS.prop alertData "humidity");
       ("smoke_level", JS.prop alertData "smoke_level");
       ("air_quality", JS.prop alertData "air_quality");
       ("location", JS.prop alertData "location") ]);
    ("emergency", VBool true);
    ("processed", VBool true) ].

Definition severity_colors : list (string * string) :=
  [ ("EXTREME", "#8B0000"); ("CRITICAL", "#FF0000"); ("HIGH", "#FF4500");
    ("MODERATE", "#FFA500"); ("LOW", "#FFD700") ].

Definition getSeverityColor (severity : value) : result color :=
  key ← ToString NumberToString severity;
  match (list_to_map severity_colors : gmap string string) !! key with
  | Some code => Ok (Hex code)   (* every code of the table is truthy *)
  | None =>
      if bool_decide (key ∈ Object_prototype_names) then Ok (Inherited key)
      else Ok (Hex "#FF0000")
  end.

Definition createEmergencyBroadcast (alertData : value) : M EmergencyBroadcast :=
  processedAlert ← processFireAlert NumberToString StringToNumber now_iso
                     Date_now random_suffix alertData;
  let severity := JS.prop processedAlert "severity" in
  title ← lift (ToString NumberToString severity);
  device ← lift (ToString NumberToString (JS.prop processedAlert "deviceId"));
  colour ← lift (getSeverityColor severity);
  mret {| broadcast_type := "FIRE_EMERGENCY";
          broadcast_level := severity;
          broadcast_title := "🚨 " +:+ title +:+ " FIRE EMERGENCY!";
          broadcast_message := "Fire emergency detected by " +:+ device;
          broadcast_alert := processedAlert;
          broadcast_ui :=
            {| ui_showPopup := true;
               ui_autoExpire := JS.is_string severity "LOW"
                                || JS.is_string severity "MODERATE";
               ui_sound := true;
               ui_vibrate := true;
               ui_priority := if JS.is_string severity "EXTREME"
                                 || JS.is_string severity "CRITICAL"
                              then "HIGH" else "NORMAL";
               ui_color := colour |};
          broadcast_timestamp := now_iso |}.

End ServiceRest.

(** An alert as [processFireAlert] stores it. *)
Definition is_processed_alert (alert : value) : bool :=
  match JS.prop alert "severity" with
  | VStr severity => bool_decide (severity ∈ Spec.tier_names)
  | _ => false
  end
  && JS.is_string (JS.prop alert "type") "FIRE_EMERGENCY"
  && match JS.prop alert "processed" with VBool b => b | _ => false end
  && match JS.prop alert "emergency" with VBool b => b | _ => false end
  && match JS.prop alert "timestamp" with VStr _ => true | _ => false end.

(** The number a counter holds. *)
Definition counted (breakdown : gmap string count) (key : string) : nat :=
  match breakdown !! key with
  | Some (Count n) => n
  | _ => 0
  end.

(** The alerts of a history that carry a given severity. *)
Definition with_severity (severity : string) (history : list value) : list value :=
  filter (fun alert => JS.is_string (JS.prop alert "severity") severity = true)
         history.

(** The service after [addToHistory(alert)]. *)
Definition stored (alert : value) (s : FireAlertService) : FireAlertService :=
  {| alertHistory :=
       if (maxHistorySize s <? length (alert :: alertHistory s))%nat
       then JS.slice0 (alert :: alertHistory s) (Z.of_nat (maxHistorySize s))
       else alert :: alertHistory s;
     maxHistorySize := maxHistorySize s |}.

(** What the service keeps between calls: the capacity of the constructor,
    a history within it, made of alerts [processFireAlert] built. *)
Definition history_invariant (s : FireAlertService) : Prop :=
  maxHistorySize s = 100
  /\ length (alertHistory s) <= 100
  /\ Forall (fun alert => is_processed_alert alert = true) (alertHistory s).

(** The five counters of a breakdown, added up. *)
Definition counted_total (breakdown : gmap string count) : nat :=
  counted breakdown "EXTREME" + counted breakdown "CRITICAL"
  + counted breakdown "HIGH" + counted breakdown "MODERATE"
  + counted breakdown "LOW".

(** A breakdown whose five counters are numbers. *)
Definition five_counters (b : gmap string count) : Prop :=
  forall k, k ∈ Spec.tier_names -> exists n, b !! k = Some (Count n).

(** ** The rest of the routes *)

Definition get_hub : M Hub := fun w => (Ok (hub w), w).

(** A count as a JS number. *)
Definition Number_of_nat (n : nat) : float :=
  PrimFloat.of_uint63 (Uint63.of_Z (Z.of_nat n)).

(** [global.io.engine.clientsCount] *)
Definition clientsCount (h : Hub) : float := Number_of_nat (size (clients h)).

Section RoutesRest.

Variable NumberToString : float -> string.
Variable now_iso : string.
Variable Date_now : float.
Variable engine_message : error -> string.

(** [Math.floor] of the engine. *)
Variable Math_floor : float -> float.

Local Abbreviation ToString := (ToString NumberToString).
Local Abbreviation processNotification :=
  (processNotification NumberToString now_iso Date_now).

(** *** routes/fireAlerts.js *)

(** [global.io ? global.io.engine.clientsCount : 0] *)
Definition connectedClients : M value :=
  io ← get_global_io;
  h ← get_hub;
  mret (VNum (if io : bool then clientsCount h else 0%float)).

(** [router.get('/test', ...)], mounted at /webhook. *)
Definition fire_alerts_test : M response :=
  io ← get_global_io;
  n ← connectedClients;
  mret {| status := 200;
          sent := JsonBody (obj [
            ("message", VStr "Fire Alert Webhook endpoint is working");
            ("timestamp", VStr now_iso);
            ("websocketAvailable", VBool io);
            ("connectedClients", n) ]) |}.

(** The payload POST /webhook/test-emergency uses for a falsy body. *)
Definition default_test_emergency : value :=
  obj [ ("deviceId", VStr "Test-Node-Emergency");
        ("temperature", VNum 65.8);
        ("humidity", VNum 15.2);
        ("smoke_level", VNum 350);
        ("air_quality", VNum 280);
        ("location", obj [ ("latitude", VNum 36.006397);
                           ("longitude", VNum 10.1715) ]);
        ("timestamp", VStr (NumberToString Date_now));
        ("alertTime", VStr now_iso);
        ("severity", VStr "CRITICAL") ].

(** The envelope POST /webhook/test-emergency sends; [d] is the device id
    as the template literal prints it. *)
Definition testBroadcast (testEmergencyData : value) (d : string) : value :=
  obj [
    ("type", VStr "FIRE_EMERGENCY");
    ("level", VStr "CRITICAL");
    ("title", VStr "🚨 TEST FIRE EMERGENCY!");
    ("message", VStr ("TEST: Fire emergency detected by " +:+ d));
    ("data", testEmergencyData);
    ("ui", ui_critical);
    ("timestamp", VStr now_iso);
    ("isTest", VBool true) ].

Definition test_emergency_failed : response :=
  {| status := 500;
     sent := JsonBody (obj [("error", VStr "Failed to send test emergency")]) |}.

(** [router.post('/test-emergency', ...)], mounted at /webhook; [body] is
    [req.body]. *)
Definition test_emergency (body : value) : M response :=
  try_catch
    (log LInfo "Testing fire emergency simulation";;
     let testEmergencyData := JS.or body default_test_emergency in
     deviceId ← lift (JS.member testEmergencyData "deviceId");
     d ← lift (ToString deviceId);
     io ← get_global_io;
     (if io : bool then
        emit ToAll "fire-emergency" (testBroadcast testEmergencyData d);;
        emit ToAll "emergency-popup" (testBroadcast testEmergencyData d);;
        log LInfo "TEST emergency broadcasted to clients"
      else mret ());;
     n ← connectedClients;
     mret {| status := 200;
             sent := JsonBody (obj [
               ("success", VBool true);
               ("message", VStr "Test emergency sent");
               ("data", testEmergencyData);
               ("connectedClients", n) ]) |})
    (fun error =>
       log LError "Error in test emergency:";;
       mret test_emergency_failed).

(** *** routes/sns.js, the test endpoints *)

(** The message the test endpoints of /sns process when none is sent. *)
Definition testMessage : value :=
  obj [ ("device", VStr "Node 1");
        ("payload", obj [
           ("temperature", VNum 45.5);
           ("humidity", VNum 30.2);
           ("smoke_level", VNum 150);
           ("is_emergency", VBool true);
           ("gps", obj [ ("latitude", VNum 36.006397);
                         ("longitude", VNum 10.1715) ]) ]);
        ("fire_prediction_percentage", VNum 85.5);
        ("timestamp", VNum (Math_floor (PrimFloat.div Date_now 1000))) ].

(** [router.post('/test', ...)], mounted at /sns; [body] is [req.body]. *)
Definition sns_test_post (body : value) : M response :=
  try_catch
    (log LInfo "Test SNS notification received";;
     let message := JS.or body testMessage in
     processNotification (VStr "Fire Alert Test") message;;
     mret {| status := 200;
             sent := JsonBody (obj [
               ("success", VBool true);
               ("message", VStr "Test notification processed");
               ("testData", message) ]) |})
    (fun error =>
       log LError "Error in test endpoint:";;
       mret (refused engine_message error)).

(** [router.get('/test', ...)], mounted at /sns. *)
Definition sns_test_get : M response :=
  try_catch
    (log LInfo "GET Test SNS endpoint accessed";;
     processNotification (VStr "Fire Alert Test") testMessage;;
     mret {| status := 200;
             sent := JsonBody (obj [
               ("success", VBool true);
               ("message", VStr "Test notification processed via GET");
               ("testData", testMessage);
               ("timestamp", VStr now_iso) ]) |})
    (fun error =>
       log LError "Error in GET test endpoint:";;
       mret (refused engine_message error)).

End RoutesRest.

(** *** middleware/errorHandler.js *)

(** What the handler reads off the error it is given. *)
Record thrown : Type := {
  err_name : value;
  err_message : value;
  err_stack : value;
  err_code : value;
  err_statusCode : value;
  err_details : value
}.

(** [res.status(...).json(error)] *)
Record reply : Type := {
  reply_status : value;
  reply_body : gmap string value
}.

(** [errorHandler(err, req, res, next)] under [process.env.NODE_ENV]; the
    call of the logger that opens it only prints. *)
Definition errorHandler (now_iso : string) (NODE_ENV : option string)
    (err : thrown) : reply :=
  let error : gmap string value :=
    list_to_map [ ("success", VBool false);
                  ("message", VStr "Internal server error");
                  ("timestamp", VStr now_iso) ] in
  if JS.is_string (err_name err) "ValidationError" then
    {| reply_status := VNum 400;
       reply_body := <[ "details" := err_details err ]>
                       (<[ "message" := VStr "Validation failed" ]> error) |}
  else if JS.is_string (err_code err) "ResourceNotFoundException" then
    {| reply_status := VNum 404;
       reply_body := <[ "message" := VStr "DynamoDB table not found" ]> error |}
  else if JS.is_string (err_code err) "AccessDeniedException" then
    {| reply_status := VNum 403;
       reply_body := <[ "message" := VStr "Access denied to DynamoDB" ]> error |}
  else if JS.is_string (err_code err) "ThrottlingException"
          || JS.is_string (err_code err) "ProvisionedThroughputExceededException" then
    {| reply_status := VNum 503;
       reply_body := <[ "message" := VStr "Service temporarily unavailable" ]> error |}
  else
    {| reply_status := JS.or (err_statusCode err) (VNum 500);
       reply_body :=
         if header_is NODE_ENV "development" then
           <[ "details" := obj [ ("message", err_message err);
                                 ("stack", err_stack err) ] ]> error
         else error |}.

(** *** middleware/clientDetection.js *)

Definition mobile_agent (userAgent : string) : bool :=
  JS.includes userAgent "React Native"
  || JS.includes userAgent "okhttp"
  || JS.includes userAgent "CFNetwork"
  || JS.includes userAgent "Expo".

Definition web_agent (userAgent : string) : bool :=
  JS.includes userAgent "Mozilla"
  || JS.includes userAgent "Chrome"
  || JS.includes userAgent "Safari"
  || JS.includes userAgent "Firefox"
  || JS.includes userAgent "Edge".

(** The class [[0-9.]]. *)
Definition version_char (c : Ascii.ascii) : bool :=
  let n := Ascii.nat_of_ascii c in
  ((48 <=? n)%nat && (n <=? 57)%nat) || (n =? 46)%nat.

(** The longest run of [[0-9.]] a text starts with. *)
Fixpoint version_run (s : string) : string :=
  match s with
  | EmptyString => EmptyString
  | String c r => if version_char c then String c (version_run r) else EmptyString
  end.

(** What follows a prefix. *)
Fixpoint after_prefix (p s : string) : option string :=
  match p, s with
  | EmptyString, _ => Some s
  | String a p', String b s' =>
      if Ascii.eqb a b then after_prefix p' s' else None
  | String _ _, EmptyString => None
  end.

(** [userAgent.match(/React Native\/([0-9.]+)/)]: the capture group of the
    leftmost match, if there is a match. *)
Fixpoint rnMatch (userAgent : string) : option string :=
  match userAgent with
  | EmptyString => None
  | String _ rest =>
      match after_prefix "React Native/" userAgent with
      | Some tail =>
          if String.eqb (version_run tail) "" then rnMatch rest
          else Some (version_run tail)
      | None => rnMatch rest
      end
  end.

(** What the middleware leaves on the request and in the response
    headers. *)
Record detected : Type := {
  clientType : string;
  clientVersion : string;
  originalUserAgent : string;
  X_Detected_Client : string;
  X_Detected_Version : option string
}.

(** [clientDetection(req, res, next)]; the arguments are the three request
    headers, [None] for a header that was not sent. *)
Definition clientDetection (User_Agent X_Client_Type X_Client_Version : option string)
    : detected :=
  let userAgent := default "" User_Agent in
  let clientType := default "" X_Client_Type in
  let clientVersion := default "" X_Client_Version in
  let detection :=
    if negb (String.eqb clientType "") then
      (JS.toLowerCase clientType, clientVersion)
    else if mobile_agent userAgent then
      ("react-native", default "" (rnMatch userAgent))
    else if web_agent userAgent then ("nextjs", "")
    else ("unknown", "") in
  {| clientType := detection.1;
     clientVersion := if String.eqb detection.2 "" then clientVersion
                      else detection.2;
     originalUserAgent := userAgent;
     X_Detected_Client := detection.1;
     X_Detected_Version := if String.eqb detection.2 "" then None
                           else Some detection.2 |}.

(** *** routes/clientRoutes.js and the rate limiter of server.js *)

Record recommendations : Type := {
  dataLimit : Z;
  refreshInterval : Z;
  useWebSocket : bool;
  enableCaching : option bool
}.

Definition getClientRecommendations (clientType : string) : recommendations :=
  if String.eqb clientType "react-native" then
    {| dataLimit := 50; refreshInterval := 30000;
       useWebSocket := true; enableCaching := Some true |}
  else if String.eqb clientType "nextjs" then
    {| dataLimit := 100; refreshInterval := 15000;
       useWebSocket := true; enableCaching := Some false |}
  else
    {| dataLimit := 25; refreshInterval := 60000;
       useWebSocket := false; enableCaching := None |}.

Definition getOptimalDataLimit (clientType : string) : Z :=
  if String.eqb clientType "react-native" then 50%Z
  else if String.eqb clientType "nextjs" then 100%Z
  else 25%Z.

Definition getAppliedOptimizations (clientType : string) : list string :=
  if String.eqb clientType "react-native" then
    [ "Reduced data payload"; "Compressed field names";
      "Optimized for mobile bandwidth" ]
  else if String.eqb clientType "nextjs" then
    [ "Full data structure"; "SEO-friendly format"; "SSR compatible" ]
  else [ "Basic optimization" ].

(** The [max] of the rate limiter. *)
Definition rate_limit_max (clientType : string) : Z :=
  if String.eqb clientType "react-native" then 300%Z
  else if String.eqb clientType "nextjs" then 200%Z
  else 100%Z.

(** Its [keyGenerator]. *)
Definition rate_limit_key (ip clientType : string) : string :=
  ip +:+ "-" +:+ clientType.

(** [formatResponseForClient(clientType, data)]: for the mobile client a
    record is cut down to four fields under shorter names. *)
Definition compact (record : value) : result value :=
  id ← JS.member record "deviceId";
  Ok (obj [ ("id", id);
            ("value", JS.prop record "value");
            ("time", JS.prop record "timestamp");
            ("status", JS.prop record "status") ]).

Definition formatResponseForClient (clientType : string) (data : value)
    : result value :=
  if String.eqb clientType "react-native" then
    latest ← JS.member data "latest";
    latest' ← (if JS.truthy latest then compact latest else Ok VNull);
    historical ← JS.member (JS.prop data "historical") "items";
    history ← match historical with
              | VArr items => map_throwing compact items
              | _ => Throw TypeError
              end;
    total ← JS.member (JS.prop data "analytics") "totalRecords";
    let inner := JS.prop (JS.prop data "analytics") "analytics" in
    Ok (obj [ ("latest", latest');
              ("history", VArr history);
              ("stats", obj [ ("total", total);
                              ("avg", JS.opt inner "averageValue");
                              ("min", JS.opt inner "minValue");
                              ("max", JS.opt inner "maxValue") ]) ])
  else Ok data.

(** A record and its mobile form. *)
Definition compacted (record entry : value) : Prop :=
  entry = obj [ ("id", JS.prop record "deviceId");
                ("value", JS.prop record "value");
                ("time", JS.prop record "timestamp");
                ("status", JS.prop record "status") ].

(** ** services/dynamodbService.js *)

(** A request to the DocumentClient. *)
Inductive call : Type :=
| Query (params : value)
| Scan (params : value).

(** What the DocumentClient resolves a query or a scan to: [Items] is an
    array or left out. *)
Record Output : Type := {
  Items : option (list value);
  LastEvaluatedKey : value
}.

(** A promise that settled: resolved, or rejected with an error. *)
Inductive outcome (A : Type) : Type :=
| Resolved (a : A)
| Rejected (err : thrown).
Arguments Resolved {A} a.
Arguments Rejected {A} err.

(** The methods of the service, over the calls made so far; what they
    log is printed and not kept, a logger call that throws rejects. *)
Definition D (A : Type) : Type := list call -> outcome A * list call.

#[global] Instance D_ret : MRet D := fun A a calls => (Resolved a, calls).
#[global] Instance D_bind : MBind D := fun A B k m calls =>
  match m calls with
  | (Resolved a, calls') => k a calls'
  | (Rejected err, calls') => (Rejected err, calls')
  end.

Definition reject {A} (err : thrown) : D A := fun calls => (Rejected err, calls).

(** [try { m } catch (error) { handler }] around awaited calls. *)
Definition attempt {A} (m : D A) (handler : thrown -> D A) : D A := fun calls =>
  match m calls with
  | (Resolved a, calls') => (Resolved a, calls')
  | (Rejected err, calls') => handler err calls'
  end.

(** The fields the constructor sets. *)
Record DynamoDBService : Type := {
  tableName : string;
  timestampField : string;
  deviceIdField : string
}.

(** [process.env.NAME || fallback] *)
Definition env_or (variable : option string) (fallback : string) : string :=
  match variable with
  | Some s => if String.eqb s "" then fallback else s
  | None => fallback
  end.

(** A parameter or a destructured property with a default. *)
Definition default_to (v fallback : value) : value :=
  match v with VUndefined => fallback | _ => v end.

(** [Math.min(x, 1000)] on a number. *)
Definition at_most_1000 (x : float) : float :=
  if PrimFloat.is_nan x then nan
  else if PrimFloat.ltb x 1000 then x else 1000%float.

(** [typeof value === 'number' && !isNaN(value)] *)
Definition numeric (v : value) : option float :=
  match v with
  | VNum x => if PrimFloat.is_nan x then None else Some x
  | _ => None
  end.

Section Store.

Variable NumberToString : float -> string.
Variable StringToNumber : string -> float.
Variable engine_message : error -> string.
Variable now_iso : string.
Variable Date_now : float.
Variable Math_floor : float -> float.

(** [err.stack] of an error of the engine, from its name and message. *)
Variable stack_of : string -> string -> string.

(** The table behind the DocumentClient: what a call settles to, given the
    calls made before it. *)
Variable dynamoDb : list call -> call -> outcome Output.

(** [Array.prototype.sort] of the engine under a comparator that can
    throw. *)
Variable Array_sort : (value -> value -> result float) -> list value -> result (list value).

(** [Math.min(...numbers)], [Math.max(...numbers)] and
    [parseFloat(x.toFixed(2))] of the engine. *)
Variable Math_min : list float -> float.
Variable Math_max : list float -> float.
Variable toFixed2 : float -> float.

(** [process.env.DEFAULT_DEVICE_ID] *)
Variable DEFAULT_DEVICE_ID : option string.

Variable this : DynamoDBService.

(** [process.env.LOG_LEVEL] when the logger was made. *)
Variable LOG_LEVEL : option string.

Local Abbreviation ToString := (ToString NumberToString).
Local Abbreviation ToNumber := (ToNumber NumberToString StringToNumber).

(** An error object of the engine, or one made by [new Error(message)]: it
    has a name, a message and a stack, and none of [code], [statusCode],
    [details]. *)
Definition js_error (name message : string) : thrown :=
  {| err_name := VStr name;
     err_message := VStr message;
     err_stack := VStr (stack_of name message);
     err_code := VUndefined;
     err_statusCode := VUndefined;
     err_details := VUndefined |}.

(** An error the methods of the service reject with. *)
Definition plain (err : thrown) : Prop :=
  exists name message,
    err = js_error name message
    /\ name ∈ ["Error"; "TypeError"; "SyntaxError"].

Definition name_of (e : error) : string :=
  match e with
  | TypeError => "TypeError"
  | SyntaxError => "SyntaxError"
  | Error _ => "Error"
  end.

(** A synchronous step inside an async method. *)
Definition step_of {A} (r : result A) : D A :=
  match r with
  | Ok a => mret a
  | Throw e => reject (js_error (name_of e) (message_of engine_message e))
  end.

(** [logger.<method>(message, meta)] inside a method of the service. *)
Definition logged (method : string) (meta : value) : D unit :=
  if formatMessage_throws LOG_LEVEL method meta then step_of (Throw TypeError)
  else mret ().

(** [await this.dynamoDb.query(params).promise()] and the like. *)
Definition send (c : call) : D Output := fun calls =>
  (dynamoDb calls c, calls ++ [c])%list.

(** The constructor, from [DYNAMODB_TABLE_NAME], [TIMESTAMP_FIELD] and
    [DEVICE_ID_FIELD] of the environment. *)
Definition new_DynamoDBService
    (DYNAMODB_TABLE_NAME TIMESTAMP_FIELD DEVICE_ID_FIELD : option string)
    : outcome DynamoDBService :=
  let table := env_or DYNAMODB_TABLE_NAME "" in
  if String.eqb table "" then
    Rejected (js_error "Error"
                "DYNAMODB_TABLE_NAME environment variable is required")
  else
    Resolved {| tableName := table;
                timestampField := env_or TIMESTAMP_FIELD "timestamp";
                deviceIdField := env_or DEVICE_ID_FIELD "deviceId" |}.

(** [catch (error) { logger.error(...); throw new Error(`<label>: ${error.message}`) }] *)
Definition rethrow {A} (label : string) (error : thrown) : D A :=
  message ← step_of (ToString (err_message error));
  reject (js_error "Error" (label +:+ ": " +:+ message)).

Definition actualDeviceId (deviceId : value) : value :=
  JS.or (default_to deviceId VNull)
        (match DEFAULT_DEVICE_ID with Some s => VStr s | None => VUndefined end).

(** The comparator of the sorts in [getDeviceData] and [getAllData]:
    [(b[this.timestampField] || 0) - (a[this.timestampField] || 0)]. *)
Definition newest_first (a b : value) : result float :=
  tb ← JS.member b (timestampField this);
  ta ← JS.member a (timestampField this);
  x ← ToNumber (JS.or tb (VNum 0));
  y ← ToNumber (JS.or ta (VNum 0));
  Ok (PrimFloat.sub x y).

(** The comparator of the sort in [getLatestRecord]: each time is
    [x[this.timestampField] || x.createdAt || x.updatedAt || 0]. *)
Definition time_of (x : value) : result value :=
  t ← JS.member x (timestampField this);
  Ok (JS.or (JS.or (JS.or t (JS.prop x "createdAt")) (JS.prop x "updatedAt"))
            (VNum 0)).

Definition latest_first (a b : value) : result float :=
  aTime ← time_of a;
  bTime ← time_of b;
  x ← ToNumber bTime;
  y ← ToNumber aTime;
  Ok (PrimFloat.sub x y).

(** The [params] of the query in [getLatestRecord]. *)
Definition latestParams (device : value) : value :=
  obj [ ("TableName", VStr (tableName this));
        ("KeyConditionExpression",
         VStr (deviceIdField this +:+ " = :deviceId"));
        ("ExpressionAttributeValues", obj [(":deviceId", device)]);
        ("ScanIndexForward", VBool false);
        ("Limit", VNum 1) ].

(** [getLatestRecord(deviceId = null)] *)
Definition getLatestRecord (deviceId : value) : D value :=
  attempt
    (let device := actualDeviceId deviceId in
     queried ←
       (if JS.truthy device then
          attempt
            (result ← send (Query (latestParams device));
             mret (head (default [] (Items result))))
            (fun queryError =>
               logged "WARN" (err_message queryError);;
               mret None)
        else mret None);
     match queried with
     | Some item => mret item
     | None =>
         result ← send (Scan (obj ([ ("TableName", VStr (tableName this));
                                     ("Limit", VNum 100) ]
                                   ++ (if JS.truthy device
                                       then [ ("FilterExpression",
                                               VStr (deviceIdField this
                                                     +:+ " = :deviceId"));
                                              ("ExpressionAttributeValues",
                                               obj [(":deviceId", device)]) ]
                                       else []))%list));
         match default [] (Items result) with
         | [] => mret VNull
         | items =>
             sortedItems ← step_of (Array_sort latest_first items);
             mret (default VUndefined (head sortedItems))
         end
     end)
    (rethrow "Failed to get latest record").

(** The page a call of [getDeviceData] or [getAllData] returns. *)
Definition page (items : list value) (result : Output) (source : list (string * value))
    : value :=
  obj ([ ("items", VArr items);
         ("count", VNum (Number_of_nat (length items)));
         ("lastEvaluatedKey", LastEvaluatedKey result);
         ("hasMore", VBool (JS.truthy (LastEvaluatedKey result))) ] ++ source)%list.

(** The parameters of the query in [getDeviceData]. *)
Definition queryParams (device limit lastEvaluatedKey : value) : result value :=
  n ← ToNumber limit;
  Ok (obj ([ ("TableName", VStr (tableName this));
             ("KeyConditionExpression",
              VStr (deviceIdField this +:+ " = :deviceId"));
             ("ExpressionAttributeValues", obj [(":deviceId", device)]);
             ("ScanIndexForward", VBool false);
             ("Limit", VNum (at_most_1000 n)) ]
           ++ (if JS.truthy lastEvaluatedKey
               then [("ExclusiveStartKey", lastEvaluatedKey)] else []))%list).

(** The conditions of the scan in [getDeviceData], each with the values
    and the names it needs. *)
Definition scanFilters (device startTime endTime : value)
    : list (string * list (string * value) * list (string * value)) :=
  ((if JS.truthy device
    then [ (deviceIdField this +:+ " = :deviceId", [(":deviceId", device)], []) ]
    else [])
   ++ (if JS.truthy startTime && negb (String.eqb (timestampField this) "")
       then [ ("#ts >= :startTime", [(":startTime", startTime)],
               [("#ts", VStr (timestampField this))]) ]
       else [])
   ++ (if JS.truthy endTime && negb (String.eqb (timestampField this) "")
       then [ ("#ts <= :endTime", [(":endTime", endTime)],
               [("#ts", VStr (timestampField this))]) ]
       else []))%list.

(** [filterExpressions.join(' AND ')] *)
Fixpoint join_AND (conditions : list string) : string :=
  match conditions with
  | [] => ""
  | [c] => c
  | c :: rest => c +:+ " AND " +:+ join_AND rest
  end.

(** The parameters of the scan in [getDeviceData]. *)
Definition scanParams (device limit lastEvaluatedKey startTime endTime : value)
    : result value :=
  n ← ToNumber limit;
  let filters := scanFilters device startTime endTime in
  let values := filters ≫= (fun f => f.1.2) in
  let names := filters ≫= (fun f => f.2) in
  Ok (obj ([ ("TableName", VStr (tableName this));
             ("Limit", VNum (at_most_1000 n)) ]
           ++ (if JS.truthy lastEvaluatedKey
               then [("ExclusiveStartKey", lastEvaluatedKey)] else [])
           ++ (match filters with
               | [] => []
               | _ :: _ =>
                   [ ("FilterExpression", VStr (join_AND ((fun f => f.1.1) <$> filters)));
                     ("ExpressionAttributeValues", obj values) ]
                   ++ (match names with
                       | [] => []
                       | _ :: _ => [("ExpressionAttributeNames", obj names)]
                       end)
               end))%list).

(** [getDeviceData(deviceId = null, options = {})] *)
Definition getDeviceData (deviceId options : value) : D value :=
  attempt
    (let options := default_to options (obj []) in
     limit ← step_of (JS.member options "limit");
     let limit := default_to limit (VNum 100) in
     let lastEvaluatedKey := default_to (JS.prop options "lastEvaluatedKey") VNull in
     let startTime := default_to (JS.prop options "startTime") VNull in
     let endTime := default_to (JS.prop options "endTime") VNull in
     let device := actualDeviceId deviceId in
     queried ←
       (if JS.truthy device then
          attempt
            ((if (JS.truthy startTime || JS.truthy endTime)
                 && negb (String.eqb (timestampField this) "")
              then
                (* [params] is read before its declaration *)
                reject (js_error "ReferenceError"
                          "Cannot access 'params' before initialization")
              else mret ());;
             params ← step_of (queryParams device limit lastEvaluatedKey);
             result ← send (Query params);
             mret (Some (page (default [] (Items result)) result
                              [("source", VStr "query")])))
            (fun queryError =>
               logged "WARN" (err_message queryError);;
               mret None)
        else mret None);
     match queried with
     | Some found => mret found
     | None =>
         params ← step_of (scanParams device limit lastEvaluatedKey startTime endTime);
         result ← send (Scan params);
         sortedItems ←
           (if negb (String.eqb (timestampField this) "")
            then step_of (Array_sort newest_first (default [] (Items result)))
            else mret (default [] (Items result)));
         mret (page sortedItems result [("source", VStr "scan")])
     end)
    (rethrow "Failed to get device data").

(** The start of the window of [getAnalyticsSummary], in seconds. *)
Definition window (timeRange : value) : float :=
  if JS.is_string timeRange "1h" then 3600%float
  else if JS.is_string timeRange "24h" then 86400%float
  else if JS.is_string timeRange "7d" then 604800%float
  else if JS.is_string timeRange "30d" then 2592000%float
  else 86400%float.

(** The [analytics] of a summary. *)
Definition analytics (numericValues : list float) : value :=
  let averageValue :=
    match numericValues with
    | [] => VNull
    | _ :: _ =>
        VNum (PrimFloat.div (foldl PrimFloat.add 0%float numericValues)
                            (Number_of_nat (length numericValues)))
    end in
  obj [ ("averageValue",
         if JS.truthy averageValue
         then match averageValue with
              | VNum x => VNum (toFixed2 x)
              | _ => VNull
              end
         else VNull);
        ("minValue", match numericValues with
                     | [] => VNull
                     | _ :: _ => VNum (Math_min numericValues)
                     end);
        ("maxValue", match numericValues with
                     | [] => VNull
                     | _ :: _ => VNum (Math_max numericValues)
                     end);
        ("dataPoints", VNum (Number_of_nat (length numericValues))) ].

(** [getAnalyticsSummary(deviceId = null, timeRange = '24h')] *)
Definition getAnalyticsSummary (deviceId timeRange : value) : D value :=
  attempt
    (let timeRange := default_to timeRange (VStr "24h") in
     let now := Math_floor (PrimFloat.div Date_now 1000) in
     let startTime := PrimFloat.sub now (window timeRange) in
     data ← getDeviceData (default_to deviceId VNull)
              (obj [ ("startTime", VNum startTime);
                     ("endTime", VNum now);
                     ("limit", VNum 1000) ]);
     match JS.prop data "items" with
     | VArr [] =>
         mret (obj [ ("totalRecords", VNum 0);
                     ("timeRange", timeRange);
                     ("latest", VNull);
                     ("oldest", VNull);
                     ("summary",
                      VStr "No data available for the selected time range") ])
     | VArr (latest :: rest) =>
         values ← step_of (map_throwing (fun item => JS.member item "value")
                                        (latest :: rest));
         mret (obj [ ("totalRecords", VNum (Number_of_nat (length (latest :: rest))));
                     ("timeRange", timeRange);
                     ("latest", latest);
                     ("oldest", List.last rest latest);
                     ("analytics", analytics (omap numeric values)) ])
     | _ => step_of (Throw TypeError)
     end)
    (rethrow "Failed to get analytics summary").

(** [testConnection()] *)
Definition testConnection : D value :=
  attempt
    (_ ← send (Scan (obj [ ("TableName", VStr (tableName this));
                           ("Limit", VNum 1) ]));
     mret (obj [ ("success", VBool true);
                 ("message",
                  VStr ("DynamoDB connection successful to table: "
                        +:+ tableName this));
                 ("tableName", VStr (tableName this));
                 ("timestampField", VStr (timestampField this));
                 ("deviceIdField", VStr (deviceIdField this)) ]))
    (fun error =>
       mret (obj [ ("success", VBool false);
                   ("message", err_message error);
                   ("tableName", VStr (tableName this)) ])).

(** *** The routes that answer from the table *)

(** What a handler does with a request: it answers, or it hands an error
    to [next]. *)
Inductive handled : Type :=
| Answered (status : Z) (body : value)
| Forwarded (err : thrown).

(** [router.get('/health/db', ...)], mounted at /api/device. *)
Definition health_db : list call -> handled * list call := fun calls =>
  match testConnection calls with
  | (Resolved result, calls') =>
      (Answered (if JS.truthy (JS.prop result "success") then 200 else 500)
                (obj [ ("success", JS.prop result "success");
                       ("message", JS.prop result "message");
                       ("timestamp", VStr now_iso) ]),
       calls')
  | (Rejected error, calls') => (Forwarded error, calls')
  end.

(** What became of a request: the answer sent, if any, and the error
    handed to [next], if any. *)
Record served : Type := {
  answer : option (Z * value);
  passed_on : option thrown
}.

(** [router.get('/latest', ...)], mounted at /api/device, once
    [getLatestRecord] has settled; [deviceId] is [req.query.deviceId]. *)
Definition latest_settled (deviceId : value) (settled : outcome value) : M served :=
  match settled with
  | Rejected error =>
      log LError "Error in /latest endpoint:";;
      mret {| answer := None; passed_on := Some error |}
  | Resolved latestRecord =>
      if negb (JS.truthy latestRecord) then
        mret {| answer := Some (404%Z, obj [
                  ("success", VBool false);
                  ("message", VStr "No data found for the specified device");
                  ("data", VNull) ]);
                passed_on := None |}
      else
        io ← get_global_io;
        (if io : bool then emit ToAll "latest-data" latestRecord else mret ());;
        let sent := Some (200%Z, obj [ ("success", VBool true);
                                       ("data", latestRecord);
                                       ("timestamp", VStr now_iso) ]) in
        try_catch
          (_ ← lift (ToString (JS.or deviceId (VStr "default")));
           log LInfo "Latest data retrieved for device";;
           mret {| answer := sent; passed_on := None |})
          (fun error =>
             log LError "Error in /latest endpoint:";;
             mret {| answer := sent;
                     passed_on := Some (js_error (name_of error)
                                          (message_of engine_message error)) |})
  end.

Definition latest (deviceId : value) (calls : list call) (w : world)
    : served * list call * world :=
  let (settled, calls') := getLatestRecord deviceId calls in
  match latest_settled deviceId settled w with
  | (Ok done, w') => (done, calls', w')
  | (Throw error, w') =>
      ({| answer := None;
          passed_on := Some (js_error (name_of error)
                               (message_of engine_message error)) |},
       calls', w')
  end.

(** [socket.on('request-latest', ...)] of websocket/socketHandler.js. *)
Definition on_request_latest (id : string) (deviceId : value)
    (calls : list call) (w : world) : list call * world :=
  match getLatestRecord deviceId calls with
  | (Resolved latestData, calls') =>
      (calls', extend w [Emit (ToSocket id) "latest-data" latestData])
  | (Rejected error, calls') =>
      (calls', extend w [ Log LError "Error sending latest data:";
                          Emit (ToSocket id) "error" (obj [
                            ("message", VStr "Failed to fetch latest data");
                            ("error", err_message error) ]) ])
  end.

(** [socket.on('request-analytics', async ({ deviceId, timeRange = '24h' }) => ...)]:
    the parameter is taken apart before the [try] is entered, so for a
    payload that is null or undefined the promise of the handler rejects. *)
Definition on_request_analytics (id : string) (payload : value)
    (calls : list call) (w : world) : outcome unit * list call * world :=
  match JS.member payload "deviceId" with
  | Throw e =>
      (Rejected (js_error (name_of e) (message_of engine_message e)), calls, w)
  | Ok deviceId =>
      let timeRange := default_to (JS.prop payload "timeRange") (VStr "24h") in
      match getAnalyticsSummary deviceId timeRange calls with
      | (Resolved summary, calls') =>
          (Resolved (), calls',
           extend w [Emit (ToSocket id) "analytics-data" summary])
      | (Rejected error, calls') =>
          (Resolved (), calls',
           extend w [ Log LError "Error sending analytics data:";
                      Emit (ToSocket id) "error" (obj [
                        ("message", VStr "Failed to fetch analytics data");
                        ("error", err_message error) ]) ])
      end
  end.

End Store.

(** ** Example runs of the service *)

Module Scenario.

(** [Date.parse] and the clock of the examples: every stored alert carries
    the instant of [Sample.now_iso]; the clock reads one hour later. *)
Definition Date_parse_text : string -> option Z := fun _ => Some 1735689600000%Z.
Definition NumberToTime : float -> option Z := fun _ => None.
Definition now_ms : Z := 1735693200000%Z.

(** A quiet day. *)
Definition calm : value :=
  obj [ ("deviceId", VStr "Node-1");
        ("temperature", VNum 20); ("humidity", VNum 60.5);
        ("smoke_level", VNum 10); ("air_quality", VNum 40) ].

(** Scenario 1 with every reading but the temperature dropped. *)
Definition temperature_only : value :=
  obj [ ("deviceId", VStr "Node-1"); ("temperature", VNum 95.5) ].

(** A payload whose device id is an object with an own [toString]. *)
Definition unprintable : value :=
  obj [ ("deviceId", obj [("toString", VNum 1)]); ("temperature", VNum 95.5);
        ("location", obj [("latitude", VNum 36.5); ("longitude", VNum 10.25)]) ].

(** The service after three payloads, the second of them rejected. *)
Definition after_three : world :=
  foldl (fun u payload =>
           (processFireAlert Sample.NumberToString Sample.StringToNumber
              Sample.now_iso Sample.Date_now Sample.random_suffix payload u).2)
        Sample.world0 [Sample.complete; Sample.no_location; Sample.located].

(** One call of [createEmergencyBroadcast]. *)
Definition broadcast_run : result EmergencyBroadcast * world :=
  createEmergencyBroadcast Sample.NumberToString Sample.StringToNumber
    Sample.now_iso Sample.Date_now Sample.random_suffix
    Sample.complete Sample.world0.

Definition no_broadcast : EmergencyBroadcast :=
  {| broadcast_type := ""; broadcast_level := VUndefined;
     broadcast_title := ""; broadcast_message := "";
     broadcast_alert := VUndefined;
     broadcast_ui := {| ui_showPopup := false; ui_autoExpire := false;
                        ui_sound := false; ui_vibrate := false;
                        ui_priority := ""; ui_color := Hex "" |};
     broadcast_timestamp := "" |}.

Definition broadcast : EmergencyBroadcast :=
  match broadcast_run.1 with Ok b => b | Throw _ => no_broadcast end.

End Scenario.

(** ** Example runs of the hub and the middleware *)

Module Visit.

(** One client, connected. *)
Definition connected : world :=
  (on_connection Sample.now_iso "c1" Sample.world0).2.

(** The client subscribes to a device, an update goes out, the client
    unsubscribes, and a second update goes out. *)
Definition subscribed : world :=
  (on_subscribe_device Sample.NumberToString "c1" (VNum 7) connected).2.
Definition updated : world :=
  (deviceUpdate Sample.NumberToString (VStr "0") (VBool true) subscribed).2.
Definition unsubscribed : world :=
  (on_unsubscribe_device Sample.NumberToString "c1" (VNum 7) updated).2.
Definition updated_again : world :=
  (deviceUpdate Sample.NumberToString (VStr "0") (VBool true) unsubscribed).2.

(** The user agent of a mobile build. *)
Definition mobile : string := "Expo/1017 React Native/0.72.4 (Android 13)".

End Visit.

(** ** Example runs of the table service *)

Module Table.

Definition stack_of : string -> string -> string :=
  fun name message => name +:+ ": " +:+ message.

(** The error of a table that does not exist. *)
Definition not_found : thrown :=
  {| err_name := VStr "ResourceNotFoundException";
     err_message := VStr "Requested resource not found";
     err_stack := VStr "ResourceNotFoundException: Requested resource not found";
     err_code := VStr "ResourceNotFoundException";
     err_statusCode := VNum 400;
     err_details := VUndefined |}.

(** A client whose every call is rejected with that error. *)
Definition missing : list call -> call -> outcome Output :=
  fun _ _ => Rejected not_found.

(** An error of the SDK whose response had no message. *)
Definition unexplained : thrown :=
  {| err_name := VStr "UnknownError";
     err_message := VNull;
     err_stack := VStr "UnknownError: null";
     err_code := VStr "UnknownError";
     err_statusCode := VNum 500;
     err_details := VUndefined |}.

(** A client that rejects every query with that error and finds one record
    in every scan. *)
Definition unqueryable : list call -> call -> outcome Output :=
  fun _ c =>
    match c with
    | Query _ => Rejected unexplained
    | Scan _ => Resolved {| Items := Some [Sample.readings];
                            LastEvaluatedKey := VUndefined |}
    end.

Definition Array_sort : (value -> value -> result float) -> list value -> result (list value) :=
  fun _ items => Ok items.
Definition Math_min : list float -> float := fun _ => 0%float.
Definition Math_max : list float -> float := fun _ => 0%float.
Definition toFixed2 : float -> float := fun x => x.
Definition Math_floor : float -> float := fun x => x.

(** The clock of the examples, in milliseconds. *)
Definition Date_now : float := 1735693200000%float.

(** The service of the sample environment file. *)
Definition service : DynamoDBService :=
  {| tableName := "wildfire-sensor-data";
     timestampField := "timestamp";
     deviceIdField := "deviceId" |}.

(** GET /api/device/latest and a [request-latest] of the socket c1 against
    that client, for the default device. *)
Definition unexplained_latest : served * list call * world :=
  latest Sample.NumberToString Sample.StringToNumber Sample.engine_message
    Sample.now_iso stack_of unqueryable Array_sort (Some "device_001") service
    Sample.LOG_LEVEL VUndefined [] Sample.world0.

Definition unexplained_request : list call * world :=
  on_request_latest Sample.NumberToString Sample.StringToNumber
    Sample.engine_message stack_of unqueryable Array_sort (Some "device_001")
    service Sample.LOG_LEVEL "c1" VUndefined [] Sample.world0.

(** What [getDeviceData()] rejects with when the table is missing. *)
Definition failure : thrown :=
  js_error stack_of "Error"
    "Failed to get device data: Requested resource not found".

(** What /api/client/optimized-data gathered for a device with two
    records. *)
Definition gathered : value :=
  obj [ ("latest", Sample.readings);
        ("historical", obj [ ("items", VArr [Sample.readings; Scenario.calm]);
                             ("count", VNum 2) ]);
        ("analytics", obj [ ("totalRecords", VNum 2) ]) ].

End Table.

(** * Properties *)

(** ** Order facts on binary64 *)

Section FloatOrder.

Lemma SFltb_trans a b c :
  SFltb a b = true -> SFltb b c = true -> SFltb a c = true.
Proof.
  unfold SFltb.
  destruct a as [sa|sa| |sa ma ea], b as [sb|sb| |sb mb eb],
           c as [sc|sc| |sc mc ec]; simpl;
    repeat match goal with s : bool |- _ => destruct s end;
    simpl; try discriminate; try reflexivity.
  all: destruct (Z.compare_spec ea eb), (Z.compare_spec eb ec),
         (Z.compare_spec ea ec); subst; try discriminate; try reflexivity;
       try lia.
  all: rewrite ?Pos.compare_cont_spec; simpl;
       destruct (Pos.compare_spec ma mb), (Pos.compare_spec mb mc),
         (Pos.compare_spec ma mc); subst; simpl;
         try discriminate; try reflexivity; try lia.
Qed.

Lemma ltb_trans (a b c : float) :
  PrimFloat.ltb a b = true -> PrimFloat.ltb b c = true ->
  PrimFloat.ltb a c = true.
Proof. rewrite !ltb_spec. apply SFltb_trans. Qed.

End FloatOrder.

(** ** The classifier against the table *)

Section ClassifierFacts.

Variable NumberToString : float -> string.
Variable StringToNumber : string -> float.

Local Abbreviation above_lit := (gt NumberToString StringToNumber).
Local Abbreviation below_lit := (lt NumberToString StringToNumber).

Local Ltac split_rows :=
  unfold Spec.contribution, Spec.matching, Spec.above, Spec.below;
  rewrite ?filter_cons, ?filter_nil; simpl;
  repeat match goal with
         | H : ?c = _ |- context [decide (?c = true)] => rewrite H
         end;
  repeat case_decide; try discriminate; try congruence; simpl.

Lemma ladder3_above (x c1 c2 c3 : float) :
  PrimFloat.ltb c1 c2 = true -> PrimFloat.ltb c2 c3 = true ->
  ladder3 above_lit (VNum x) c3 c2 c1
  = Ok (Spec.contribution Spec.above [(c1, 1%Z); (c2, 2%Z); (c3, 3%Z)] x).
Proof.
  intros H12 H23. unfold ladder3, gt. simpl.
  destruct (PrimFloat.ltb c3 x) eqn:E3.
  - pose proof (ltb_trans _ _ _ H23 E3) as E2.
    pose proof (ltb_trans _ _ _ H12 E2) as E1.
    split_rows. reflexivity.
  - simpl. destruct (PrimFloat.ltb c2 x) eqn:E2.
    + pose proof (ltb_trans _ _ _ H12 E2) as E1. split_rows. reflexivity.
    + simpl. destruct (PrimFloat.ltb c1 x) eqn:E1; split_rows; reflexivity.
Qed.

Lemma ladder3_below (x c1 c2 c3 : float) :
  PrimFloat.ltb c2 c1 = true -> PrimFloat.ltb c3 c2 = true ->
  ladder3 below_lit (VNum x) c3 c2 c1
  = Ok (Spec.contribution Spec.below [(c1, 1%Z); (c2, 2%Z); (c3, 3%Z)] x).
Proof.
  intros H21 H32. unfold ladder3, lt. simpl.
  destruct (PrimFloat.ltb x c3) eqn:E3.
  - pose proof (ltb_trans _ _ _ E3 H32) as E2.
    pose proof (ltb_trans _ _ _ E2 H21) as E1.
    split_rows. reflexivity.
  - simpl. destruct (PrimFloat.ltb x c2) eqn:E2.
    + pose proof (ltb_trans _ _ _ E2 H21) as E1. split_rows. reflexivity.
    + simpl. destruct (PrimFloat.ltb x c1) eqn:E1; split_rows; reflexivity.
Qed.

Lemma ladder2_above (x c1 c2 : float) :
  PrimFloat.ltb c1 c2 = true ->
  ladder2 above_lit (VNum x) c2 c1
  = Ok (Spec.contribution Spec.above [(c1, 1%Z); (c2, 2%Z)] x).
Proof.
  intros H12. unfold ladder2, gt. simpl.
  destruct (PrimFloat.ltb c2 x) eqn:E2.
  - pose proof (ltb_trans _ _ _ H12 E2) as E1. split_rows. reflexivity.
  - simpl. destruct (PrimFloat.ltb c1 x) eqn:E1; split_rows; reflexivity.
Qed.

Lemma severityLevel_tier (score : Z) :
  severityLevel score = Spec.tier_name (Spec.tier_of score).
Proof.
  unfold severityLevel, Spec.tier_of, Spec.tier_table.
  rewrite ?filter_cons, ?filter_nil. simpl.
  repeat case_decide;
    repeat match goal with
           | |- context [(?a <=? ?b)%Z] => destruct (Z.leb_spec a b)
           end; simpl; try reflexivity; lia.
Qed.

Lemma severityLevel_five (score : Z) :
  severityLevel score ∈ ["LOW"; "MODERATE"; "HIGH"; "CRITICAL"; "EXTREME"].
Proof.
  rewrite severityLevel_tier.
  destruct (Spec.tier_of score); simpl; set_solver.
Qed.

(** C1: on a payload whose four readings are numbers, [calculateSeverity]
    returns the tier the specification's tables assign: per metric the
    largest award among the rows the reading matches, the four awards
    summed, and the sum mapped through the tier table. *)
Theorem C1_severity_matches_table (data : value) (t h s a : float) :
  JS.member data "temperature" = Ok (VNum t) ->
  JS.member data "humidity" = Ok (VNum h) ->
  JS.member data "smoke_level" = Ok (VNum s) ->
  JS.member data "air_quality" = Ok (VNum a) ->
  calculateSeverity NumberToString StringToNumber data
  = Ok (Spec.tier_name (Spec.tier_of (Spec.total t h s a))).
Proof.
  intros Ht Hh Hs Ha. unfold calculateSeverity.
  rewrite Ht, Hh, Hs, Ha. simpl.
  rewrite (ladder3_above t 35 45 60) by reflexivity. simpl.
  rewrite (ladder3_below h 50 35 20) by reflexivity. simpl.
  rewrite (ladder3_above s 100 200 300) by reflexivity. simpl.
  rewrite (ladder2_above a 150 250) by reflexivity. simpl.
  rewrite severityLevel_tier. reflexivity.
Qed.

End ClassifierFacts.

Lemma C1_severity_matches_table_witness :
  calculateSeverity Sample.NumberToString Sample.StringToNumber Sample.readings
  = Ok "EXTREME".
Proof.
  exact (C1_severity_matches_table Sample.NumberToString Sample.StringToNumber
           Sample.readings 95.5 15.25 950 120 eq_refl eq_refl eq_refl eq_refl).
Defined.

(** ** The alert history ring *)

Section History.

Lemma slice0_take {A} (l : list A) (n : nat) :
  JS.slice0 l (Z.of_nat n) = take n l.
Proof.
  unfold JS.slice0.
  destruct (Z.ltb_spec (Z.of_nat n) 0) as [Hneg|_]; [lia|].
  destruct (decide (n <= length l)) as [Hle|Hgt].
  - f_equal. lia.
  - rewrite !take_ge by lia. reflexivity.
Qed.

Lemma slice0_nil {A} (n : Z) : JS.slice0 (@nil A) n = [].
Proof. unfold JS.slice0. apply take_nil. Qed.

Lemma take_app_take {A} (n : nat) (l m : list A) :
  take n (l ++ take n m) = take n (l ++ m).
Proof.
  rewrite !take_app. f_equal.
  rewrite take_take. f_equal. lia.
Qed.

Lemma addToHistory_run (alert : value) (w : world) :
  length (alertHistory (service w)) <= maxHistorySize (service w) ->
  addToHistory alert w
  = (Ok (), with_history w (take (maxHistorySize (service w))
                                 (alert :: alertHistory (service w)))).
Proof.
  intros Hlen. unfold addToHistory, with_history. simpl.
  unfold mbind, M_bind, get_service, put_service. simpl.
  do 3 f_equal.
  destruct (Nat.ltb_spec (maxHistorySize (service w))
              (S (length (alertHistory (service w))))) as [Hlt|Hge].
  - apply slice0_take.
  - rewrite take_ge; [reflexivity | simpl; lia].
Qed.

Lemma add_sequence_run (alerts : list value) : forall w : world,
  length (alertHistory (service w)) <= maxHistorySize (service w) ->
  add_sequence alerts w
  = (Ok (), with_history w (take (maxHistorySize (service w))
                                 (reverse alerts ++ alertHistory (service w)))).
Proof.
  induction alerts as [|a rest IH]; intros w Hlen.
  - simpl. unfold mret, M_ret, with_history. rewrite take_ge by lia.
    destruct w as [t h g [hist cap]]; reflexivity.
  - simpl. unfold mbind, M_bind. rewrite addToHistory_run by exact Hlen.
    rewrite IH.
    + unfold with_history; simpl. do 3 f_equal.
      rewrite take_app_take, reverse_cons, <- app_assoc. reflexivity.
    + simpl. rewrite length_take. lia.
Qed.

(** C7: starting from the empty history of capacity 100, after any run of
    [addToHistory] calls the history holds at most 100 alerts; once
    100 + k alerts (k >= 1) went in, [getRecentAlerts(100)] is exactly the
    last 100 of them, newest first, and an alert among the first k that
    was not inserted again is gone; [getRecentAlerts] leaves the world as
    it was and yields the empty list on an empty history. *)
Theorem C7_history_ring (alerts : list value) (w : world) :
  service w = new_FireAlertService ->
  let w' := (add_sequence alerts w).2 in
  length (alertHistory (service w')) <= 100
  /\ (forall k : nat, 1 <= k -> length alerts = 100 + k ->
        (getRecentAlerts (Some 100%Z) w').1 = Ok (reverse (drop k alerts))
        /\ forall x, x ∈ take k alerts -> x ∉ drop k alerts ->
                     x ∉ reverse (drop k alerts))
  /\ (forall (limit : option Z) (u : world),
        (getRecentAlerts limit u).2 = u
        /\ (alertHistory (service u) = [] ->
            (getRecentAlerts limit u).1 = Ok [])).
Proof.
  intros Hnew w'. subst w'.
  rewrite add_sequence_run by (rewrite Hnew; simpl; lia).
  rewrite Hnew. simpl. rewrite app_nil_r.
  split; [rewrite length_take; lia|]. split.
  - intros k Hk Hlen. split.
    + unfold getRecentAlerts, mbind, M_bind, get_service. simpl.
      change 100%Z with (Z.of_nat 100). rewrite slice0_take, take_take.
      rewrite <- (take_drop k alerts) at 1.
      rewrite reverse_app, take_app_le, take_ge;
        rewrite ?length_reverse, ?length_drop; try lia.
      reflexivity.
    + intros x _ Hout Hin. apply Hout.
      rewrite elem_of_reverse in Hin. exact Hin.
  - intros limit u. split.
    + reflexivity.
    + intros Hempty.
      unfold getRecentAlerts, mbind, M_bind, get_service. simpl.
      rewrite Hempty, slice0_nil. reflexivity.
Qed.

End History.

Lemma C7_history_ring_witness :
  (getRecentAlerts (Some 100%Z) (add_sequence Sample.alerts Sample.world0).2).1
  = Ok (reverse (drop 1 Sample.alerts)).
Proof.
  refine (proj1 (proj1 (proj2
    (C7_history_ring Sample.alerts Sample.world0 eq_refl)) 1 _ _)).
  - lia.
  - reflexivity.
Defined.

(** ** Running the handlers *)

Lemma extend_extend (w : world) (a b : list event) :
  extend (extend w a) b = extend w (a ++ b).
Proof. unfold extend; simpl. rewrite app_assoc. reflexivity. Qed.

Lemma extend_nil (w : world) : extend w [] = w.
Proof. destruct w. unfold extend; simpl. rewrite app_nil_r. reflexivity. Qed.

Lemma new_events_extend (w : world) (new : list event) :
  new_events w (extend w new) = new.
Proof. unfold new_events, extend; simpl. apply drop_app_length. Qed.

Arguments obj : simpl never.

Ltac mrun :=
  repeat (unfold mbind, M_bind, mret, M_ret, try_catch, lift, log, emit,
            record, get_global_io, throw; simpl);
  rewrite ?extend_extend; simpl.

(** One branching point of a handler: the outcome of a step that can throw,
    or a condition. *)
Ltac step :=
  match goal with
  | |- context [match ?r with Ok _ => _ | Throw _ => _ end] =>
      lazymatch r with
      | context [match _ with _ => _ end] => fail
      | _ => destruct r eqn:?
      end
  | |- context [if ?b then _ else _] =>
      lazymatch b with
      | context [match _ with _ => _ end] => fail
      | _ => destruct b eqn:?
      end
  end; mrun.

(** Membership in an explicit list of events, by cases. *)
Ltac among H :=
  repeat (apply elem_of_cons in H; destruct H as [H|H];
          [try discriminate H|]);
  try (apply elem_of_nil in H; destruct H).

Section Notification.

Variable NumberToString : float -> string.
Variable now_iso : string.
Variable Date_now : float.

Local Abbreviation processNotification' :=
  (processNotification NumberToString now_iso Date_now).
Local Abbreviation fireAlertData' :=
  (fireAlertData NumberToString now_iso Date_now).

(** Whatever it is given, [processNotification] returns; it fetches
    nothing, and what it emits is one [fire-emergency] to all clients,
    under the conditions of its nested [if]s. *)
Lemma processNotification_run (subject messageData : value) (w : world) :
  exists new,
    processNotification' subject messageData w = (Ok (), extend w new)
    /\ new <> []
    /\ (forall url, Fetch url ∉ new)
    /\ (forall to name p, Emit to name p ∈ new ->
          to = ToAll /\ name = "fire-emergency"
          /\ fireAlertData' messageData = Ok p
          /\ mentions_fire subject = Ok true
          /\ JS.truthy (isEmergency messageData) = true
          /\ global_io w = true).
Proof.
  unfold processNotification. mrun.
  repeat step.
  all: eexists; (split; [reflexivity|]); (split; [discriminate|]).
  all: split; [intros url H; among H|intros to name p H; among H].
  injection H as -> -> ->. repeat split; assumption.
Qed.

Lemma mentions_fire_string (subject : value) :
  mentions_fire subject = Ok true ->
  exists s, subject = VStr s /\ JS.includes (JS.toLowerCase s) "fire" = true.
Proof.
  unfold mentions_fire.
  destruct (JS.truthy subject); [|discriminate].
  destruct subject; simpl; try discriminate.
  intros [= H]. eauto.
Qed.

Lemma mentions_fire_spec (subject : value) :
  mentions_fire subject = Ok true -> Spec.subject_has_fire subject = true.
Proof.
  intros H. destruct (mentions_fire_string _ H) as (s & -> & Hs). exact Hs.
Qed.

(** When every condition on the way holds, the alert goes out. *)
Lemma processNotification_broadcasts (subject messageData p : value) (w : world) :
  mentions_fire subject = Ok true ->
  JS.truthy messageData && JS.typeof_object messageData = true ->
  JS.truthy (isEmergency messageData) = true ->
  fireAlertData' messageData = Ok p ->
  global_io w = true ->
  Emit ToAll "fire-emergency" p
    ∈ new_events w (processNotification' subject messageData w).2.
Proof.
  intros Hfire Hobj Hflag Hp Hio.
  destruct (mentions_fire_string _ Hfire) as (s & -> & Hs).
  unfold processNotification. mrun.
  rewrite Hfire. mrun. rewrite Hobj, Hflag. mrun.
  rewrite Hp. mrun. rewrite Hio. mrun.
  rewrite new_events_extend. set_solver.
Qed.

Lemma fireAlertData_data (messageData p : value) :
  fireAlertData' messageData = Ok p ->
  JS.prop p "data" = fireAlertPayload NumberToString now_iso Date_now messageData.
Proof.
  unfold fireAlertData.
  destruct (ToString _ _); simpl; [|discriminate].
  intros [= <-]. reflexivity.
Qed.

Lemma or_first_truthy (a : value) (rest : list value) (otherwise : value) :
  Spec.first_truthy (a :: rest) otherwise
  = JS.or a (Spec.first_truthy rest otherwise).
Proof.
  unfold Spec.first_truthy, JS.or. rewrite filter_cons.
  destruct (JS.truthy a); case_decide; try congruence; reflexivity.
Qed.

Lemma or_assoc (a b c : value) : JS.or (JS.or a b) c = JS.or a (JS.or b c).
Proof.
  unfold JS.or. destruct (JS.truthy a) eqn:Ha; [rewrite Ha|]; reflexivity.
Qed.

Lemma isEmergency_first_truthy (messageData : value) :
  isEmergency messageData
  = Spec.first_truthy
      [ JS.prop messageData "is_emergency";
        JS.prop messageData "emergency";
        JS.opt (JS.prop messageData "payload") "is_emergency";
        JS.opt (JS.prop messageData "payload") "emergency" ]
      (VBool false).
Proof.
  unfold isEmergency. rewrite !or_first_truthy, !or_assoc. reflexivity.
Qed.

Lemma deviceName_first_truthy (messageData : value) :
  deviceName messageData
  = Spec.first_truthy
      [ JS.prop messageData "deviceId"; JS.prop messageData "device" ]
      (VStr "Unknown Device").
Proof.
  unfold deviceName. rewrite !or_first_truthy, !or_assoc. reflexivity.
Qed.

Lemma reading_first_truthy (messageData : value) (field : string) :
  reading messageData field
  = Spec.first_truthy
      [ JS.opt (JS.prop messageData "payload") field;
        JS.prop messageData field ]
      (VNum 0).
Proof.
  unfold reading. rewrite !or_first_truthy, !or_assoc. reflexivity.
Qed.

Lemma coordinate_first_truthy (messageData : value) (axis : string) (fallback : float) :
  coordinate messageData axis fallback
  = Spec.first_truthy
      [ JS.opt (JS.opt (JS.prop messageData "payload") "gps") axis;
        JS.opt (JS.prop messageData "location") axis;
        JS.opt (JS.prop messageData "gps") axis ]
      (VNum fallback).
Proof.
  unfold coordinate. rewrite !or_first_truthy, !or_assoc. reflexivity.
Qed.

Lemma truthy_or (a b : value) :
  JS.truthy (JS.or a b) = JS.truthy a || JS.truthy b.
Proof.
  unfold JS.or. destruct (JS.truthy a) eqn:Ha; [rewrite Ha|]; reflexivity.
Qed.

(** C3 (as the code has it): the flag [processNotification] acts on is
    truthy exactly when one of the four raw flags is; no severity tier
    enters it, and nothing is broadcast unless one of the raw flags is
    truthy. *)
Theorem C3_emergency_iff_raw_flag (messageData : value) :
  JS.truthy (isEmergency messageData)
  = JS.truthy (JS.prop messageData "is_emergency")
    || JS.truthy (JS.prop messageData "emergency")
    || JS.truthy (JS.opt (JS.prop messageData "payload") "is_emergency")
    || JS.truthy (JS.opt (JS.prop messageData "payload") "emergency")
  /\ forall (subject : value) (w : world) to name p,
       Emit to name p ∈ new_events w (processNotification' subject messageData w).2 ->
       JS.truthy (JS.prop messageData "is_emergency")
       || JS.truthy (JS.prop messageData "emergency")
       || JS.truthy (JS.opt (JS.prop messageData "payload") "is_emergency")
       || JS.truthy (JS.opt (JS.prop messageData "payload") "emergency") = true.
Proof.
  assert (Hflag : JS.truthy (isEmergency messageData)
    = JS.truthy (JS.prop messageData "is_emergency")
      || JS.truthy (JS.prop messageData "emergency")
      || JS.truthy (JS.opt (JS.prop messageData "payload") "is_emergency")
      || JS.truthy (JS.opt (JS.prop messageData "payload") "emergency")).
  { unfold isEmergency. rewrite !truthy_or. simpl.
    rewrite orb_false_r. reflexivity. }
  split; [exact Hflag|].
  intros subject w to name p Hin.
  destruct (processNotification_run subject messageData w)
    as (new & Hrun & _ & _ & Hemit).
  rewrite Hrun in Hin. simpl in Hin. rewrite new_events_extend in Hin.
  destruct (Hemit _ _ _ Hin) as (_ & _ & _ & _ & Htrue & _).
  rewrite <- Hflag. exact Htrue.
Qed.

(** C5 (as the code has it): in the alert [processNotification]
    broadcasts, each field is the first truthy candidate in the order the
    source lists them, which differs per field: the emergency flag reads
    top-level [is_emergency], top-level [emergency], [payload.is_emergency],
    [payload.emergency]; the device id reads [deviceId], then [device],
    else 'Unknown Device'; a sensor reading reads [payload.<field>] before
    the top-level [<field>], else 0; a coordinate reads
    [payload.gps], then [location], then [gps], else the fallback. *)
Theorem C5_extraction_order (subject messageData : value) (w : world) to name p :
  Emit to name p ∈ new_events w (processNotification' subject messageData w).2 ->
  JS.truthy
    (Spec.first_truthy
       [ JS.prop messageData "is_emergency";
         JS.prop messageData "emergency";
         JS.opt (JS.prop messageData "payload") "is_emergency";
         JS.opt (JS.prop messageData "payload") "emergency" ]
       (VBool false)) = true
  /\ JS.prop (JS.prop p "data") "deviceId"
     = Spec.first_truthy
         [ JS.prop messageData "deviceId"; JS.prop messageData "device" ]
         (VStr "Unknown Device")
  /\ (forall field,
        field ∈ ["temperature"; "humidity"; "smoke_level"; "air_quality"] ->
        JS.prop (JS.prop p "data") field
        = Spec.first_truthy
            [ JS.opt (JS.prop messageData "payload") field;
              JS.prop messageData field ]
            (VNum 0))
  /\ (forall axis fallback,
        (axis, fallback) ∈ [("latitude", 36.006397%float);
                            ("longitude", 10.1715%float)] ->
        JS.prop (JS.prop (JS.prop p "data") "location") axis
        = Spec.first_truthy
            [ JS.opt (JS.opt (JS.prop messageData "payload") "gps") axis;
              JS.opt (JS.prop messageData "location") axis;
              JS.opt (JS.prop messageData "gps") axis ]
            (VNum fallback)).
Proof.
  intros Hin.
  destruct (processNotification_run subject messageData w)
    as (new & Hrun & _ & _ & Hemit).
  rewrite Hrun in Hin. simpl in Hin. rewrite new_events_extend in Hin.
  destruct (Hemit _ _ _ Hin) as (_ & _ & Hp & _ & Htrue & _).
  rewrite (fireAlertData_data _ _ Hp).
  split; [rewrite <- isEmergency_first_truthy; exact Htrue|].
  split; [rewrite <- deviceName_first_truthy; reflexivity|].
  split.
  - intros field Hf. rewrite <- reading_first_truthy.
    among Hf; subst field; reflexivity.
  - intros axis fallback Ha. rewrite <- coordinate_first_truthy.
    among Ha; injection Ha as -> ->; reflexivity.
Qed.

(** C10: in the alert [processNotification] broadcasts, the latitude is
    36.006397 whenever [payload.gps.latitude], [location.latitude] and
    [gps.latitude] are all absent or falsy, whatever the longitude is, and
    the longitude is 10.1715 under the same condition on its three sources;
    the number 0 is falsy, so a coordinate of exactly 0 is replaced too. *)
Theorem C10_coordinate_fallback (subject messageData : value) (w : world) to name p :
  Emit to name p ∈ new_events w (processNotification' subject messageData w).2 ->
  let location := JS.prop (JS.prop p "data") "location" in
  (JS.truthy (JS.opt (JS.opt (JS.prop messageData "payload") "gps") "latitude") = false ->
   JS.truthy (JS.opt (JS.prop messageData "location") "latitude") = false ->
   JS.truthy (JS.opt (JS.prop messageData "gps") "latitude") = false ->
   JS.prop location "latitude" = VNum 36.006397)
  /\ (JS.truthy (JS.opt (JS.opt (JS.prop messageData "payload") "gps") "longitude") = false ->
      JS.truthy (JS.opt (JS.prop messageData "location") "longitude") = false ->
      JS.truthy (JS.opt (JS.prop messageData "gps") "longitude") = false ->
      JS.prop location "longitude" = VNum 10.1715)
  /\ JS.truthy (VNum 0) = false.
Proof.
  intros Hin location. subst location.
  destruct (processNotification_run subject messageData w)
    as (new & Hrun & _ & _ & Hemit).
  rewrite Hrun in Hin. simpl in Hin. rewrite new_events_extend in Hin.
  destruct (Hemit _ _ _ Hin) as (_ & _ & Hp & _).
  rewrite (fireAlertData_data _ _ Hp).
  split; [|split; [|reflexivity]].
  - intros H1 H2 H3.
    change (coordinate messageData "latitude" 36.006397 = VNum 36.006397).
    unfold coordinate, JS.or. rewrite H1, H2, H3. reflexivity.
  - intros H1 H2 H3.
    change (coordinate messageData "longitude" 10.1715 = VNum 10.1715).
    unfold coordinate, JS.or. rewrite H1, H2, H3. reflexivity.
Qed.

(** Without the keyword in the subject, [processNotification] returns
    having only logged. *)
Lemma processNotification_skips (subject messageData : value) (w : world) :
  Spec.subject_has_fire subject = false ->
  exists new,
    processNotification' subject messageData w = (Ok (), extend w new)
    /\ new <> []
    /\ forall e, e ∈ new -> exists lvl msg, e = Log lvl msg.
Proof.
  intros Hno.
  destruct (processNotification_run subject messageData w)
    as (new & Hrun & Hne & Hfetch & Hemit).
  exists new. split; [exact Hrun|]. split; [exact Hne|].
  intros [lvl msg|url|to name p] He.
  - eauto.
  - destruct (Hfetch _ He).
  - destruct (Hemit _ _ _ He) as (_ & _ & _ & Hfire & _).
    apply mentions_fire_spec in Hfire. congruence.
Qed.

End Notification.

Arguments processNotification : simpl never.

(** ** The logger *)

Lemma formatMessage_throws_null (LOG_LEVEL : option string) (method : string)
    (meta : value) :
  formatMessage_throws LOG_LEVEL method meta = true -> meta = VNull.
Proof.
  unfold formatMessage_throws. intros H.
  apply andb_true_iff in H as [_ H]. destruct meta; try discriminate H.
  reflexivity.
Qed.

Lemma formatMessage_throws_not_null (LOG_LEVEL : option string)
    (method : string) (meta : value) :
  meta <> VNull -> formatMessage_throws LOG_LEVEL method meta = false.
Proof.
  intros Hmeta.
  destruct (formatMessage_throws LOG_LEVEL method meta) eqn:H; [|reflexivity].
  apply formatMessage_throws_null in H. contradiction.
Qed.

Lemma formatMessage_throws_string (LOG_LEVEL : option string)
    (method : string) (meta : value) (literal : string) :
  JS.is_string meta literal = true ->
  formatMessage_throws LOG_LEVEL method meta = false.
Proof.
  intros H. apply formatMessage_throws_not_null. intros ->. discriminate H.
Qed.

Lemma header_is_one (h : option string) (a b : string) :
  header_is h a = true -> a <> b -> header_is h b = false.
Proof.
  destruct h as [s|]; simpl; [|discriminate].
  intros Ha Hne. apply String.eqb_eq in Ha. subst s.
  apply String.eqb_neq. exact Hne.
Qed.

(** ** The two webhooks *)

Section Webhooks.

Variable NumberToString : float -> string.
Variable JSON_parse_text : string -> option value.
Variable network : list event -> value -> result fetch_response.
Variable now_iso : string.
Variable Date_now : float.
Variable engine_message : error -> string.
Variable LOG_LEVEL : option string.

Local Abbreviation confirmSubscription' :=
  (confirmSubscription network LOG_LEVEL).
Local Abbreviation parse_body' := (parse_body NumberToString JSON_parse_text).
Local Abbreviation parse_alert_body' :=
  (parse_alert_body NumberToString JSON_parse_text).
Local Abbreviation sns_webhook' :=
  (sns_webhook NumberToString JSON_parse_text network now_iso Date_now
     engine_message LOG_LEVEL).
Local Abbreviation fire_alert_webhook' :=
  (fire_alert_webhook NumberToString JSON_parse_text network now_iso
     LOG_LEVEL).
Local Abbreviation processNotification' :=
  (processNotification NumberToString now_iso Date_now).

(** The handshake of routes/sns.js throws where the logger cannot format
    the URL, before anything is fetched. *)
Lemma confirmSubscription_throws (snsMessage : value) (w : world) :
  formatMessage_throws LOG_LEVEL "INFO" (subscribeUrl snsMessage) = true ->
  confirmSubscription' snsMessage w
  = (Throw TypeError,
     extend w [Log LInfo "SNS Subscription Confirmation received"]).
Proof.
  intros Hthrows. unfold confirmSubscription, log_with. change (method_of LInfo) with "INFO".
  rewrite Hthrows. reflexivity.
Qed.

(** Past the logger, the handshake of routes/sns.js returns whatever the
    network does, fetches the URL once when there is one, and ends on an
    error log when the fetch fails or the answer is not a 2xx. *)
Lemma confirmSubscription_run (snsMessage : value) (w : world) :
  formatMessage_throws LOG_LEVEL "INFO" (subscribeUrl snsMessage) = false ->
  exists new,
    confirmSubscription' snsMessage w = (Ok (), extend w new)
    /\ fetches new
       = (if JS.truthy (subscribeUrl snsMessage)
          then [subscribeUrl snsMessage] else [])
    /\ (forall to name p, Emit to name p ∉ new)
    /\ (JS.truthy (subscribeUrl snsMessage) = true ->
        match network (trace w ++ [Log LInfo "SNS Subscription Confirmation received";
                                   Log LInfo "Subscription URL:"])
                      (subscribeUrl snsMessage) with
        | Ok r => if ok r then exists msg, last new = Some (Log LInfo msg)
                  else exists msg, last new = Some (Log LError msg)
        | Throw _ => exists msg, last new = Some (Log LError msg)
        end).
Proof.
  intros Hprints. unfold confirmSubscription, log_with. change (method_of LInfo) with "INFO".
  rewrite Hprints. mrun.
  destruct (JS.truthy (subscribeUrl snsMessage)) eqn:Hurl; mrun.
  - unfold fetch. mrun.
    destruct (network _ _) as [[[] code]|e]; mrun.
    all: eexists; (split; [reflexivity|]); (split; [reflexivity|]).
    all: split; [intros to name p H; among H|intros _; eauto].
  - eexists; (split; [reflexivity|]); (split; [reflexivity|]).
    split; [intros to name p H; among H|discriminate].
Qed.

Local Abbreviation acknowledged' := (acknowledged now_iso).
Local Abbreviation refused' := (refused engine_message).

(** POST /sns/webhook always answers: 500 when the body does not parse (or
    parses to [null]) and when the logger cannot format the URL of a
    confirmation, 200 in every other case; it emits only what
    [processNotification] emits, under the Notification header. *)
Lemma sns_webhook_run (req : request) (w : world) :
  exists resp new,
    sns_webhook' req w = (Ok resp, extend w new)
    /\ resp = match parse_body' (req_body req) with
              | Throw e => refused' e
              | Ok v =>
                  if JS.nullish v then refused' TypeError
                  else if header_is (message_type req) "SubscriptionConfirmation"
                          && formatMessage_throws LOG_LEVEL "INFO" (subscribeUrl v)
                  then refused' TypeError
                  else acknowledged' (JS.prop v "MessageId")
              end
    /\ (forall to name p, Emit to name p ∈ new ->
          header_is (message_type req) "Notification" = true
          /\ exists v, parse_body' (req_body req) = Ok v
               /\ mentions_fire (JS.prop v "Subject") = Ok true)
    /\ (forall url, Fetch url ∈ new ->
          header_is (message_type req) "SubscriptionConfirmation" = true
          /\ exists v, parse_body' (req_body req) = Ok v
               /\ fetches new = [subscribeUrl v]).
Proof.
  unfold sns_webhook. mrun.
  destruct (parse_body' (req_body req)) as [v|e] eqn:Hparse; mrun.
  2:{ do 2 eexists. split; [reflexivity|]. split; [reflexivity|].
      split; intros; among H. }
  unfold JS.member.
  destruct (JS.nullish v) eqn:Hnull; mrun.
  { do 2 eexists. split; [reflexivity|]. split; [reflexivity|].
    split; intros; among H. }
  destruct (header_is (message_type req) "SubscriptionConfirmation") eqn:Hc.
  { cbn [andb].
    destruct (formatMessage_throws LOG_LEVEL "INFO" (subscribeUrl v)) eqn:Hprints.
    { rewrite confirmSubscription_throws by exact Hprints. mrun.
      do 2 eexists. split; [reflexivity|]. split; [reflexivity|].
      split; intros; among H. }
    destruct (confirmSubscription_run v
                (extend w [Log LInfo "Received SNS notification:"]) Hprints)
      as (new & Hrun & Hfetch & Hemit & _).
    rewrite Hrun. mrun.
    do 2 eexists. split; [reflexivity|]. split; [reflexivity|]. split.
    - intros to name p H. apply elem_of_cons in H as [H|H]; [discriminate|].
      destruct (Hemit _ _ _ H).
    - intros url H. split; [reflexivity|]. exists v. split; [reflexivity|].
      simpl. rewrite Hfetch.
      apply elem_of_cons in H as [H|H]; [discriminate|].
      destruct (JS.truthy (subscribeUrl v)); [reflexivity|].
      assert (Hin : url ∈ fetches new).
      { unfold fetches. apply list_elem_of_omap. exists (Fetch url). auto. }
      rewrite Hfetch in Hin. among Hin. }
  cbn [andb].
  destruct (header_is (message_type req) "Notification") eqn:Hn.
  { mrun.
    destruct (JSON_parse NumberToString JSON_parse_text (JS.prop v "Message"))
      as [md|e]; mrun.
    all: match goal with
         | |- context [processNotification' ?s ?md ?w0] =>
             destruct (processNotification_run NumberToString now_iso Date_now s md w0)
               as (new & Hrun & _ & Hfetch & Hemit); rewrite Hrun; mrun
         end.
    all: do 2 eexists; (split; [reflexivity|]); (split; [reflexivity|]).
    all: split;
      [ intros to name p H;
        apply elem_of_cons in H as [H|H]; [discriminate|];
        apply elem_of_cons in H as [H|H]; [discriminate|];
        split; [reflexivity|]; exists v; split; [reflexivity|];
        apply (Hemit _ _ _ H)
      | intros url H;
        apply elem_of_cons in H as [H|H]; [discriminate|];
        apply elem_of_cons in H as [H|H]; [discriminate|];
        destruct (Hfetch _ H) ]. }
  destruct (header_is (message_type req) "UnsubscribeConfirmation"); mrun.
  all: do 2 eexists; (split; [reflexivity|]); (split; [reflexivity|]).
  all: split; intros; among H.
Qed.

(** POST /webhook/fire-alert always answers, with one of three responses;
    a confirmation request whose URL the logger can format is answered 200
    after one fetch of [message.SubscribeURL] and a log entry. *)
Lemma fire_alert_webhook_run (req : request) (w : world) :
  exists resp new,
    fire_alert_webhook' req w = (Ok resp, extend w new)
    /\ (resp = subscription_processed \/ resp = alert_ok \/ resp = alert_failed)
    /\ (forall message,
          parse_alert_body' req = Ok message ->
          JS.is_string (JS.prop message "Type") "SubscriptionConfirmation" = true ->
          formatMessage_throws LOG_LEVEL "INFO" (JS.prop message "SubscribeURL")
          = false ->
          resp = subscription_processed
          /\ fetches new = [JS.prop message "SubscribeURL"]
          /\ exists lvl msg, last new = Some (Log lvl msg)).
Proof.
  unfold fire_alert_webhook. mrun.
  destruct (parse_alert_body' req) as [message|e] eqn:Hparse; mrun.
  2:{ do 2 eexists. split; [reflexivity|]. split; [auto|]. discriminate. }
  unfold JS.member at 1.
  destruct (JS.nullish message) eqn:Hnull; mrun.
  { do 2 eexists. split; [reflexivity|]. split; [auto|].
    intros m [= <-]. destruct message; try discriminate Hnull; simpl; discriminate. }
  unfold log_with at 1. change (method_of LInfo) with "INFO".
  destruct (formatMessage_throws LOG_LEVEL "INFO" (JS.prop message "Type"))
    eqn:Htype; mrun.
  { do 2 eexists. split; [reflexivity|]. split; [auto|].
    intros m [= <-] Hc.
    rewrite (formatMessage_throws_string _ _ _ _ Hc) in Htype. discriminate. }
  destruct (JS.is_string (JS.prop message "Type") "SubscriptionConfirmation")
    eqn:Hc; mrun.
  { unfold log_with. change (method_of LInfo) with "INFO".
    destruct (formatMessage_throws LOG_LEVEL "INFO"
                (JS.prop message "SubscribeURL")) eqn:Hurl; mrun.
    { do 2 eexists. split; [reflexivity|]. split; [auto|].
      intros m [= <-] _ Hf. congruence. }
    unfold fetch. mrun.
    destruct (network _ _) as [r|e]; mrun.
    all: do 2 eexists; (split; [reflexivity|]); (split; [auto|]).
    all: intros m [= <-] _ _; (split; [reflexivity|]); (split; [reflexivity|]).
    all: simpl; eauto. }
  destruct (JS.is_string (JS.prop message "Type") "Notification"); mrun.
  2:{ do 2 eexists. split; [reflexivity|]. split; [auto|].
      intros m [= <-] Hf; congruence. }
  repeat step.
  all: do 2 eexists; (split; [reflexivity|]); (split; [auto|]).
  all: intros m [= <-] Hf; congruence.
Qed.

Lemma fetches_none (t : list event) :
  (forall url, Fetch url ∉ t) -> fetches t = [].
Proof.
  intros Hno. destruct (fetches t) as [|u rest] eqn:Hf; [reflexivity|].
  assert (Hin : u ∈ fetches t) by (rewrite Hf; left).
  apply list_elem_of_omap in Hin as ([] & Hx & Heq); try discriminate.
  injection Heq as ->. destruct (Hno _ Hx).
Qed.


(** C4 (as the code has it): POST /sns/webhook always answers; it answers
    200 with the success body whenever the body yields an envelope other
    than [null], whatever the processing of the envelope does, a
    confirmation whose subscribe URL is [null] left aside; and it answers
    500 with [{success: false, error}] when the body does not parse.  POST
    /webhook/fire-alert is another handler: it always answers, either 200
    with a text body or 500 with [{error: 'Failed to process fire alert'}],
    and 500 whenever its body does not parse. *)
Theorem C4_webhook_acknowledgment (req : request) (w : world) :
  (exists resp new,
     sns_webhook' req w = (Ok resp, extend w new)
     /\ (forall v, parse_body' (req_body req) = Ok v -> JS.nullish v = false ->
           (header_is (message_type req) "SubscriptionConfirmation" = true ->
            subscribeUrl v <> VNull) ->
           resp = acknowledged' (JS.prop v "MessageId"))
     /\ (forall e, parse_body' (req_body req) = Throw e -> resp = refused' e))
  /\ (exists resp new,
        fire_alert_webhook' req w = (Ok resp, extend w new)
        /\ (resp = subscription_processed \/ resp = alert_ok \/ resp = alert_failed)
        /\ (forall e, parse_alert_body' req = Throw e -> resp = alert_failed)).
Proof.
  split.
  - destruct (sns_webhook_run req w) as (resp & new & Hrun & Hresp & _).
    exists resp, new. split; [exact Hrun|]. split.
    + intros v Hv Hnull Hurl. rewrite Hv, Hnull in Hresp.
      destruct (header_is (message_type req) "SubscriptionConfirmation");
        [|exact Hresp].
      rewrite (formatMessage_throws_not_null _ _ _ (Hurl eq_refl)) in Hresp.
      exact Hresp.
    + intros e He. rewrite He in Hresp. exact Hresp.
  - destruct (fire_alert_webhook_run req w) as (resp & new & Hrun & Hcases & _).
    exists resp, new. split; [exact Hrun|]. split; [exact Hcases|].
    intros e He. revert Hrun. unfold fire_alert_webhook. mrun.
    rewrite He. mrun. intros [= <- _]. reflexivity.
Qed.

(** C8 (as the code has it): a notification delivered to POST
    /sns/webhook whose Subject does not contain "fire" in any letter case,
    or has no Subject, is logged and skipped: [processNotification]
    returns having recorded log entries only, and the webhook answers 200
    without any emit. *)
Theorem C8_subject_gate (subject messageData : value) (w : world) :
  Spec.subject_has_fire subject = false ->
  (exists new,
     processNotification' subject messageData w = (Ok (), extend w new)
     /\ new <> []
     /\ forall e, e ∈ new -> exists lvl msg, e = Log lvl msg)
  /\ (forall req v,
        header_is (message_type req) "Notification" = true ->
        parse_body' (req_body req) = Ok v ->
        JS.nullish v = false ->
        JS.prop v "Subject" = subject ->
        exists new,
          sns_webhook' req w = (Ok (acknowledged' (JS.prop v "MessageId")),
                               extend w new)
          /\ forall to name p, Emit to name p ∉ new).
Proof.
  intros Hno. split.
  - apply processNotification_skips. exact Hno.
  - intros req v Hhdr Hv Hnull Hsubj.
    destruct (sns_webhook_run req w) as (resp & new & Hrun & Hresp & Hemit & _).
    rewrite Hv, Hnull in Hresp.
    rewrite (header_is_one _ _ "SubscriptionConfirmation" Hhdr) in Hresp
      by discriminate.
    subst resp.
    exists new. split; [exact Hrun|].
    intros to name p Hin.
    destruct (Hemit _ _ _ Hin) as (_ & v' & Hv' & Hfire).
    rewrite Hv in Hv'. injection Hv' as <-.
    rewrite Hsubj in Hfire. apply mentions_fire_spec in Hfire. congruence.
Qed.


End Webhooks.

(** ** The hub *)

Section HubFacts.

Variable NumberToString : float -> string.
Variable now_iso : string.
Variable Date_now : float.

Local Abbreviation fireEmergency' := (fireEmergency NumberToString now_iso).
Local Abbreviation emergencyBroadcast' := (emergencyBroadcast now_iso).
Local Abbreviation processNotification' :=
  (processNotification NumberToString now_iso Date_now).

Lemma fireEmergency_run (alertData deviceId : value) (d : string) (w : world) :
  JS.member alertData "deviceId" = Ok deviceId ->
  ToString NumberToString deviceId = Ok d ->
  fireEmergency' alertData w
  = (Ok (),
     extend w
       ([ Emit ToAll "fire-emergency" (emergencyBroadcast' alertData d);
          Emit ToAll "emergency-popup" (emergencyBroadcast' alertData d) ]
        ++ (if JS.truthy deviceId
            then [ Emit (ToRoom ("device-" +:+ d)) "device-emergency"
                        (emergencyBroadcast' alertData d) ]
            else [])
        ++ [ Log LError "FIRE EMERGENCY broadcasted for device" ])).
Proof.
  intros Hid Hd. unfold fireEmergency. mrun.
  rewrite Hid. mrun. rewrite Hd. mrun.
  destruct (JS.truthy deviceId); mrun; reflexivity.
Qed.

Lemma received_emit (h : Hub) (id : string) (to : target) (name : string)
    (p : value) (t : list event) :
  Emit to name p ∈ t -> id ∈ recipients h to ->
  (to, name, p) ∈ received h id t.
Proof.
  intros Hin Hid. unfold received. apply list_elem_of_omap.
  exists (Emit to name p). split; [exact Hin|].
  rewrite bool_decide_eq_true_2 by exact Hid. reflexivity.
Qed.

(** C6 (as the code has it): [broadcast.fireEmergency] reaches every
    connected client with [fire-emergency] and [emergency-popup] and, when
    the device id is truthy, the members of the room device-<deviceId> with
    [device-emergency]; it emits nothing to the room fire-alerts.  The
    broadcast of [processNotification] is a single [fire-emergency] to all
    clients. *)
Theorem C6_emergency_broadcast_targets
    (alertData deviceId : value) (d : string) (w : world) :
  JS.member alertData "deviceId" = Ok deviceId ->
  ToString NumberToString deviceId = Ok d ->
  let new := new_events w (fireEmergency' alertData w).2 in
  let envelope := emergencyBroadcast' alertData d in
  (fireEmergency' alertData w).1 = Ok ()
  /\ (forall id, id ∈ clients (hub w) ->
        (ToAll, "fire-emergency", envelope) ∈ received (hub w) id new
        /\ (ToAll, "emergency-popup", envelope) ∈ received (hub w) id new)
  /\ (JS.truthy deviceId = true ->
      forall id, id ∈ recipients (hub w) (ToRoom ("device-" +:+ d)) ->
        (ToRoom ("device-" +:+ d), "device-emergency", envelope)
          ∈ received (hub w) id new)
  /\ (forall name p, Emit (ToRoom "fire-alerts") name p ∉ new)
  /\ (forall subject messageData to name p,
        Emit to name p
          ∈ new_events w (processNotification' subject messageData w).2 ->
        to = ToAll /\ name = "fire-emergency").
Proof.
  intros Hid Hd new envelope. subst new envelope.
  rewrite (fireEmergency_run _ _ _ _ Hid Hd). simpl.
  rewrite new_events_extend.
  split; [reflexivity|]. split; [|split; [|split]].
  - intros id Hc. split; apply received_emit; try exact Hc; set_solver.
  - intros Htrue id Hroom. rewrite Htrue.
    apply received_emit; [|exact Hroom].
    repeat (apply elem_of_cons; first [left; reflexivity|right]).
  - intros name p H. destruct (JS.truthy deviceId); simpl in H; among H.
  - intros subject messageData to name p Hin.
    destruct (processNotification_run NumberToString now_iso Date_now
                subject messageData w) as (n & Hrun & _ & _ & Hemit).
    rewrite Hrun in Hin. simpl in Hin. rewrite new_events_extend in Hin.
    destruct (Hemit _ _ _ Hin) as (-> & -> & _). auto.
Qed.

End HubFacts.

(** ** The alert service *)

Section ServiceFacts.

Variable NumberToString : float -> string.
Variable StringToNumber : string -> float.
Variable now_iso : string.
Variable Date_now : float.
Variable random_suffix : string.

Local Abbreviation calculateSeverity' :=
  (calculateSeverity NumberToString StringToNumber).
Local Abbreviation processFireAlert' :=
  (processFireAlert NumberToString StringToNumber now_iso Date_now random_suffix).

Lemma truthy_not_nullish (v : value) : JS.truthy v = true -> JS.nullish v = false.
Proof. destruct v; simpl; congruence. Qed.

Lemma validateAlertData_run (data : value) (w : world) :
  JS.nullish data = false ->
  exists new,
    validateAlertData data w = (Ok (required_present data), extend w new).
Proof.
  intros Hnull. unfold validateAlertData, required_present, JS.member.
  rewrite Hnull. mrun.
  destruct (JS.truthy (JS.prop data "deviceId")); mrun; [|eauto].
  destruct (JS.truthy (JS.prop data "temperature")); mrun; [|eauto].
  destruct (JS.truthy (JS.prop data "location")) eqn:Hloc; mrun; [|eauto].
  rewrite (truthy_not_nullish _ Hloc). mrun.
  destruct (JS.truthy (JS.prop (JS.prop data "location") "latitude")); mrun;
    [|eauto].
  destruct (JS.truthy (JS.prop (JS.prop data "location") "longitude")); mrun;
    [|eauto].
  exists []. rewrite extend_nil. reflexivity.
Qed.

Lemma scalar_ToNumber (v : value) :
  scalar v = true -> exists x, ToNumber NumberToString StringToNumber v = Ok x.
Proof. destruct v; simpl; try discriminate; eauto. Qed.

Lemma ladder3_scalar (above : bool) (v : value) (c3 c2 c1 : float) :
  scalar v = true ->
  exists z,
    ladder3 (if above then gt NumberToString StringToNumber
             else lt NumberToString StringToNumber) v c3 c2 c1 = Ok z.
Proof.
  intros Hs. destruct (scalar_ToNumber v Hs) as (x & Hx).
  unfold ladder3, gt, lt. destruct above; rewrite Hx; simpl;
    repeat match goal with
           | |- context [if ?b then _ else _] => destruct b; simpl
           end; eauto.
Qed.

Lemma ladder2_scalar (v : value) (c2 c1 : float) :
  scalar v = true ->
  exists z, ladder2 (gt NumberToString StringToNumber) v c2 c1 = Ok z.
Proof.
  intros Hs. destruct (scalar_ToNumber v Hs) as (x & Hx).
  unfold ladder2, gt. rewrite Hx; simpl;
    repeat match goal with
           | |- context [if ?b then _ else _] => destruct b; simpl
           end; eauto.
Qed.

(** On a payload whose readings are absent or primitive the scoring
    returns, and returns one of the five tiers. *)
Lemma calculateSeverity_total (data : value) :
  JS.nullish data = false ->
  scalar (JS.prop data "temperature") = true ->
  scalar (JS.prop data "humidity") = true ->
  scalar (JS.prop data "smoke_level") = true ->
  scalar (JS.prop data "air_quality") = true ->
  exists severity,
    calculateSeverity' data = Ok severity /\ severity ∈ Spec.tier_names.
Proof.
  intros Hnull Ht Hh Hs Ha.
  unfold calculateSeverity, JS.member. rewrite Hnull. simpl.
  destruct (ladder3_scalar true _ 60 45 35 Ht) as (z1 & ->). simpl.
  destruct (ladder3_scalar false _ 20 35 50 Hh) as (z2 & ->). simpl.
  destruct (ladder3_scalar true _ 300 200 100 Hs) as (z3 & ->). simpl.
  destruct (ladder2_scalar _ 250 150 Ha) as (z4 & ->). simpl.
  eexists. split; [reflexivity|]. apply severityLevel_five.
Qed.

(** C2 (as the code has it): on a payload whose readings are absent or
    primitive, [processFireAlert] returns an assessment exactly when
    [deviceId], [temperature], [location], [location.latitude] and
    [location.longitude] are all present and truthy, and the severity of
    that assessment is one of the five tiers; when one of them is absent
    or falsy (0 included) it throws 'Invalid alert data structure'. *)
Theorem C2_assessment_needs_required_fields (alertData : value) (w : world) :
  JS.nullish alertData = false ->
  scalar (JS.prop alertData "temperature") = true ->
  scalar (JS.prop alertData "humidity") = true ->
  scalar (JS.prop alertData "smoke_level") = true ->
  scalar (JS.prop alertData "air_quality") = true ->
  if required_present alertData then
    exists alert severity,
      (processFireAlert' alertData w).1 = Ok alert
      /\ calculateSeverity' alertData = Ok severity
      /\ JS.prop alert "severity" = VStr severity
      /\ severity ∈ Spec.tier_names
  else
    (processFireAlert' alertData w).1
    = Throw (Error "Invalid alert data structure").
Proof.
  intros Hnull Ht Hh Hs Ha.
  destruct (calculateSeverity_total alertData Hnull Ht Hh Hs Ha)
    as (severity & Hsev & Hfive).
  unfold processFireAlert. mrun.
  destruct (validateAlertData_run alertData
              (extend w [Log LInfo "Processing fire alert data"]) Hnull)
    as (new & ->). mrun.
  destruct (required_present alertData); mrun; [|reflexivity].
  rewrite Hsev. unfold addToHistory, get_service, put_service. mrun.
  eexists _, severity. split; [reflexivity|].
  split; [reflexivity|]. split; [reflexivity|exact Hfive].
Qed.

End ServiceFacts.

(** ** The properties on the sample inputs *)

Lemma C2_assessment_needs_required_fields_witness :
  exists alert severity,
    (processFireAlert Sample.NumberToString Sample.StringToNumber Sample.now_iso
       Sample.Date_now Sample.random_suffix Sample.complete Sample.world0).1
    = Ok alert
    /\ calculateSeverity Sample.NumberToString Sample.StringToNumber Sample.complete
       = Ok severity
    /\ JS.prop alert "severity" = VStr severity
    /\ severity ∈ Spec.tier_names.
Proof.
  exact (C2_assessment_needs_required_fields
           Sample.NumberToString Sample.StringToNumber Sample.now_iso
           Sample.Date_now Sample.random_suffix Sample.complete Sample.world0
           eq_refl eq_refl eq_refl eq_refl eq_refl).
Defined.

(** C2, as stated, fails: a payload with every field absent, one without
    [location] and one whose temperature is 0 are all rejected with
    'Invalid alert data structure'. *)
Lemma C2_missing_fields_are_rejected :
  (processFireAlert Sample.NumberToString Sample.StringToNumber Sample.now_iso
     Sample.Date_now Sample.random_suffix (obj []) Sample.world0).1
  = Throw (Error "Invalid alert data structure")
  /\ (processFireAlert Sample.NumberToString Sample.StringToNumber Sample.now_iso
        Sample.Date_now Sample.random_suffix Sample.no_location Sample.world0).1
     = Throw (Error "Invalid alert data structure")
  /\ (processFireAlert Sample.NumberToString Sample.StringToNumber Sample.now_iso
        Sample.Date_now Sample.random_suffix Sample.freezing Sample.world0).1
     = Throw (Error "Invalid alert data structure").
Proof. repeat split; vm_compute; reflexivity. Qed.

(** C3, as stated, fails: readings that score EXTREME, sent without any
    emergency flag under a fire subject, are not an emergency and nothing is
    emitted. *)
Lemma C3_high_tier_without_flag_is_ignored :
  calculateSeverity Sample.NumberToString Sample.StringToNumber Sample.unflagged
  = Ok "EXTREME"
  /\ calculateSeverity Sample.NumberToString Sample.StringToNumber
       (fireAlertPayload Sample.NumberToString Sample.now_iso Sample.Date_now
          Sample.unflagged)
     = Ok "EXTREME"
  /\ JS.truthy (isEmergency Sample.unflagged) = false
  /\ emits (new_events Sample.world0
              (processNotification Sample.NumberToString Sample.now_iso
                 Sample.Date_now (VStr "Fire Alert") Sample.unflagged
                 Sample.world0).2) = [].
Proof. repeat split; vm_compute; reflexivity. Qed.

(** C4, as stated, fails on the alias: an SNS delivery to
    /webhook/fire-alert whose body parses to an envelope, but whose alert
    has no location, is answered 500 with [{error}]. *)
Lemma C4_alias_answers_500_on_parsed_envelope :
  parse_alert_body Sample.NumberToString Sample.JSON_parse_text Sample.alias_delivery
  = Ok (obj [("Type", VStr "Notification"); ("Message", VStr "{}")])
  /\ (fire_alert_webhook Sample.NumberToString Sample.JSON_parse_text
        Sample.unreachable Sample.now_iso Sample.LOG_LEVEL
        Sample.alias_delivery Sample.world0).1
     = Ok {| status := 500;
             sent := JsonBody (obj [("error", VStr "Failed to process fire alert")]) |}.
Proof. split; vm_compute; reflexivity. Qed.

Lemma sample_emit (messageData : value) :
  JS.truthy messageData && JS.typeof_object messageData = true ->
  JS.truthy (isEmergency messageData) = true ->
  fireAlertData Sample.NumberToString Sample.now_iso Sample.Date_now messageData
  = Ok (Sample.alert_of messageData) ->
  Emit ToAll "fire-emergency" (Sample.alert_of messageData)
    ∈ new_events Sample.world0
        (processNotification Sample.NumberToString Sample.now_iso Sample.Date_now
           (VStr "Fire Alert") messageData Sample.world0).2.
Proof.
  intros Hobj Hflag Halert.
  apply processNotification_broadcasts; auto.
Qed.

Lemma C3_emergency_iff_raw_flag_witness :
  JS.truthy (JS.prop Sample.equator "is_emergency")
  || JS.truthy (JS.prop Sample.equator "emergency")
  || JS.truthy (JS.opt (JS.prop Sample.equator "payload") "is_emergency")
  || JS.truthy (JS.opt (JS.prop Sample.equator "payload") "emergency") = true.
Proof.
  exact (proj2 (C3_emergency_iff_raw_flag
    Sample.NumberToString Sample.now_iso Sample.Date_now Sample.equator)
    (VStr "Fire Alert") Sample.world0
    ToAll "fire-emergency" (Sample.alert_of Sample.equator)
    (sample_emit Sample.equator eq_refl eq_refl eq_refl)).
Defined.

Lemma C4_webhook_acknowledgment_witness :
  exists new,
    sns_webhook Sample.NumberToString Sample.JSON_parse_text Sample.unreachable
      Sample.now_iso Sample.Date_now Sample.engine_message Sample.LOG_LEVEL
      Sample.confirmation Sample.world0
    = (Ok (acknowledged Sample.now_iso VUndefined), extend Sample.world0 new).
Proof.
  destruct (proj1 (C4_webhook_acknowledgment
    Sample.NumberToString Sample.JSON_parse_text Sample.unreachable
    Sample.now_iso Sample.Date_now Sample.engine_message Sample.LOG_LEVEL
    Sample.confirmation Sample.world0))
    as (resp & new & Hrun & Hok & _).
  exists new. rewrite Hrun.
  rewrite (Hok Sample.confirmation_message eq_refl eq_refl);
    [reflexivity|intros _; discriminate].
Defined.


Lemma C5_extraction_order_witness :
  JS.prop (JS.prop (Sample.alert_of Sample.twice_temperature) "data") "deviceId"
  = VStr "Unknown Device".
Proof.
  exact (proj1 (proj2 (C5_extraction_order
    Sample.NumberToString Sample.now_iso Sample.Date_now
    (VStr "Fire Alert") Sample.twice_temperature Sample.world0
    ToAll "fire-emergency" (Sample.alert_of Sample.twice_temperature)
    (sample_emit Sample.twice_temperature eq_refl eq_refl eq_refl)))).
Defined.

(** C5, as stated, fails: with temperature 10 at top level and 99 under
    [payload], the alert that goes out carries 99. *)
Lemma C5_nested_reading_shadows_top_level :
  JS.prop Sample.twice_temperature "temperature" = VNum 10
  /\ (fun e => JS.prop (JS.prop e.2 "data") "temperature")
       <$> emits (new_events Sample.world0
                    (processNotification Sample.NumberToString Sample.now_iso
                       Sample.Date_now (VStr "Fire Alert")
                       Sample.twice_temperature Sample.world0).2)
     = [VNum 99].
Proof. split; vm_compute; reflexivity. Qed.

Lemma C6_emergency_broadcast_targets_witness :
  (fireEmergency Sample.NumberToString Sample.now_iso Sample.readings
     Sample.subscribed).1 = Ok ().
Proof.
  exact (proj1 (C6_emergency_broadcast_targets
    Sample.NumberToString Sample.now_iso Sample.Date_now
    Sample.readings (VStr "Node-1") "Node-1" Sample.subscribed eq_refl eq_refl)).
Defined.

(** C6, as stated, fails: a client that subscribed to the fire alerts is a
    member of the room fire-alerts, and what it receives of an emergency
    broadcast are the two events sent to all clients, none sent to a room. *)
Lemma C6_fire_alerts_room_gets_no_room_event :
  bool_decide ("c1" ∈ recipients (hub Sample.subscribed) (ToRoom "fire-alerts"))
  = true
  /\ (fun r => (r.1.1, r.1.2))
       <$> received (hub Sample.subscribed) "c1"
             (new_events Sample.subscribed
                (fireEmergency Sample.NumberToString Sample.now_iso
                   Sample.readings Sample.subscribed).2)
     = [(ToAll, "fire-emergency"); (ToAll, "emergency-popup")]
  /\ (fun r => r.1.1)
       <$> emits (new_events Sample.subscribed
                    (fireEmergency Sample.NumberToString Sample.now_iso
                       Sample.readings Sample.subscribed).2)
     = [ToAll; ToAll; ToRoom "device-Node-1"].
Proof. repeat split; vm_compute; reflexivity. Qed.

Lemma C8_subject_gate_witness :
  exists new,
    processNotification Sample.NumberToString Sample.now_iso Sample.Date_now
      (VStr "Routine Check") Sample.equator Sample.world0
    = (Ok (), extend Sample.world0 new)
    /\ new <> []
    /\ forall e, e ∈ new -> exists lvl msg, e = Log lvl msg.
Proof.
  exact (proj1 (C8_subject_gate
    Sample.NumberToString Sample.JSON_parse_text Sample.unreachable
    Sample.now_iso Sample.Date_now Sample.engine_message Sample.LOG_LEVEL
    (VStr "Routine Check") Sample.equator Sample.world0 eq_refl)).
Defined.

(** C8, as stated, fails on /webhook/fire-alert: a notification under the
    subject "Routine Check" is broadcast all the same. *)
Lemma C8_alias_broadcasts_without_fire_subject :
  Spec.subject_has_fire (VStr "Routine Check") = false
  /\ parse_alert_body Sample.NumberToString Sample.JSON_parse_text
       Sample.routine_delivery
     = Ok (obj [ ("Type", VStr "Notification");
                 ("Subject", VStr "Routine Check");
                 ("Message", VStr Sample.alert_text) ])
  /\ (fire_alert_webhook Sample.NumberToString Sample.JSON_parse_text
        Sample.unreachable Sample.now_iso Sample.LOG_LEVEL
        Sample.routine_delivery Sample.world0).1
     = Ok {| status := 200; sent := TextBody "OK" |}
  /\ (fun r => (r.1.1, r.1.2))
       <$> emits (trace (fire_alert_webhook Sample.NumberToString
                           Sample.JSON_parse_text Sample.unreachable
                           Sample.now_iso Sample.LOG_LEVEL
                           Sample.routine_delivery Sample.world0).2)
     = [ (ToAll, "fire-emergency");
         (ToRoom "device-Node-1", "device-emergency");
         (ToAll, "emergency-popup") ].
Proof. repeat split; vm_compute; reflexivity. Qed.

Lemma C10_coordinate_fallback_witness :
  JS.prop (JS.prop (JS.prop (Sample.alert_of Sample.equator) "data") "location")
    "latitude" = VNum 36.006397
  /\ JS.prop (JS.prop (JS.prop (Sample.alert_of Sample.equator) "data") "location")
       "longitude" = VNum 5.
Proof.
  split.
  - exact (proj1 (C10_coordinate_fallback
      Sample.NumberToString Sample.now_iso Sample.Date_now
      (VStr "Fire Alert") Sample.equator Sample.world0
      ToAll "fire-emergency" (Sample.alert_of Sample.equator)
      (sample_emit Sample.equator eq_refl eq_refl eq_refl))
      eq_refl eq_refl eq_refl).
  - vm_compute. reflexivity.
Defined.

(** * Further properties *)

(** ** More order facts on binary64 *)

Section FloatOrderMore.

Lemma SFltb_leb_trans a b c :
  SFltb a b = true -> SFleb b c = true -> SFltb a c = true.
Proof.
  unfold SFltb, SFleb.
  destruct a as [sa|sa| |sa ma ea], b as [sb|sb| |sb mb eb],
           c as [sc|sc| |sc mc ec]; simpl;
    repeat match goal with s : bool |- _ => destruct s end;
    simpl; try discriminate; try reflexivity.
  all: destruct (Z.compare_spec ea eb), (Z.compare_spec eb ec),
         (Z.compare_spec ea ec); subst; try discriminate; try reflexivity;
       try lia.
  all: rewrite ?Pos.compare_cont_spec; simpl;
       destruct (Pos.compare_spec ma mb), (Pos.compare_spec mb mc),
         (Pos.compare_spec ma mc); subst; simpl;
         try discriminate; try reflexivity; try lia.
Qed.

Lemma SFleb_ltb_trans a b c :
  SFleb a b = true -> SFltb b c = true -> SFltb a c = true.
Proof.
  unfold SFltb, SFleb.
  destruct a as [sa|sa| |sa ma ea], b as [sb|sb| |sb mb eb],
           c as [sc|sc| |sc mc ec]; simpl;
    repeat match goal with s : bool |- _ => destruct s end;
    simpl; try discriminate; try reflexivity.
  all: destruct (Z.compare_spec ea eb), (Z.compare_spec eb ec),
         (Z.compare_spec ea ec); subst; try discriminate; try reflexivity;
       try lia.
  all: rewrite ?Pos.compare_cont_spec; simpl;
       destruct (Pos.compare_spec ma mb), (Pos.compare_spec mb mc),
         (Pos.compare_spec ma mc); subst; simpl;
         try discriminate; try reflexivity; try lia.
Qed.

Lemma above_mono (x x' : float) :
  PrimFloat.leb x x' = true ->
  forall c, Spec.above x c = true -> Spec.above x' c = true.
Proof.
  unfold Spec.above. rewrite leb_spec. intros Hle c. rewrite !ltb_spec.
  intros Hlt. exact (SFltb_leb_trans _ _ _ Hlt Hle).
Qed.

Lemma below_mono (x x' : float) :
  PrimFloat.leb x' x = true ->
  forall c, Spec.below x c = true -> Spec.below x' c = true.
Proof.
  unfold Spec.below. rewrite leb_spec. intros Hle c. rewrite !ltb_spec.
  intros Hlt. exact (SFleb_ltb_trans _ _ _ Hle Hlt).
Qed.

End FloatOrderMore.

(** ** The scoring, beyond the table *)

Section ScoringFacts.

Variable NumberToString : float -> string.
Variable StringToNumber : string -> float.

Local Abbreviation calculateSeverity' :=
  (calculateSeverity NumberToString StringToNumber).

Lemma max_fold_nonneg (l : list Z) : (0 <= foldr Z.max 0 l)%Z.
Proof. induction l as [|z l IH]; simpl; lia. Qed.

Lemma contribution_nonneg meets table x :
  (0 <= Spec.contribution meets table x)%Z.
Proof. apply max_fold_nonneg. Qed.

Lemma reading_points_nonneg meets table r :
  (0 <= reading_points meets table r)%Z.
Proof. destruct r; simpl; [apply contribution_nonneg|lia]. Qed.

Lemma contribution_mono (meets : float -> float -> bool)
    (table : list (float * Z)) (x x' : float) :
  (forall c, meets x c = true -> meets x' c = true) ->
  (Spec.contribution meets table x <= Spec.contribution meets table x')%Z.
Proof.
  intros Himp. unfold Spec.contribution, Spec.matching.
  induction table as [|[c p] table IH]; [simpl; lia|].
  rewrite !filter_cons. cbn [fst snd].
  destruct (decide (meets x c = true)) as [Hx|Hx].
  - rewrite decide_True by (apply Himp; exact Hx).
    rewrite !fmap_cons. cbn [foldr snd]. lia.
  - destruct (decide (meets x' c = true));
      rewrite ?fmap_cons; cbn [foldr snd]; lia.
Qed.

Lemma tier_of_mono (a b : Z) :
  (a <= b)%Z -> tier_rank (Spec.tier_of a) <= tier_rank (Spec.tier_of b).
Proof.
  intros Hab. unfold Spec.tier_of, Spec.tier_table.
  rewrite !filter_cons, !filter_nil. simpl.
  repeat case_decide; simpl; lia.
Qed.

(** The ladder of one metric on a reading that is a number or absent. *)
Lemma ladder3_above_reading (r : option float) (c1 c2 c3 : float) :
  PrimFloat.ltb c1 c2 = true -> PrimFloat.ltb c2 c3 = true ->
  PrimFloat.ltb c1 nan = false -> PrimFloat.ltb c2 nan = false ->
  PrimFloat.ltb c3 nan = false ->
  ladder3 (gt NumberToString StringToNumber) (reading_value r) c3 c2 c1
  = Ok (reading_points Spec.above [(c1, 1%Z); (c2, 2%Z); (c3, 3%Z)] r).
Proof.
  intros H12 H23 N1 N2 N3. destruct r as [x|]; simpl.
  - apply ladder3_above; assumption.
  - unfold ladder3, gt. simpl. rewrite N3. simpl. rewrite N2. simpl.
    rewrite N1. reflexivity.
Qed.

Lemma ladder3_below_reading (r : option float) (c1 c2 c3 : float) :
  PrimFloat.ltb c2 c1 = true -> PrimFloat.ltb c3 c2 = true ->
  PrimFloat.ltb nan c1 = false -> PrimFloat.ltb nan c2 = false ->
  PrimFloat.ltb nan c3 = false ->
  ladder3 (lt NumberToString StringToNumber) (reading_value r) c3 c2 c1
  = Ok (reading_points Spec.below [(c1, 1%Z); (c2, 2%Z); (c3, 3%Z)] r).
Proof.
  intros H21 H32 N1 N2 N3. destruct r as [x|]; simpl.
  - apply ladder3_below; assumption.
  - unfold ladder3, lt. simpl. rewrite N3. simpl. rewrite N2. simpl.
    rewrite N1. reflexivity.
Qed.

Lemma ladder2_above_reading (r : option float) (c1 c2 : float) :
  PrimFloat.ltb c1 c2 = true ->
  PrimFloat.ltb c1 nan = false -> PrimFloat.ltb c2 nan = false ->
  ladder2 (gt NumberToString StringToNumber) (reading_value r) c2 c1
  = Ok (reading_points Spec.above [(c1, 1%Z); (c2, 2%Z)] r).
Proof.
  intros H12 N1 N2. destruct r as [x|]; simpl.
  - apply ladder2_above; assumption.
  - unfold ladder2, gt. simpl. rewrite N2. simpl. rewrite N1. reflexivity.
Qed.

(** The tier of a payload whose readings are numbers or absent. *)
Lemma severity_of_readings (data : value) (rt rh rs ra : option float) :
  JS.member data "temperature" = Ok (reading_value rt) ->
  JS.member data "humidity" = Ok (reading_value rh) ->
  JS.member data "smoke_level" = Ok (reading_value rs) ->
  JS.member data "air_quality" = Ok (reading_value ra) ->
  calculateSeverity' data
  = Ok (Spec.tier_name (Spec.tier_of (readings_total rt rh rs ra))).
Proof.
  intros Ht Hh Hs Ha. unfold calculateSeverity.
  rewrite Ht, Hh, Hs, Ha. simpl.
  rewrite (ladder3_above_reading rt 35 45 60) by reflexivity. simpl.
  rewrite (ladder3_below_reading rh 50 35 20) by reflexivity. simpl.
  rewrite (ladder3_above_reading rs 100 200 300) by reflexivity. simpl.
  rewrite (ladder2_above_reading ra 150 250) by reflexivity. simpl.
  rewrite severityLevel_tier. reflexivity.
Qed.

(** X1: the tier never drops when the temperature, the smoke level or the
    air quality index rise and the humidity falls: between two payloads of
    numeric readings ordered that way, the tier of the second is at least
    the tier of the first. *)
Theorem X1_severity_monotone (data data' : value) (t h s a t' h' s' a' : float) :
  JS.member data "temperature" = Ok (VNum t) ->
  JS.member data "humidity" = Ok (VNum h) ->
  JS.member data "smoke_level" = Ok (VNum s) ->
  JS.member data "air_quality" = Ok (VNum a) ->
  JS.member data' "temperature" = Ok (VNum t') ->
  JS.member data' "humidity" = Ok (VNum h') ->
  JS.member data' "smoke_level" = Ok (VNum s') ->
  JS.member data' "air_quality" = Ok (VNum a') ->
  PrimFloat.leb t t' = true ->
  PrimFloat.leb h' h = true ->
  PrimFloat.leb s s' = true ->
  PrimFloat.leb a a' = true ->
  exists tier tier',
    calculateSeverity' data = Ok (Spec.tier_name tier)
    /\ calculateSeverity' data' = Ok (Spec.tier_name tier')
    /\ tier_rank tier <= tier_rank tier'.
Proof.
  intros Ht Hh Hs Ha Ht' Hh' Hs' Ha' Lt Lh Ls La.
  exists (Spec.tier_of (readings_total (Some t) (Some h) (Some s) (Some a))),
         (Spec.tier_of (readings_total (Some t') (Some h') (Some s') (Some a'))).
  split; [apply severity_of_readings; assumption|].
  split; [apply severity_of_readings; assumption|].
  apply tier_of_mono. unfold readings_total. simpl.
  pose proof (contribution_mono Spec.above Spec.temperature_table t t'
                (above_mono t t' Lt)).
  pose proof (contribution_mono Spec.below Spec.humidity_table h h'
                (below_mono h h' Lh)).
  pose proof (contribution_mono Spec.above Spec.smoke_table s s'
                (above_mono s s' Ls)).
  pose proof (contribution_mono Spec.above Spec.air_quality_table a a'
                (above_mono a a' La)).
  lia.
Qed.

Lemma dropped_points meets table (r r' : option float) :
  kept_or_dropped r r' ->
  (reading_points meets table r' <= reading_points meets table r)%Z.
Proof.
  intros [->| ->]; [lia|]. simpl. apply reading_points_nonneg.
Qed.

(** X2: a reading that is absent adds nothing to the score: a payload with
    none of the four readings is LOW, and dropping readings from a payload
    never raises its tier. *)
Theorem X2_absent_reading_adds_nothing
    (data data' : value) (rt rh rs ra rt' rh' rs' ra' : option float) :
  JS.member data "temperature" = Ok (reading_value rt) ->
  JS.member data "humidity" = Ok (reading_value rh) ->
  JS.member data "smoke_level" = Ok (reading_value rs) ->
  JS.member data "air_quality" = Ok (reading_value ra) ->
  JS.member data' "temperature" = Ok (reading_value rt') ->
  JS.member data' "humidity" = Ok (reading_value rh') ->
  JS.member data' "smoke_level" = Ok (reading_value rs') ->
  JS.member data' "air_quality" = Ok (reading_value ra') ->
  kept_or_dropped rt rt' -> kept_or_dropped rh rh' ->
  kept_or_dropped rs rs' -> kept_or_dropped ra ra' ->
  (rt' = None -> rh' = None -> rs' = None -> ra' = None ->
   calculateSeverity' data' = Ok "LOW")
  /\ exists tier tier',
       calculateSeverity' data = Ok (Spec.tier_name tier)
       /\ calculateSeverity' data' = Ok (Spec.tier_name tier')
       /\ tier_rank tier' <= tier_rank tier.
Proof.
  intros Ht Hh Hs Ha Ht' Hh' Hs' Ha' Kt Kh Ks Ka. split.
  - intros -> -> -> ->.
    rewrite (severity_of_readings data' None None None None) by assumption.
    reflexivity.
  - exists (Spec.tier_of (readings_total rt rh rs ra)),
           (Spec.tier_of (readings_total rt' rh' rs' ra')).
    split; [apply severity_of_readings; assumption|].
    split; [apply severity_of_readings; assumption|].
    apply tier_of_mono. unfold readings_total.
    pose proof (dropped_points Spec.above Spec.temperature_table _ _ Kt).
    pose proof (dropped_points Spec.below Spec.humidity_table _ _ Kh).
    pose proof (dropped_points Spec.above Spec.smoke_table _ _ Ks).
    pose proof (dropped_points Spec.above Spec.air_quality_table _ _ Ka).
    lia.
Qed.

End ScoringFacts.

(** ** The alert service, call by call *)

Section ServiceCalls.

Variable NumberToString : float -> string.
Variable StringToNumber : string -> float.
Variable now_iso : string.
Variable Date_now : float.
Variable random_suffix : string.

Local Abbreviation calculateSeverity' :=
  (calculateSeverity NumberToString StringToNumber).
Local Abbreviation processFireAlert' :=
  (processFireAlert NumberToString StringToNumber now_iso Date_now random_suffix).
Local Abbreviation assessment' :=
  (assessment NumberToString now_iso Date_now random_suffix).
Local Abbreviation createEmergencyBroadcast' :=
  (createEmergencyBroadcast NumberToString StringToNumber now_iso Date_now
     random_suffix).
Local Abbreviation ToString' := (ToString NumberToString).

Lemma calculateSeverity_five (data : value) (severity : string) :
  calculateSeverity' data = Ok severity -> severity ∈ Spec.tier_names.
Proof.
  unfold calculateSeverity, mbind, result_bind.
  repeat match goal with
         | |- context [match ?r with Ok _ => _ | Throw _ => _ end] =>
             destruct r; try discriminate
         end.
  intros [= <-]. apply severityLevel_five.
Qed.

(** Either [processFireAlert] throws and the service is as before, or the
    payload passed the validation, was scored, and the alert built from it
    is returned and stored. *)
Lemma processFireAlert_cases (alertData : value) (w : world) :
  (exists e new,
     processFireAlert' alertData w = (Throw e, extend w new)
     /\ (JS.nullish alertData = true \/ required_present alertData = false
         \/ calculateSeverity' alertData = Throw e))
  \/ (exists severity w',
        processFireAlert' alertData w = (Ok (assessment' alertData severity), w')
        /\ JS.nullish alertData = false
        /\ required_present alertData = true
        /\ calculateSeverity' alertData = Ok severity
        /\ service w' = stored (assessment' alertData severity) (service w)
        /\ hub w' = hub w /\ global_io w' = global_io w).
Proof.
  unfold processFireAlert. mrun.
  destruct (JS.nullish alertData) eqn:Hnull.
  { left. unfold validateAlertData, JS.member. rewrite Hnull. mrun. eauto 6. }
  destruct (validateAlertData_run alertData
              (extend w [Log LInfo "Processing fire alert data"]) Hnull)
    as (new & ->). mrun.
  destruct (required_present alertData) eqn:Hvalid; mrun; [|left; eauto 6].
  destruct (calculateSeverity' alertData) as [severity|e] eqn:Hsev; mrun;
    [|left; eauto 6].
  right. unfold addToHistory, get_service, put_service. mrun.
  exists severity. eexists. split; [reflexivity|]. simpl. auto 10.
Qed.

Lemma stored_history (alert : value) (s : FireAlertService) :
  alertHistory (stored alert s)
  = take (maxHistorySize s) (alert :: alertHistory s).
Proof.
  unfold stored. cbn [alertHistory].
  destruct (Nat.ltb_spec (maxHistorySize s) (length (alert :: alertHistory s))).
  - apply slice0_take.
  - rewrite take_ge by lia. reflexivity.
Qed.

(** X3: a call of [processFireAlert] that returns has put the returned
    alert at the head of the history, so that [getRecentAlerts(1)] yields
    exactly that alert, and the history has grown by one up to the capacity;
    a call that throws leaves the service as it was. *)
Theorem X3_processFireAlert_stores_or_leaves (alertData : value) (w : world) :
  1 <= maxHistorySize (service w) ->
  match processFireAlert' alertData w with
  | (Ok alert, w') =>
      (getRecentAlerts (Some 1%Z) w').1 = Ok [alert]
      /\ length (alertHistory (service w'))
         = Nat.min (S (length (alertHistory (service w))))
                   (maxHistorySize (service w))
      /\ maxHistorySize (service w') = maxHistorySize (service w)
  | (Throw _, w') => service w' = service w
  end.
Proof.
  intros Hcap.
  destruct (processFireAlert_cases alertData w)
    as [(e & new & -> & _)|(severity & w' & -> & _ & _ & _ & Hsvc & _)].
  - reflexivity.
  - unfold getRecentAlerts, mbind, M_bind, get_service. simpl.
    rewrite Hsvc, stored_history.
    change 1%Z with (Z.of_nat 1). rewrite slice0_take, take_take.
    split; [|split].
    + replace (1 `min` maxHistorySize (service w)) with 1 by lia. reflexivity.
    + rewrite length_take. cbn [length].
      destruct (maxHistorySize (service w)); lia.
    + reflexivity.
Qed.

Lemma assessment_processed (alertData : value) (severity : string) :
  severity ∈ Spec.tier_names ->
  is_processed_alert (assessment' alertData severity) = true.
Proof.
  intros Hfive. unfold is_processed_alert.
  change (JS.prop (assessment' alertData severity) "severity") with (VStr severity).
  change (JS.prop (assessment' alertData severity) "type") with (VStr "FIRE_EMERGENCY").
  change (JS.prop (assessment' alertData severity) "processed") with (VBool true).
  change (JS.prop (assessment' alertData severity) "emergency") with (VBool true).
  change (JS.prop (assessment' alertData severity) "timestamp") with (VStr now_iso).
  cbv beta iota.
  rewrite bool_decide_eq_true_2 by exact Hfive. reflexivity.
Qed.

Lemma processFireAlert_keeps (alertData : value) (w : world) :
  history_invariant (service w) ->
  history_invariant (service (processFireAlert' alertData w).2).
Proof.
  intros (Hcap & Hlen & Hall).
  destruct (processFireAlert_cases alertData w)
    as [(e & new & -> & _)|(severity & w' & -> & _ & _ & Hsev & Hsvc & _)]; simpl.
  - split; [exact Hcap|]. split; [exact Hlen|exact Hall].
  - rewrite Hsvc. unfold history_invariant.
    rewrite stored_history. cbn [maxHistorySize stored]. rewrite Hcap.
    split; [reflexivity|]. split; [rewrite length_take; lia|].
    apply Forall_take. constructor; [|exact Hall].
    apply assessment_processed. eapply calculateSeverity_five. exact Hsev.
Qed.

(** X4: the service keeps its history well formed: starting from the
    constructor, after any run of [processFireAlert] calls, whether they
    return or throw, the capacity is 100, the history holds at most 100
    entries and every entry is an alert stamped FIRE_EMERGENCY, processed
    and emergency, with one of the five severities. *)
Theorem X4_history_stays_well_formed (payloads : list value) (w : world) :
  service w = new_FireAlertService ->
  history_invariant
    (service (foldl (fun u payload => (processFireAlert' payload u).2) w payloads)).
Proof.
  intros Hnew.
  assert (Hinit : history_invariant (service w)).
  { rewrite Hnew. repeat split; simpl; [lia|constructor]. }
  clear Hnew. revert w Hinit.
  induction payloads as [|p rest IH]; intros w Hinit; simpl; [exact Hinit|].
  apply IH. apply processFireAlert_keeps. exact Hinit.
Qed.

Lemma five_is_tier (severity : string) :
  severity ∈ Spec.tier_names -> exists tier, severity = Spec.tier_name tier.
Proof.
  unfold Spec.tier_names. intros Hin.
  among Hin; subst severity;
    first [exists Spec.EXTREME; reflexivity|exists Spec.CRITICAL; reflexivity
          |exists Spec.HIGH; reflexivity|exists Spec.MODERATE; reflexivity
          |exists Spec.LOW; reflexivity].
Qed.

Lemma createEmergencyBroadcast_cases (alertData : value) (w : world) :
  (exists e new,
     createEmergencyBroadcast' alertData w = (Throw e, extend w new)
     /\ (JS.nullish alertData = true \/ required_present alertData = false
         \/ calculateSeverity' alertData = Throw e))
  \/ (exists tier w',
        let alert := assessment' alertData (Spec.tier_name tier) in
        calculateSeverity' alertData = Ok (Spec.tier_name tier)
        /\ required_present alertData = true
        /\ service w' = stored alert (service w)
        /\ hub w' = hub w /\ global_io w' = global_io w
        /\ match ToString' (JS.prop alertData "deviceId") with
           | Ok device =>
               exists code,
                 (Spec.tier_name tier, code) ∈ severity_colors
                 /\ createEmergencyBroadcast' alertData w
                    = (Ok {| broadcast_type := "FIRE_EMERGENCY";
                             broadcast_level := VStr (Spec.tier_name tier);
                             broadcast_title :=
                               "🚨 " +:+ Spec.tier_name tier +:+ " FIRE EMERGENCY!";
                             broadcast_message :=
                               "Fire emergency detected by " +:+ device;
                             broadcast_alert := alert;
                             broadcast_ui :=
                               {| ui_showPopup := true;
                                  ui_autoExpire := (tier_rank tier <=? 1)%nat;
                                  ui_sound := true;
                                  ui_vibrate := true;
                                  ui_priority :=
                                    if (3 <=? tier_rank tier)%nat then "HIGH" else "NORMAL";
                                  ui_color := Hex code |};
                             broadcast_timestamp := now_iso |}, w')
           | Throw e => createEmergencyBroadcast' alertData w = (Throw e, w')
           end).
Proof.
  unfold createEmergencyBroadcast.
  destruct (processFireAlert_cases alertData w)
    as [(e & new & Hrun & Hwhy)|(severity & w' & Hrun & _ & Hvalid & Hsev & Hsvc & Hhub & Hio)].
  { left. exists e, new. unfold mbind, M_bind. rewrite Hrun.
    split; [reflexivity|exact Hwhy]. }
  right. destruct (five_is_tier severity (calculateSeverity_five _ _ Hsev))
    as (tier & ->).
  exists tier, w'. cbv zeta. split; [exact Hsev|]. split; [exact Hvalid|].
  split; [exact Hsvc|]. split; [exact Hhub|]. split; [exact Hio|].
  unfold mbind, M_bind, lift, mret, M_ret. rewrite Hrun. cbv beta iota.
  change (JS.prop (assessment' alertData (Spec.tier_name tier)) "severity")
    with (VStr (Spec.tier_name tier)).
  change (JS.prop (assessment' alertData (Spec.tier_name tier)) "deviceId")
    with (JS.prop alertData "deviceId").
  cbn [ToString].
  destruct (ToString' (JS.prop alertData "deviceId")) as [device|e] eqn:Hdev;
    [|reflexivity].
  destruct tier; eexists; (split; [|reflexivity]);
    unfold severity_colors; repeat constructor.
Qed.

(** X7: a broadcast that [createEmergencyBroadcast] returns carries the
    severity [calculateSeverity] gives the payload as its level; it expires
    by itself exactly for LOW and MODERATE, has priority HIGH exactly for
    CRITICAL and EXTREME and NORMAL otherwise, its colour is the code the
    table lists for the severity (never the fallback code nor an inherited
    member), and its alert is the one now stored in the service. *)
Theorem X7_broadcast_follows_severity (alertData : value) (w : world)
    (b : EmergencyBroadcast) (w' : world) :
  createEmergencyBroadcast' alertData w = (Ok b, w') ->
  exists tier code,
    calculateSeverity' alertData = Ok (Spec.tier_name tier)
    /\ broadcast_level b = VStr (Spec.tier_name tier)
    /\ JS.prop (broadcast_alert b) "severity" = broadcast_level b
    /\ service w' = stored (broadcast_alert b) (service w)
    /\ ui_autoExpire (broadcast_ui b) = ((tier_rank tier <=? 1)%nat)
    /\ ui_priority (broadcast_ui b)
       = (if (3 <=? tier_rank tier)%nat then "HIGH" else "NORMAL")
    /\ (Spec.tier_name tier, code) ∈ severity_colors
    /\ ui_color (broadcast_ui b) = Hex code.
Proof.
  intros Hrun.
  destruct (createEmergencyBroadcast_cases alertData w)
    as [(e & new & Hthrow & _)|(tier & w1 & Hsev & _ & Hsvc & _ & _ & Hcase)].
  { rewrite Hthrow in Hrun. discriminate. }
  destruct (ToString' (JS.prop alertData "deviceId")) as [device|e].
  - destruct Hcase as (code & Hcode & Hok). rewrite Hok in Hrun.
    injection Hrun as <- <-. exists tier, code. cbn.
    repeat (split; [first [exact Hsev|exact Hsvc|exact Hcode|reflexivity]|]).
    reflexivity.
  - rewrite Hcase in Hrun. discriminate.
Qed.

(** X8: [createEmergencyBroadcast] is not all-or-nothing: for a payload that
    passes the validation and is scored, but whose deviceId is an object
    with an own [toString] member, the call throws a TypeError while
    building the message, after the alert has been stored in the history. *)
Theorem X8_broadcast_can_fail_after_storing (alertData : value) (w : world)
    (o : gmap string value) (severity : string) :
  required_present alertData = true ->
  calculateSeverity' alertData = Ok severity ->
  JS.prop alertData "deviceId" = VObj o ->
  JS.shadows_toString o = true ->
  exists w',
    createEmergencyBroadcast' alertData w = (Throw TypeError, w')
    /\ service w' = stored (assessment' alertData severity) (service w).
Proof.
  intros Hvalid Hsev Hdev Hshadow.
  destruct (createEmergencyBroadcast_cases alertData w)
    as [(e & new & _ & [Hnull|[Hinvalid|Hfail]])
       |(tier & w1 & Hsev' & _ & Hsvc & _ & _ & Hcase)].
  - destruct alertData; discriminate.
  - congruence.
  - congruence.
  - rewrite Hsev in Hsev'. injection Hsev' as ->.
    rewrite Hdev in Hcase. cbn [ToString] in Hcase. rewrite Hshadow in Hcase.
    exists w1. split; [exact Hcase|exact Hsvc].
Qed.

End ServiceCalls.

(** ** Reading the history *)

Section ServiceReads.

Variable NumberToString : float -> string.
Variable StringToNumber : string -> float.
Variable now_iso : string.
Variable Date_now : float.
Variable random_suffix : string.
Variable Date_parse_text : string -> option Z.
Variable NumberToTime : float -> option Z.
Variable now_ms : Z.

Local Abbreviation count_alert' := (count_alert NumberToString).
Local Abbreviation getSeverityBreakdown' := (getSeverityBreakdown NumberToString).
Local Abbreviation getAlertStats' :=
  (getAlertStats NumberToString now_iso Date_parse_text NumberToTime now_ms).
Local Abbreviation newer_than' :=
  (newer_than NumberToString Date_parse_text NumberToTime).

Lemma processed_severity (alert : value) :
  is_processed_alert alert = true ->
  exists severity timestamp,
    JS.prop alert "severity" = VStr severity
    /\ severity ∈ Spec.tier_names
    /\ JS.prop alert "timestamp" = VStr timestamp
    /\ JS.nullish alert = false.
Proof.
  unfold is_processed_alert. intros H.
  repeat (apply andb_prop in H as [H ?]).
  destruct (JS.prop alert "severity") as [| | | |severity| |] eqn:Hs;
    try discriminate.
  destruct (JS.prop alert "timestamp") as [| | | |timestamp| |] eqn:Ht;
    try discriminate.
  exists severity, timestamp. split; [reflexivity|].
  split; [eapply bool_decide_eq_true_1; exact H|]. split; [reflexivity|].
  destruct alert; try reflexivity; discriminate.
Qed.

Lemma count_alert_processed (b : gmap string count) (alert : value) :
  five_counters b -> is_processed_alert alert = true ->
  exists b',
    count_alert' b alert = Ok b'
    /\ five_counters b'
    /\ forall k, k ∈ Spec.tier_names ->
         counted b' k
         = counted b k + length (with_severity k [alert]).
Proof.
  intros Hfive Hok.
  destruct (processed_severity alert Hok) as (sev & ts & Hsev & Hin & _ & Hnull).
  destruct (Hfive sev Hin) as (n & Hn).
  unfold count_alert, JS.member. rewrite Hnull, Hsev. simpl.
  rewrite Hn. eexists. split; [reflexivity|]. split.
  - intros k Hk. destruct (decide (k = sev)) as [->|Hne].
    + rewrite lookup_insert_eq. eauto.
    + rewrite lookup_insert_ne by congruence. apply Hfive. exact Hk.
  - intros k Hk. unfold counted, with_severity.
    rewrite filter_cons, filter_nil, Hsev. simpl.
    destruct (decide (k = sev)) as [->|Hne].
    + rewrite lookup_insert_eq, Hn.
      rewrite decide_True by apply String.eqb_refl. simpl. lia.
    + rewrite lookup_insert_ne by congruence.
      rewrite decide_False; [simpl; lia|].
      intros Heq. apply String.eqb_eq in Heq. congruence.
Qed.

Lemma with_severity_cons (k : string) (alert : value) (l : list value) :
  length (with_severity k (alert :: l))
  = length (with_severity k [alert]) + length (with_severity k l).
Proof.
  unfold with_severity. rewrite !filter_cons, filter_nil.
  case_decide; cbn [length]; lia.
Qed.

Lemma breakdown_processed (l : list value) : forall b : gmap string count,
  five_counters b ->
  Forall (fun alert => is_processed_alert alert = true) l ->
  exists b',
    forEach_throwing count_alert' l b = Ok b'
    /\ five_counters b'
    /\ forall k, k ∈ Spec.tier_names ->
         counted b' k = counted b k + length (with_severity k l).
Proof.
  induction l as [|alert l IH]; intros b Hfive Hall.
  - exists b. split; [reflexivity|]. split; [exact Hfive|].
    intros k _. simpl. lia.
  - apply Forall_cons in Hall as [Hok Hall].
    destruct (count_alert_processed b alert Hfive Hok) as (b1 & Hrun & H1 & Hc1).
    destruct (IH b1 H1 Hall) as (b2 & Hrest & H2 & Hc2).
    exists b2. simpl. rewrite Hrun. simpl. split; [exact Hrest|].
    split; [exact H2|].
    intros k Hk. rewrite (Hc2 k Hk), (Hc1 k Hk), (with_severity_cons k alert l). lia.
Qed.

Lemma severities_partition (l : list value) :
  Forall (fun alert => is_processed_alert alert = true) l ->
  length (with_severity "EXTREME" l) + length (with_severity "CRITICAL" l)
  + length (with_severity "HIGH" l) + length (with_severity "MODERATE" l)
  + length (with_severity "LOW" l) = length l.
Proof.
  induction 1 as [|alert l Hok Hall IH]; [reflexivity|].
  rewrite !(with_severity_cons _ alert l). simpl length.
  destruct (processed_severity alert Hok) as (sev & ts & Hsev & Hin & _).
  unfold with_severity at 1 3 5 7 9.
  rewrite !filter_cons, !filter_nil, Hsev.
  unfold Spec.tier_names in Hin.
  among Hin; subst sev; simpl; lia.
Qed.

Lemma empty_breakdown_five : five_counters empty_breakdown.
Proof.
  intros k Hk. unfold Spec.tier_names in Hk.
  among Hk; subst k; exists 0; reflexivity.
Qed.

Lemma counted_empty (k : string) : counted empty_breakdown k = 0.
Proof.
  unfold counted. destruct (empty_breakdown !! k) as [c|] eqn:Hk; [|reflexivity].
  apply elem_of_list_to_map_2 in Hk.
  among Hk; injection Hk as _ ->; reflexivity.
Qed.

(** X5: on a well-formed history [getSeverityBreakdown] returns without
    touching the world, each of its five counters is the number of stored
    alerts of that severity, and the five counters add up to the length of
    the history. *)
Theorem X5_breakdown_adds_up (w : world) :
  history_invariant (service w) ->
  exists b,
    getSeverityBreakdown' w = (Ok b, w)
    /\ (forall k, k ∈ Spec.tier_names ->
          b !! k = Some (Count (length (with_severity k (alertHistory (service w))))))
    /\ counted_total b = length (alertHistory (service w)).
Proof.
  intros (_ & _ & Hall).
  destruct (breakdown_processed _ _ empty_breakdown_five Hall)
    as (b & Hrun & Hfive & Hcount).
  exists b. unfold getSeverityBreakdown, mbind, M_bind, get_service, lift.
  rewrite Hrun. split; [reflexivity|]. split.
  - intros k Hk. destruct (Hfive k Hk) as (n & Hn).
    pose proof (Hcount k Hk) as Hc. unfold counted in Hc at 1.
    rewrite Hn in Hc. rewrite Hn, Hc, counted_empty. reflexivity.
  - unfold counted_total.
    rewrite !Hcount by (unfold Spec.tier_names; repeat constructor).
    rewrite !counted_empty. rewrite <- (severities_partition _ Hall). lia.
Qed.

Lemma newer_than_processed (threshold : option Z) (alert : value) :
  is_processed_alert alert = true ->
  exists timestamp,
    JS.prop alert "timestamp" = VStr timestamp
    /\ newer_than' threshold alert
       = Ok (date_gt (Date_parse_text timestamp) threshold).
Proof.
  intros Hok.
  destruct (processed_severity alert Hok) as (sev & ts & _ & _ & Hts & Hnull).
  exists ts. split; [exact Hts|].
  unfold newer_than, JS.member. rewrite Hnull, Hts. reflexivity.
Qed.

Lemma filter_newer (t1 t2 : option Z) (l : list value) :
  (forall d, date_gt d t1 = true -> date_gt d t2 = true) ->
  Forall (fun alert => is_processed_alert alert = true) l ->
  exists k1 k2,
    filter_throwing (newer_than' t1) l = Ok k1
    /\ filter_throwing (newer_than' t2) l = Ok k2
    /\ length k1 <= length k2 <= length l.
Proof.
  intros Hmono. induction 1 as [|alert l Hok Hall IH].
  - exists [], []. repeat split; simpl; lia.
  - destruct IH as (k1 & k2 & H1 & H2 & Hlen).
    destruct (newer_than_processed t1 alert Hok) as (ts & Hts & Hn1).
    destruct (newer_than_processed t2 alert Hok) as (ts' & Hts' & Hn2).
    rewrite Hts in Hts'. injection Hts' as <-.
    simpl. rewrite Hn1, Hn2, H1, H2. simpl.
    pose proof (Hmono (Date_parse_text ts)) as Hd.
    destruct (date_gt (Date_parse_text ts) t1).
    + rewrite Hd by reflexivity. eexists _, _.
      split; [reflexivity|]. split; [reflexivity|]. simpl. lia.
    + destruct (date_gt (Date_parse_text ts) t2); eexists _, _;
        (split; [reflexivity|]); (split; [reflexivity|]); simpl; lia.
Qed.

Lemma day_within_week (d : option Z) :
  (0 <= now_ms <= 8640000000000000)%Z ->
  date_gt d (TimeClip (now_ms - 24 * 60 * 60 * 1000)) = true ->
  date_gt d (TimeClip (now_ms - 7 * 24 * 60 * 60 * 1000)) = true.
Proof.
  intros Hnow. unfold TimeClip.
  destruct (Z.leb_spec (Z.abs (now_ms - 24 * 60 * 60 * 1000)) 8640000000000000);
    [|destruct d; discriminate].
  destruct (Z.leb_spec (Z.abs (now_ms - 7 * 24 * 60 * 60 * 1000)) 8640000000000000);
    [|lia].
  destruct d as [x|]; [|discriminate]. simpl.
  intros Hlt. apply Z.ltb_lt in Hlt. apply Z.ltb_lt. lia.
Qed.

(** X6: with a clock between the epoch and the largest date, and on a
    well-formed history, [getAlertStats] returns without touching the
    world; the total is the length of the history, the count of the last
    24 hours is at most the count of the last week, which is at most the
    total, and the five counters of the breakdown add up to the total. *)
Theorem X6_stats_are_ordered (w : world) :
  history_invariant (service w) ->
  (0 <= now_ms <= 8640000000000000)%Z ->
  exists stats,
    getAlertStats' w = (Ok stats, w)
    /\ stats_total stats = length (alertHistory (service w))
    /\ stats_last24Hours stats <= stats_lastWeek stats <= stats_total stats
    /\ counted_total (stats_severityBreakdown stats) = stats_total stats
    /\ stats_timestamp stats = now_iso.
Proof.
  intros (_ & _ & Hall) Hnow.
  destruct (filter_newer _ _ _ (fun d => day_within_week d Hnow) Hall)
    as (k1 & k2 & H1 & H2 & Hlen).
  destruct (breakdown_processed _ _ empty_breakdown_five Hall)
    as (b & Hrun & _ & Hcount).
  eexists. unfold getAlertStats, getSeverityBreakdown,
    mbind, M_bind, mret, M_ret, get_service, lift.
  rewrite H1, H2, Hrun. split; [reflexivity|]. cbn [stats_total
    stats_last24Hours stats_lastWeek stats_severityBreakdown stats_timestamp].
  split; [reflexivity|]. split; [exact Hlen|]. split; [|reflexivity].
  unfold counted_total.
  rewrite !Hcount by (unfold Spec.tier_names; repeat constructor).
  rewrite !counted_empty. rewrite <- (severities_partition _ Hall). lia.
Qed.

End ServiceReads.

(** ** What the routes broadcast *)

Section Broadcasts.

Variable NumberToString : float -> string.
Variable JSON_parse_text : string -> option value.
Variable network : list event -> value -> result fetch_response.
Variable now_iso : string.
Variable Date_now : float.
Variable engine_message : error -> string.
Variable LOG_LEVEL : option string.

Local Abbreviation parse_alert_body'' :=
  (parse_alert_body NumberToString JSON_parse_text).
Local Abbreviation fire_alert_webhook'' :=
  (fire_alert_webhook NumberToString JSON_parse_text network now_iso
     LOG_LEVEL).
Local Abbreviation JSON_parse'' := (JSON_parse NumberToString JSON_parse_text).

(** X9: POST /webhook/fire-alert broadcasts all or nothing.  A call either
    emits nothing, or it emits exactly three events carrying one and the
    same envelope, in this order: [fire-emergency] to every client,
    [device-emergency] to the room device-<deviceId> (whatever the device
    id, undefined included) and [emergency-popup] to every client; in that
    case the hub was up, the alert parsed and the answer is 200 'OK'.  A
    call answered 500, and any call while the hub is down, emits nothing;
    no call changes the hub or the service. *)
Theorem X9_alias_broadcasts_all_or_nothing (req : request) (w : world) :
  exists resp new,
    fire_alert_webhook'' req w = (Ok resp, extend w new)
    /\ (emits new = []
        \/ exists message alertData deviceId d envelope,
             parse_alert_body'' req = Ok message
             /\ JSON_parse'' (JS.prop message "Message") = Ok alertData
             /\ JS.member alertData "deviceId" = Ok deviceId
             /\ ToString NumberToString deviceId = Ok d
             /\ resp = alert_ok
             /\ global_io w = true
             /\ emits new
                = [ (ToAll, "fire-emergency", envelope);
                    (ToRoom ("device-" +:+ d), "device-emergency", envelope);
                    (ToAll, "emergency-popup", envelope) ]
             /\ JS.prop (JS.prop envelope "data") "deviceId" = deviceId)
    /\ (resp = alert_failed -> emits new = [])
    /\ (global_io w = false -> emits new = []).
Proof.
  unfold fire_alert_webhook. mrun.
  destruct (parse_alert_body'' req) as [message|e] eqn:Hparse; mrun.
  2:{ do 2 eexists. split; [reflexivity|]. auto. }
  unfold JS.member at 1.
  destruct (JS.nullish message) eqn:Hnull; mrun.
  { do 2 eexists. split; [reflexivity|]. auto. }
  unfold log_with at 1. change (method_of LInfo) with "INFO".
  destruct (formatMessage_throws LOG_LEVEL "INFO" (JS.prop message "Type"));
    mrun.
  { do 2 eexists. split; [reflexivity|]. auto. }
  destruct (JS.is_string (JS.prop message "Type") "SubscriptionConfirmation")
    eqn:Hc; mrun.
  { unfold log_with. change (method_of LInfo) with "INFO".
    destruct (formatMessage_throws LOG_LEVEL "INFO"
                (JS.prop message "SubscribeURL")); mrun.
    { do 2 eexists. split; [reflexivity|]. auto. }
    unfold fetch. mrun.
    destruct (network _ _) as [r|e]; mrun.
    all: do 2 eexists; (split; [reflexivity|]); auto. }
  destruct (JS.is_string (JS.prop message "Type") "Notification"); mrun.
  2:{ do 2 eexists. split; [reflexivity|]. auto. }
  destruct (JSON_parse'' (JS.prop message "Message")) as [alertData|e] eqn:Hmsg;
    mrun.
  2:{ do 2 eexists. split; [reflexivity|]. auto. }
  destruct (JS.member alertData "deviceId") as [deviceId|e] eqn:Hid; mrun.
  2:{ do 2 eexists. split; [reflexivity|]. auto. }
  repeat step.
  all: do 2 eexists; (split; [reflexivity|]).
  all: try (split; [left; reflexivity|split; [reflexivity|reflexivity]]).
  all: try (split; [left; reflexivity|split; [discriminate|reflexivity]]).
  split; [|split; [discriminate|discriminate]].
  right. exists message, alertData, deviceId. do 2 eexists.
  split; [reflexivity|]. split; [exact Hmsg|]. split; [exact Hid|].
  split; [eassumption|]. split; [reflexivity|]. split; [reflexivity|].
  split; reflexivity.
Qed.

Local Abbreviation processNotification'' :=
  (processNotification NumberToString now_iso Date_now).
Local Abbreviation fireAlertData'' := (fireAlertData NumberToString now_iso Date_now).

Lemma unprintable_subject (subject : value) (e : error) :
  ToString NumberToString subject = Throw e -> mentions_fire subject <> Ok true.
Proof.
  intros Hthrow Hfire.
  apply mentions_fire_string in Hfire as (s & -> & _). discriminate.
Qed.

(** What [processNotification] emits, exactly. *)
Lemma processNotification_emits (subject messageData : value) (w : world) :
  exists new,
    processNotification'' subject messageData w = (Ok (), extend w new)
    /\ ((exists alert,
           mentions_fire subject = Ok true
           /\ JS.truthy messageData && JS.typeof_object messageData = true
           /\ JS.truthy (isEmergency messageData) = true
           /\ fireAlertData'' messageData = Ok alert
           /\ global_io w = true
           /\ emits new = [(ToAll, "fire-emergency", alert)])
        \/ (emits new = []
            /\ (mentions_fire subject <> Ok true
                \/ JS.truthy messageData && JS.typeof_object messageData = false
                \/ JS.truthy (isEmergency messageData) = false
                \/ (exists e, fireAlertData'' messageData = Throw e)
                \/ global_io w = false))).
Proof.
  unfold processNotification. mrun.
  repeat step.
  all: eexists; (split; [reflexivity|]).
  all: first
    [ left; eexists; repeat split; first [eassumption|reflexivity]
    | right; split; [reflexivity|];
      first [ left; first [congruence|eapply unprintable_subject; eassumption]
            | right; left; first [assumption|reflexivity]
            | right; right; left; first [assumption|reflexivity]
            | right; right; right; left; eexists; first [eassumption|reflexivity]
            | right; right; right; right; first [assumption|reflexivity] ] ].
Qed.

(** X10: [processNotification] never throws and emits at most once: it
    emits exactly one event, [fire-emergency] to every client, when the
    subject mentions fire, the message is an object, a raw emergency flag is
    truthy, the device name can be printed and the hub is up; in every other
    case it emits nothing, and it never changes the hub or the service. *)
Theorem X10_processNotification_exactly_once
    (subject messageData : value) (w : world) :
  let run := processNotification'' subject messageData w in
  run.1 = Ok ()
  /\ hub run.2 = hub w /\ service run.2 = service w
  /\ ((exists alert,
         mentions_fire subject = Ok true
         /\ JS.truthy messageData && JS.typeof_object messageData = true
         /\ JS.truthy (isEmergency messageData) = true
         /\ fireAlertData'' messageData = Ok alert
         /\ global_io w = true
         /\ emits (new_events w run.2) = [(ToAll, "fire-emergency", alert)])
      \/ (emits (new_events w run.2) = []
          /\ (mentions_fire subject <> Ok true
              \/ JS.truthy messageData && JS.typeof_object messageData = false
              \/ JS.truthy (isEmergency messageData) = false
              \/ (exists e, fireAlertData'' messageData = Throw e)
              \/ global_io w = false))).
Proof.
  intros run. subst run.
  destruct (processNotification_emits subject messageData w)
    as (new & -> & Hcases).
  cbn [fst snd]. rewrite new_events_extend.
  split; [reflexivity|]. split; [reflexivity|]. split; [reflexivity|].
  exact Hcases.
Qed.

Variable Math_floor : float -> float.

Local Abbreviation testMessage' := (testMessage Date_now Math_floor).
Local Abbreviation sns_test_post' :=
  (sns_test_post NumberToString now_iso Date_now engine_message Math_floor).
Local Abbreviation sns_test_get' :=
  (sns_test_get NumberToString now_iso Date_now engine_message Math_floor).
Local Abbreviation test_emergency' :=
  (test_emergency NumberToString now_iso Date_now).
Local Abbreviation testBroadcast' := (testBroadcast now_iso).
Local Abbreviation default_test_emergency' :=
  (default_test_emergency NumberToString now_iso Date_now).

(** X11: the test endpoints of /sns cannot fail and broadcast for real.
    POST /sns/test answers 200 with the message it processed, the body or,
    for a falsy body, the built-in one, and emits at most one event; its
    500 branch is never taken.  GET /sns/test answers 200 and, whenever the
    hub is up, sends every connected client one [fire-emergency] built from
    the built-in message: level CRITICAL, device 'Node 1', the readings of
    the nested payload, and no [isTest] mark. *)
Theorem X11_sns_test_endpoints (body : value) (w : world) :
  let post := sns_test_post' body w in
  let got := sns_test_get' w in
  post.1 = Ok {| status := 200;
                 sent := JsonBody (obj [
                   ("success", VBool true);
                   ("message", VStr "Test notification processed");
                   ("testData", JS.or body testMessage') ]) |}
  /\ (emits (new_events w post.2) = []
      \/ exists alert,
           emits (new_events w post.2) = [(ToAll, "fire-emergency", alert)]
           /\ fireAlertData'' (JS.or body testMessage') = Ok alert
           /\ JS.truthy (isEmergency (JS.or body testMessage')) = true
           /\ global_io w = true)
  /\ got.1 = Ok {| status := 200;
                   sent := JsonBody (obj [
                     ("success", VBool true);
                     ("message", VStr "Test notification processed via GET");
                     ("testData", testMessage');
                     ("timestamp", VStr now_iso) ]) |}
  /\ exists alert,
       fireAlertData'' testMessage' = Ok alert
       /\ emits (new_events w got.2)
          = (if global_io w then [(ToAll, "fire-emergency", alert)] else [])
       /\ JS.prop alert "level" = VStr "CRITICAL"
       /\ JS.prop alert "isTest" = VUndefined
       /\ JS.prop (JS.prop alert "data") "deviceId" = VStr "Node 1"
       /\ JS.prop (JS.prop alert "data") "temperature" = VNum 45.5
       /\ JS.prop (JS.prop alert "data") "emergency" = VBool true.
Proof.
  intros post got. subst post got.
  unfold sns_test_post, sns_test_get. mrun.
  destruct (processNotification_emits (VStr "Fire Alert Test")
              (JS.or body testMessage')
              (extend w [Log LInfo "Test SNS notification received"]))
    as (new1 & -> & Hpost).
  destruct (processNotification_emits (VStr "Fire Alert Test") testMessage'
              (extend w [Log LInfo "GET Test SNS endpoint accessed"]))
    as (new2 & -> & Hget).
  mrun. rewrite !new_events_extend.
  split; [reflexivity|]. split; [|split; [reflexivity|]].
  - destruct Hpost as [(alert & _ & _ & Hflag & Halert & Hio & Hemit)
                      |(Hnone & _)].
    + right. exists alert. auto.
    + left. exact Hnone.
  - eexists. split; [reflexivity|].
    destruct Hget as [(alert & _ & _ & _ & Halert & Hio & Hemit)
                     |(Hnone & [Hc|[Hc|[Hc|[(e & Hc)|Hc]]]])].
    + injection Halert as <-. simpl in Hio. rewrite Hio.
      split; [exact Hemit|]. repeat split; reflexivity.
    + exfalso. apply Hc. reflexivity.
    + discriminate Hc.
    + discriminate Hc.
    + discriminate Hc.
    + simpl in Hc. rewrite Hc. split; [exact Hnone|].
      repeat split; reflexivity.
Qed.

(** X12: POST /webhook/test-emergency emits nothing or exactly two events,
    [fire-emergency] and [emergency-popup], both to every client and never
    to a device room, both carrying the body (or, for a falsy body, the
    built-in payload) under an envelope marked [isTest]; it answers 500
    exactly when the device id cannot be printed, and then nothing was
    emitted. *)
Theorem X12_test_emergency_is_marked (body : value) (w : world) :
  let data := JS.or body default_test_emergency' in
  let run := test_emergency' body w in
  hub run.2 = hub w /\ service run.2 = service w
  /\ match ToString NumberToString (JS.prop data "deviceId") with
     | Ok d =>
         run.1 = Ok {| status := 200;
                       sent := JsonBody (obj [
                         ("success", VBool true);
                         ("message", VStr "Test emergency sent");
                         ("data", data);
                         ("connectedClients",
                          VNum (if global_io w then clientsCount (hub w)
                                else 0%float)) ]) |}
         /\ emits (new_events w run.2)
            = (if global_io w
               then [ (ToAll, "fire-emergency", testBroadcast' data d);
                      (ToAll, "emergency-popup", testBroadcast' data d) ]
               else [])
         /\ JS.prop (testBroadcast' data d) "isTest" = VBool true
         /\ JS.prop (testBroadcast' data d) "data" = data
     | Throw _ =>
         run.1 = Ok test_emergency_failed
         /\ emits (new_events w run.2) = []
     end.
Proof.
  intros data run. subst data run.
  unfold test_emergency, connectedClients, get_hub. mrun.
  assert (Hmember : JS.member (JS.or body default_test_emergency') "deviceId"
                    = Ok (JS.prop (JS.or body default_test_emergency') "deviceId")).
  { unfold JS.member, JS.or. destruct (JS.truthy body) eqn:Hb; [|reflexivity].
    rewrite truthy_not_nullish by exact Hb. reflexivity. }
  rewrite Hmember. mrun.
  destruct (ToString NumberToString
              (JS.prop (JS.or body default_test_emergency') "deviceId"))
    as [d|e]; mrun.
  - destruct (global_io w) eqn:Hio; mrun; rewrite ?Hio;
      rewrite new_events_extend; repeat split; reflexivity.
  - rewrite new_events_extend. repeat split; reflexivity.
Qed.

End Broadcasts.

(** ** Rooms of the hub *)

Lemma recipients_join (id room : string) (h : Hub) :
  id ∈ clients h -> id ∈ recipients (join_room id room h) (ToRoom room).
Proof.
  intros Hc. unfold recipients, join_room. simpl.
  rewrite lookup_insert_eq. simpl.
  apply elem_of_intersection. split; [|exact Hc].
  apply elem_of_union. left. apply elem_of_singleton. reflexivity.
Qed.

Lemma recipients_join_other (id other room : string) (h : Hub) :
  other <> id -> other ∉ default ∅ (rooms h !! room) ->
  other ∉ recipients (join_room id room h) (ToRoom room).
Proof.
  intros Hne Hout. unfold recipients, join_room. simpl.
  rewrite lookup_insert_eq. simpl. intros Hin.
  apply elem_of_intersection in Hin as [Hin _].
  apply elem_of_union in Hin as [Hin|Hin]; [|exact (Hout Hin)].
  apply elem_of_singleton in Hin. exact (Hne Hin).
Qed.

Lemma recipients_leave (id room : string) (h : Hub) :
  id ∉ recipients (leave_room id room h) (ToRoom room).
Proof.
  unfold recipients, leave_room. simpl.
  rewrite lookup_insert_eq. simpl. intros Hin.
  apply elem_of_intersection in Hin as [Hin _].
  apply elem_of_difference in Hin as [_ Hin].
  apply Hin. apply elem_of_singleton. reflexivity.
Qed.

Lemma recipients_socket (id other : string) (h : Hub) :
  other <> id -> other ∉ recipients h (ToSocket id).
Proof.
  intros Hne. unfold recipients. intros Hin.
  apply elem_of_intersection in Hin as [Hin _].
  apply elem_of_singleton in Hin. exact (Hne Hin).
Qed.

Lemma received_cons_log (h : Hub) (id : string) (lvl : level) (msg : string)
    (t : list event) :
  received h id (Log lvl msg :: t) = received h id t.
Proof. reflexivity. Qed.

Lemma received_cons_emit (h : Hub) (id : string) (to : target) (name : string)
    (p : value) (t : list event) :
  received h id (Emit to name p :: t)
  = ((if bool_decide (id ∈ recipients h to) then [(to, name, p)] else [])
     ++ received h id t)%list.
Proof. unfold received. simpl. case_bool_decide; reflexivity. Qed.

Section Rooms.

Variable NumberToString : float -> string.

Local Abbreviation ToString' := (ToString NumberToString).
Local Abbreviation on_subscribe_device' := (on_subscribe_device NumberToString).
Local Abbreviation on_unsubscribe_device' := (on_unsubscribe_device NumberToString).
Local Abbreviation deviceUpdate' := (deviceUpdate NumberToString).
Local Abbreviation newData' := (newData NumberToString).

Lemma on_subscribe_device_run (id : string) (deviceId : value) (d : string)
    (w : world) :
  ToString' deviceId = Ok d ->
  exists confirmation,
    on_subscribe_device' id deviceId w
    = (Ok (),
       {| trace := (trace w ++ [ Log LInfo "Client subscribed to device";
                                 Emit (ToSocket id) "subscription-confirmed"
                                      confirmation ])%list;
          hub := join_room id ("device-" +:+ d) (hub w);
          global_io := global_io w; service := service w |}).
Proof.
  intros Hd. unfold on_subscribe_device. mrun. rewrite Hd. mrun.
  unfold update_hub, extend. simpl. eauto.
Qed.

Lemma on_unsubscribe_device_run (id : string) (deviceId : value) (d : string)
    (w : world) :
  ToString' deviceId = Ok d ->
  exists confirmation,
    on_unsubscribe_device' id deviceId w
    = (Ok (),
       {| trace := (trace w ++ [ Log LInfo "Client unsubscribed from device";
                                 Emit (ToSocket id) "unsubscription-confirmed"
                                      confirmation ])%list;
          hub := leave_room id ("device-" +:+ d) (hub w);
          global_io := global_io w; service := service w |}).
Proof.
  intros Hd. unfold on_unsubscribe_device. mrun. rewrite Hd. mrun.
  unfold update_hub, extend. simpl. eauto.
Qed.

Lemma deviceUpdate_run (deviceId data : value) (d : string) (w : world) :
  ToString' deviceId = Ok d ->
  deviceUpdate' deviceId data w
  = (Ok (), extend w [ Emit (ToRoom ("device-" +:+ d)) "device-update" data;
                       Log LInfo "Broadcasted device update" ]).
Proof. intros Hd. unfold deviceUpdate. mrun. rewrite Hd. mrun. reflexivity. Qed.

(** X13: subscribing to a device and unsubscribing again is a round trip.
    Rooms are keyed by the printed device id, so a subscription under one
    value is served by an update under any value that prints the same.
    After [subscribe-device] a connected client receives the next
    [deviceUpdate] for that device, exactly once; after
    [unsubscribe-device] it receives none.  The confirmations go to the
    calling socket only, and a client outside the room receives nothing of
    the update. *)
Theorem X13_device_room_round_trip
    (id : string) (deviceId deviceId' data : value) (d : string) (w : world) :
  ToString' deviceId = Ok d ->
  ToString' deviceId' = Ok d ->
  id ∈ clients (hub w) ->
  let w1 := (on_subscribe_device' id deviceId w).2 in
  let w2 := (deviceUpdate' deviceId' data w1).2 in
  let w3 := (on_unsubscribe_device' id deviceId w2).2 in
  let w4 := (deviceUpdate' deviceId' data w3).2 in
  received (hub w1) id (new_events w1 w2)
  = [(ToRoom ("device-" +:+ d), "device-update", data)]
  /\ received (hub w3) id (new_events w3 w4) = []
  /\ forall other, other <> id ->
       received (hub w1) other (new_events w w1) = []
       /\ received (hub w3) other (new_events w2 w3) = []
       /\ (other ∉ default ∅ (rooms (hub w) !! ("device-" +:+ d)) ->
           received (hub w1) other (new_events w1 w2) = []).
Proof.
  intros Hd Hd' Hc w1 w2 w3 w4. subst w1 w2 w3 w4.
  destruct (on_subscribe_device_run id deviceId d w Hd) as (c1 & ->).
  cbn [snd]. rewrite (deviceUpdate_run deviceId' data d _ Hd'). cbn [snd].
  destruct (on_unsubscribe_device_run id deviceId d
              (extend {| trace := (trace w ++ [ Log LInfo "Client subscribed to device";
                                                Emit (ToSocket id) "subscription-confirmed" c1 ])%list;
                         hub := join_room id ("device-" +:+ d) (hub w);
                         global_io := global_io w; service := service w |}
                      [ Emit (ToRoom ("device-" +:+ d)) "device-update" data;
                        Log LInfo "Broadcasted device update" ]) Hd)
    as (c2 & ->).
  cbn [snd]. rewrite (deviceUpdate_run deviceId' data d _ Hd'). cbn [snd].
  unfold new_events, extend. cbn [trace hub]. rewrite !drop_app_length.
  rewrite !received_cons_emit, !received_cons_log, ?received_cons_emit.
  cbn [received omap app]. rewrite ?app_nil_r.
  split; [|split].
  - rewrite bool_decide_eq_true_2 by (apply recipients_join; exact Hc).
    reflexivity.
  - rewrite bool_decide_eq_false_2 by apply recipients_leave. reflexivity.
  - intros other Hne.
    rewrite !received_cons_log, !received_cons_emit, !received_cons_log.
    cbn [received omap app]. rewrite ?app_nil_r.
    rewrite !bool_decide_eq_false_2 by (apply recipients_socket; exact Hne).
    split; [reflexivity|]. split; [reflexivity|].
    intros Hout.
    rewrite bool_decide_eq_false_2
      by (apply recipients_join_other; assumption).
    reflexivity.
Qed.

(** X14: [broadcast.newData] sends [new-data] to every connected client
    first, whatever follows: for data that is null or undefined the call
    then throws a TypeError with that one event already out.  The room
    event [device-data-update] follows exactly when the device id is truthy
    and can be printed, to the room device-<deviceId>; a falsy device id
    (absent, 0, the empty string) gives the one event to everyone and no
    room event. *)
Theorem X14_newData_reaches_everyone (data : value) (w : world) :
  let run := newData' data w in
  let new := new_events w run.2 in
  (forall id, id ∈ clients (hub w) ->
     head (received (hub w) id new) = Some (ToAll, "new-data", data))
  /\ hub run.2 = hub w
  /\ (JS.nullish data = true ->
      run.1 = Throw TypeError /\ emits new = [(ToAll, "new-data", data)])
  /\ (forall deviceId, JS.member data "deviceId" = Ok deviceId ->
      if JS.truthy deviceId then
        match ToString' deviceId with
        | Ok d =>
            run.1 = Ok ()
            /\ emits new = [ (ToAll, "new-data", data);
                             (ToRoom ("device-" +:+ d), "device-data-update", data) ]
        | Throw e => run.1 = Throw e /\ emits new = [(ToAll, "new-data", data)]
        end
      else run.1 = Ok () /\ emits new = [(ToAll, "new-data", data)]).
Proof.
  intros run new. subst run new. unfold newData. mrun.
  destruct (JS.member data "deviceId") as [deviceId|e] eqn:Hid; mrun.
  2:{ rewrite new_events_extend.
      split; [|split; [reflexivity|split]].
      - intros id Hc. rewrite received_cons_emit.
        rewrite bool_decide_eq_true_2 by exact Hc. reflexivity.
      - intros _. unfold JS.member in Hid.
        destruct (JS.nullish data); [|discriminate].
        injection Hid as <-. split; reflexivity.
      - intros deviceId Hf. discriminate. }
  assert (Hnull : JS.nullish data = false).
  { unfold JS.member in Hid. destruct (JS.nullish data); [discriminate|reflexivity]. }
  destruct (JS.truthy deviceId) eqn:Htruthy; mrun.
  - unfold JS.or. rewrite Htruthy.
    destruct (ToString' deviceId) as [d|e] eqn:Hd; mrun.
    all: rewrite new_events_extend.
    all: split; [|split; [reflexivity|split]].
    all: try (intros id Hc; rewrite received_cons_emit;
              rewrite bool_decide_eq_true_2 by exact Hc; reflexivity).
    all: try (intros Hn; congruence).
    all: intros deviceId0 [= <-]; rewrite Htruthy, Hd; split; reflexivity.
  - unfold JS.or. rewrite Htruthy. mrun.
    rewrite new_events_extend.
    split; [|split; [reflexivity|split]].
    + intros id Hc. rewrite received_cons_emit.
      rewrite bool_decide_eq_true_2 by exact Hc. reflexivity.
    + intros Hn. congruence.
    + intros deviceId0 [= <-]. rewrite Htruthy. split; reflexivity.
Qed.

End Rooms.

(** ** The logger *)

Lemma upper_not_lower (c : Ascii.ascii) :
  let n := Ascii.nat_of_ascii (upper c) in
  (97 <=? n)%nat && (n <=? 122)%nat = false.
Proof. destruct c as [[] [] [] [] [] [] [] []]; vm_compute; reflexivity. Qed.

Lemma toUpperCase_has_no_lower (s : string) : has_lower (toUpperCase s) = false.
Proof.
  induction s as [|c r IH]; [reflexivity|].
  cbn [toUpperCase has_lower]. rewrite IH.
  pose proof (upper_not_lower c) as Hc. cbv zeta in Hc. rewrite Hc. reflexivity.
Qed.

Lemma inherited_names_have_lower (name : string) :
  name ∈ Object_prototype_names -> has_lower name = true.
Proof.
  unfold Object_prototype_names. intros Hin.
  among Hin; subst name; reflexivity.
Qed.

Lemma toUpperCase_not_inherited (s : string) :
  toUpperCase s ∉ Object_prototype_names.
Proof.
  intros Hin. apply inherited_names_have_lower in Hin.
  rewrite toUpperCase_has_no_lower in Hin. discriminate.
Qed.

Lemma getLogLevel_cases (LOG_LEVEL : option string) :
  getLogLevel LOG_LEVEL = Numbered 1
  \/ getLogLevel LOG_LEVEL = Numbered 2
  \/ getLogLevel LOG_LEVEL = Numbered 3.
Proof.
  unfold getLogLevel.
  set (key := toUpperCase _).
  destruct ((list_to_map LOG_LEVELS : gmap string Z) !! key) as [n|] eqn:Hkey.
  - apply elem_of_list_to_map_2 in Hkey. unfold LOG_LEVELS in Hkey.
    among Hkey; injection Hkey as _ ->; simpl; auto.
  - rewrite bool_decide_eq_false_2 by apply toUpperCase_not_inherited. auto.
Qed.

(** X15: the logger cannot be silenced, and the level [error] cannot be
    selected.  Whatever [LOG_LEVEL] holds, the level of the logger is WARN,
    INFO or DEBUG, never ERROR, so [logger.error] and [logger.warn] always
    print; a [LOG_LEVEL] that reads [error] in any letter case selects INFO,
    because the level 0 of ERROR is falsy and falls back to the default. *)
Theorem X15_logger_cannot_be_silenced (LOG_LEVEL : option string) :
  getLogLevel LOG_LEVEL ∈ [Numbered 1; Numbered 2; Numbered 3]
  /\ prints (getLogLevel LOG_LEVEL) "ERROR" = true
  /\ prints (getLogLevel LOG_LEVEL) "WARN" = true
  /\ (forall s, LOG_LEVEL = Some s -> toUpperCase s = "ERROR" ->
        getLogLevel LOG_LEVEL = Numbered 2
        /\ prints (getLogLevel LOG_LEVEL) "INFO" = true
        /\ getLogLevel LOG_LEVEL = getLogLevel None).
Proof.
  split; [|split; [|split]].
  - destruct (getLogLevel_cases LOG_LEVEL) as [->|[->| ->]];
      repeat constructor.
  - destruct (getLogLevel_cases LOG_LEVEL) as [->|[->| ->]]; reflexivity.
  - destruct (getLogLevel_cases LOG_LEVEL) as [->|[->| ->]]; reflexivity.
  - intros s -> Hs.
    assert (Hlevel : getLogLevel (Some s) = Numbered 2).
    { unfold getLogLevel. destruct s as [|c r]; [discriminate Hs|].
      cbn [String.eqb]. rewrite Hs. reflexivity. }
    rewrite Hlevel. repeat split; reflexivity.
Qed.

(** ** The error handler *)

Section ErrorHandler.

Variable now_iso : string.

Local Abbreviation errorHandler' := (errorHandler now_iso).

(** X16: the error handler discloses nothing of the error outside
    development.  Every answer carries [success: false], the time, and one
    of five fixed messages, never the message of the error; a
    ValidationError is answered 400 with its details whatever its code
    says; and for any other error, unless NODE_ENV is [development], the
    body holds the three fields [success], [message] and [timestamp] and
    nothing else.  The status is 400, 404, 403 or 503 for the errors
    singled out, and [err.statusCode || 500] otherwise. *)
Theorem X16_errorHandler_discloses_nothing
    (NODE_ENV : option string) (err : thrown) :
  let answer := errorHandler' NODE_ENV err in
  reply_body answer !! "success" = Some (VBool false)
  /\ reply_body answer !! "timestamp" = Some (VStr now_iso)
  /\ (exists text,
        reply_body answer !! "message" = Some (VStr text)
        /\ text ∈ [ "Internal server error"; "Validation failed";
                    "DynamoDB table not found"; "Access denied to DynamoDB";
                    "Service temporarily unavailable" ])
  /\ (JS.is_string (err_name err) "ValidationError" = true ->
      reply_status answer = VNum 400
      /\ reply_body answer !! "details" = Some (err_details err))
  /\ (JS.is_string (err_name err) "ValidationError" = false ->
      NODE_ENV <> Some "development" ->
      forall k, is_Some (reply_body answer !! k) ->
                k ∈ ["success"; "message"; "timestamp"])
  /\ (reply_status answer ∈ [VNum 400; VNum 404; VNum 403; VNum 503]
      \/ reply_status answer = JS.or (err_statusCode err) (VNum 500)).
Proof.
  intros answer. subst answer. unfold errorHandler.
  assert (Hdev : NODE_ENV <> Some "development" ->
                 header_is NODE_ENV "development" = false).
  { intros Hne. destruct NODE_ENV as [s|]; [|reflexivity]. simpl.
    destruct (String.eqb_spec s "development"); congruence. }
  assert (Hkeys : forall (m : string) (k : string),
            is_Some ((<[ "message" := VStr m ]>
                        (list_to_map [ ("success", VBool false);
                                       ("message", VStr "Internal server error");
                                       ("timestamp", VStr now_iso) ])
                      : gmap string value) !! k) ->
            k ∈ ["success"; "message"; "timestamp"]).
  { intros m k [v Hv]. cbn [list_to_map foldr uncurry] in Hv.
    repeat (apply lookup_insert_Some in Hv as [[<- _]|[_ Hv]];
            [repeat constructor|]).
    rewrite lookup_empty in Hv. discriminate. }
  assert (Hkeys0 : forall k : string,
            is_Some ((list_to_map [ ("success", VBool false);
                                    ("message", VStr "Internal server error");
                                    ("timestamp", VStr now_iso) ]
                      : gmap string value) !! k) ->
            k ∈ ["success"; "message"; "timestamp"]).
  { intros k [v Hv]. cbn [list_to_map foldr uncurry] in Hv.
    repeat (apply lookup_insert_Some in Hv as [[<- _]|[_ Hv]];
            [repeat constructor|]).
    rewrite lookup_empty in Hv. discriminate. }
  destruct (JS.is_string (err_name err) "ValidationError");
    [|destruct (JS.is_string (err_code err) "ResourceNotFoundException");
      [|destruct (JS.is_string (err_code err) "AccessDeniedException");
        [|destruct (JS.is_string (err_code err) "ThrottlingException"
                    || JS.is_string (err_code err)
                         "ProvisionedThroughputExceededException");
          [|destruct (header_is NODE_ENV "development") eqn:Hmode]]]];
    cbn [reply_body reply_status].
  all: split; [reflexivity|].
  all: split; [reflexivity|].
  all: split; [eexists; split; [reflexivity|repeat constructor]|].
  all: split; [first [discriminate|intros _; split; reflexivity]|].
  all: split;
    [ first [ discriminate
            | intros _ Hne; first [ apply Hkeys | apply Hkeys0
                                  | discriminate (Hdev Hne) ] ]
    | first [ right; reflexivity | left; repeat constructor ] ].
Qed.

End ErrorHandler.

(** ** Client detection *)

Lemma append_cons (a : Ascii.ascii) (s t : string) :
  String a s +:+ t = String a (s +:+ t).
Proof. reflexivity. Qed.

Lemma after_prefix_app (p : string) : forall s tail : string,
  after_prefix p s = Some tail -> s = p +:+ tail.
Proof.
  induction p as [|a p IH]; intros s tail H.
  - injection H as ->. reflexivity.
  - destruct s as [|b s]; [discriminate|]. simpl in H.
    destruct (Ascii.eqb_spec a b) as [->|]; [|discriminate].
    rewrite append_cons. f_equal. apply IH. exact H.
Qed.

Lemma prefix_cons (a : Ascii.ascii) (p s : string) :
  String.prefix (String a p) (String a s) = String.prefix p s.
Proof. simpl. destruct (Ascii.ascii_dec a a); [reflexivity|congruence]. Qed.

Lemma version_run_prefix (t : string) : String.prefix (version_run t) t = true.
Proof.
  induction t as [|c r IH]; [reflexivity|].
  cbn [version_run]. destruct (version_char c); [|reflexivity].
  rewrite prefix_cons. exact IH.
Qed.

Lemma version_run_idem (t : string) : version_run (version_run t) = version_run t.
Proof.
  induction t as [|c r IH]; [reflexivity|].
  cbn [version_run]. destruct (version_char c) eqn:Hc; [|reflexivity].
  cbn [version_run]. rewrite Hc, IH. reflexivity.
Qed.

Lemma prefix_app (p a b : string) :
  String.prefix a b = true -> String.prefix (p +:+ a) (p +:+ b) = true.
Proof.
  intros H. induction p as [|c p IH]; [exact H|].
  rewrite !append_cons, prefix_cons. exact IH.
Qed.

Lemma includes_here (s needle : string) :
  String.prefix needle s = true -> JS.includes s needle = true.
Proof. intros H. destruct s; simpl in *; rewrite H; reflexivity. Qed.

Lemma includes_later (c : Ascii.ascii) (s needle : string) :
  JS.includes s needle = true -> JS.includes (String c s) needle = true.
Proof. intros H. cbn [JS.includes]. rewrite H. apply orb_true_r. Qed.

Lemma prefix_shorter (p q : string) : forall s : string,
  String.prefix (p +:+ q) s = true -> String.prefix p s = true.
Proof.
  induction p as [|a p IH]; intros s H; [destruct s; reflexivity|].
  rewrite append_cons in H. destruct s as [|b s]; [discriminate H|].
  cbn [String.prefix] in H |- *.
  destruct (Ascii.ascii_dec a b); [|discriminate H]. apply IH. exact H.
Qed.

Lemma includes_shorter (s p q : string) :
  JS.includes s (p +:+ q) = true -> JS.includes s p = true.
Proof.
  induction s as [|c r IH]; intros H.
  - cbn [JS.includes] in H |- *. rewrite orb_false_r in H |- *.
    apply (prefix_shorter p q). exact H.
  - cbn [JS.includes] in H |- *.
    apply orb_true_iff in H as [Hhere|Hlater]; apply orb_true_iff.
    + left. apply (prefix_shorter p q). exact Hhere.
    + right. apply IH. exact Hlater.
Qed.

Lemma rnMatch_sound (userAgent : string) : forall v : string,
  rnMatch userAgent = Some v ->
  v <> "" /\ version_run v = v
  /\ JS.includes userAgent ("React Native/" +:+ v) = true.
Proof.
  induction userAgent as [|c rest IH]; intros v H; [discriminate|].
  cbn [rnMatch] in H.
  destruct (after_prefix "React Native/" (String c rest)) as [tail|] eqn:Htail.
  - destruct (String.eqb_spec (version_run tail) "") as [Hempty|Hfull].
    + destruct (IH v H) as (Hv & Hrun & Hin).
      split; [exact Hv|]. split; [exact Hrun|]. apply includes_later. exact Hin.
    + injection H as <-. split; [exact Hfull|].
      split; [apply version_run_idem|].
      apply includes_here. apply after_prefix_app in Htail. rewrite Htail.
      apply prefix_app. apply version_run_prefix.
  - destruct (IH v H) as (Hv & Hrun & Hin).
    split; [exact Hv|]. split; [exact Hrun|]. apply includes_later. exact Hin.
Qed.

(** X17: the client type is whatever the request claims, and it sets the
    limits.  A non-empty [X-Client-Type] header wins over every user agent
    and is taken in lower case, so a header that reads [react-native] in
    any letter case gets the rate limit 300 and the data limit 50; without
    the header the type is one of [react-native], [nextjs] and [unknown],
    and a mobile pattern in the user agent wins over a browser pattern.
    The data limit applied to a client is always the one recommended to it,
    and rate limit and data limit go together: 300 and 50, 200 and 100, or
    100 and 25. *)
Theorem X17_client_type_sets_the_limits
    (User_Agent X_Client_Type X_Client_Version : option string) :
  let found := clientDetection User_Agent X_Client_Type X_Client_Version in
  let c := clientType found in
  X_Detected_Client found = c
  /\ (forall t, X_Client_Type = Some t -> t <> "" ->
        c = JS.toLowerCase t
        /\ (JS.toLowerCase t = "react-native" ->
            rate_limit_max c = 300%Z /\ getOptimalDataLimit c = 50%Z))
  /\ (X_Client_Type = None \/ X_Client_Type = Some "" ->
      c ∈ ["react-native"; "nextjs"; "unknown"]
      /\ (mobile_agent (default "" User_Agent) = true -> c = "react-native"))
  /\ getOptimalDataLimit c = dataLimit (getClientRecommendations c)
  /\ (rate_limit_max c, getOptimalDataLimit c)
       ∈ [ (300%Z, 50%Z); (200%Z, 100%Z); (100%Z, 25%Z) ].
Proof.
  intros found c. subst found c. unfold clientDetection. cbn [clientType X_Detected_Client].
  split; [reflexivity|]. split; [|split; [|split]].
  - intros t -> Hne. change (default "" (Some t)) with t.
    destruct (String.eqb_spec t "") as [|_]; [contradiction|].
    cbn [negb fst]. split; [reflexivity|].
    intros ->. split; reflexivity.
  - intros Hnone.
    assert (Hempty : default "" X_Client_Type = "")
      by (destruct Hnone as [->| ->]; reflexivity).
    rewrite Hempty. cbn [String.eqb negb].
    destruct (mobile_agent (default "" User_Agent));
      [|destruct (web_agent (default "" User_Agent))]; cbn [fst];
      (split; [repeat constructor|first [reflexivity|discriminate]]).
  - unfold getOptimalDataLimit, getClientRecommendations.
    repeat match goal with
           | |- context [String.eqb ?a ?b] => destruct (String.eqb a b)
           end; reflexivity.
  - unfold getOptimalDataLimit, rate_limit_max.
    repeat match goal with
           | |- context [String.eqb ?a ?b] => destruct (String.eqb a b)
           end; repeat constructor.
Qed.

(** X18: the version the middleware reports for a mobile client is read
    off the user agent correctly: when no [X-Client-Type] header is sent
    and the pattern [React Native/<version>] matches, the reported version
    is not empty, is made of digits and dots only, follows the text
    [React Native/] in the user agent, and is what both [req.clientVersion]
    and the header [X-Detected-Version] carry, whatever [X-Client-Version]
    says. *)
Theorem X18_mobile_version_is_read_off_the_agent
    (userAgent v : string) (X_Client_Version : option string) :
  rnMatch userAgent = Some v ->
  let found := clientDetection (Some userAgent) None X_Client_Version in
  v <> "" /\ version_run v = v
  /\ JS.includes userAgent ("React Native/" +:+ v) = true
  /\ clientType found = "react-native"
  /\ clientVersion found = v
  /\ X_Detected_Version found = Some v.
Proof.
  intros Hmatch found. subst found.
  destruct (rnMatch_sound userAgent v Hmatch) as (Hv & Hrun & Hin).
  split; [exact Hv|]. split; [exact Hrun|]. split; [exact Hin|].
  assert (Hmobile : mobile_agent userAgent = true).
  { unfold mobile_agent.
    assert (Hrn : JS.includes userAgent "React Native" = true).
    { apply (includes_shorter userAgent "React Native" ("/" +:+ v)).
      exact Hin. }
    rewrite Hrn. reflexivity. }
  unfold clientDetection.
  change (default "" (Some userAgent)) with userAgent.
  change (default "" (@None string)) with "". cbn [String.eqb negb].
  rewrite Hmobile, Hmatch. change (default "" (Some v)) with v. cbn [default fst snd clientType clientVersion
                                X_Detected_Version].
  destruct (String.eqb_spec v "") as [|_]; [contradiction|].
  repeat split; reflexivity.
Qed.

(** ** The mobile form of a response *)

Lemma map_compact (items : list value) :
  Forall (fun item => JS.nullish item = false) items ->
  exists history,
    map_throwing compact items = Ok history /\ Forall2 compacted items history.
Proof.
  induction 1 as [|item items Hitem _ (history & Hmap & Hall)].
  - exists []. split; [reflexivity|constructor].
  - assert (Hone : compact item
                   = Ok (obj [ ("id", JS.prop item "deviceId");
                               ("value", JS.prop item "value");
                               ("time", JS.prop item "timestamp");
                               ("status", JS.prop item "status") ])).
    { unfold compact, JS.member. rewrite Hitem. reflexivity. }
    eexists. cbn [map_throwing]. rewrite Hone, Hmap. split; [reflexivity|].
    constructor; [reflexivity|exact Hall].
Qed.

Lemma compacted_fields (record entry : value) (k : string) :
  compacted record entry -> k ∉ ["id"; "value"; "time"; "status"] ->
  JS.prop entry k = VUndefined.
Proof.
  intros -> Hk. unfold obj, JS.prop.
  rewrite (not_elem_of_list_to_map_1 _ k); [reflexivity|exact Hk].
Qed.

Lemma formatResponseForClient_mobile (data : value) (items : list value) :
  JS.nullish data = false ->
  JS.prop (JS.prop data "historical") "items" = VArr items ->
  Forall (fun item => JS.nullish item = false) items ->
  JS.nullish (JS.prop data "analytics") = false ->
  exists latest history stats,
    formatResponseForClient "react-native" data
    = Ok (obj [("latest", latest); ("history", VArr history); ("stats", stats)])
    /\ Forall2 compacted items history.
Proof.
  intros Hdata Hitems Hrecords Hanalytics.
  assert (Hhistorical : JS.nullish (JS.prop data "historical") = false).
  { destruct (JS.prop data "historical"); try reflexivity; discriminate. }
  destruct (map_compact items Hrecords) as (history & Hmap & Hall).
  assert (Hlatest : exists latest,
            (if JS.truthy (JS.prop data "latest")
             then compact (JS.prop data "latest") else Ok VNull) = Ok latest).
  { destruct (JS.truthy (JS.prop data "latest")) eqn:Ht; [|eauto].
    unfold compact, JS.member. rewrite (truthy_not_nullish _ Ht). eauto. }
  destruct Hlatest as (latest & Hlatest).
  unfold formatResponseForClient.
  replace (String.eqb "react-native" "react-native") with true by reflexivity.
  unfold JS.member. rewrite Hdata, Hhistorical, Hitems, Hanalytics.
  unfold mbind, result_bind. rewrite Hlatest, Hmap.
  do 3 eexists. split; [reflexivity|exact Hall].
Qed.

(** X26: the mobile form of /api/client/optimized-data keeps the count and
    the order of the history and nothing of a record but four fields.  For
    the client type [react-native] and a response whose history is an array
    of records, the formatted history has one entry per record, in the same
    order, and an entry holds the record's deviceId, value, timestamp and
    status under the names [id], [value], [time] and [status] and no other
    field, so every other reading of the record is dropped; for any other
    client type the response is returned as it is. *)
Theorem X26_mobile_form_keeps_four_fields (data : value) (items : list value) :
  JS.nullish data = false ->
  JS.prop (JS.prop data "historical") "items" = VArr items ->
  Forall (fun item => JS.nullish item = false) items ->
  JS.nullish (JS.prop data "analytics") = false ->
  (exists latest history stats,
     formatResponseForClient "react-native" data
     = Ok (obj [("latest", latest); ("history", VArr history); ("stats", stats)])
     /\ length history = length items
     /\ forall i record, items !! i = Some record ->
          exists entry,
            history !! i = Some entry
            /\ JS.prop entry "id" = JS.prop record "deviceId"
            /\ JS.prop entry "value" = JS.prop record "value"
            /\ JS.prop entry "time" = JS.prop record "timestamp"
            /\ JS.prop entry "status" = JS.prop record "status"
            /\ forall k, k ∉ ["id"; "value"; "time"; "status"] ->
                         JS.prop entry k = VUndefined)
  /\ forall clientType, clientType <> "react-native" ->
       formatResponseForClient clientType data = Ok data.
Proof.
  intros Hdata Hitems Hrecords Hanalytics. split.
  - destruct (formatResponseForClient_mobile data items Hdata Hitems Hrecords
                Hanalytics) as (latest & history & stats & Hrun & Hall).
    exists latest, history, stats. split; [exact Hrun|].
    split; [symmetry; exact (Forall2_length _ _ _ Hall)|].
    intros i record Hi.
    destruct (Forall2_lookup_l _ _ _ _ _ Hall Hi) as (entry & Hentry & Hform).
    exists entry. split; [exact Hentry|].
    split; [rewrite Hform; reflexivity|]. split; [rewrite Hform; reflexivity|].
    split; [rewrite Hform; reflexivity|]. split; [rewrite Hform; reflexivity|].
    intros k Hk. exact (compacted_fields record entry k Hform Hk).
  - intros clientType Hother. unfold formatResponseForClient.
    destruct (String.eqb_spec clientType "react-native"); [contradiction|].
    reflexivity.
Qed.

(** ** What decides how a delivery is handled *)

Lemma emits_none (t : list event) :
  (forall to name p, Emit to name p ∉ t) -> emits t = [].
Proof.
  intros Hno. destruct (emits t) as [|[[to name] p] rest] eqn:He; [reflexivity|].
  assert (Hin : (to, name, p) ∈ emits t) by (rewrite He; left).
  apply list_elem_of_omap in Hin as ([] & Hx & Heq); try discriminate.
  injection Heq as -> -> ->. destruct (Hno _ _ _ Hx).
Qed.

Lemma header_is_other (h : option string) (literal : string) :
  h <> Some literal -> header_is h literal = false.
Proof.
  intros Hne. destruct h as [s|]; [|reflexivity]. simpl.
  destruct (String.eqb_spec s literal); congruence.
Qed.

Section Dispatch.

Variable NumberToString : float -> string.
Variable JSON_parse_text : string -> option value.
Variable network : list event -> value -> result fetch_response.
Variable now_iso : string.
Variable Date_now : float.
Variable engine_message : error -> string.
Variable LOG_LEVEL : option string.

Local Abbreviation sns_webhook_ :=
  (sns_webhook NumberToString JSON_parse_text network now_iso Date_now
     engine_message LOG_LEVEL).
Local Abbreviation fire_alert_webhook_ :=
  (fire_alert_webhook NumberToString JSON_parse_text network now_iso
     LOG_LEVEL).

(** X25: the two ingress routes decide differently what a delivery is.
    POST /sns/webhook goes by the header [x-amz-sns-message-type] alone: a
    delivery without the header, or under any value other than
    [Notification] and [SubscriptionConfirmation], emits nothing and fetches
    nothing, whatever its body says.  POST /webhook/fire-alert goes by the
    [Type] of the body alone: the header changes nothing of what it does. *)
Theorem X25_header_or_body_decides (req : request) (w : world) :
  (message_type req <> Some "Notification" ->
   message_type req <> Some "SubscriptionConfirmation" ->
   emits (new_events w (sns_webhook_ req w).2) = []
   /\ fetches (new_events w (sns_webhook_ req w).2) = [])
  /\ (forall header,
        fire_alert_webhook_ {| message_type := header;
                               content_type := content_type req;
                               req_body := req_body req |} w
        = fire_alert_webhook_ req w).
Proof.
  split.
  - intros Hnotification Hconfirmation.
    destruct (sns_webhook_run NumberToString JSON_parse_text network now_iso
                Date_now engine_message LOG_LEVEL req w)
      as (resp & new & -> & _ & Hemit & Hfetch).
    cbn [snd]. rewrite new_events_extend. split.
    + apply emits_none. intros to name p Hin.
      destruct (Hemit _ _ _ Hin) as (Hheader & _).
      rewrite (header_is_other _ _ Hnotification) in Hheader. discriminate.
    + apply fetches_none. intros url Hin.
      destruct (Hfetch _ Hin) as (Hheader & _).
      rewrite (header_is_other _ _ Hconfirmation) in Hheader. discriminate.
  - intros header. destruct req as [h c b]. reflexivity.
Qed.

(** X28: a confirmation whose URL is [null] trips the logger.  Both
    handlers hand the URL to [logger.info] as [meta], and formatting a line
    takes [Object.keys(meta)].  On POST /sns/webhook a confirmation whose
    [SubscribeURL || subscribeURL || SubscribeUrl] is [null] fetches and
    emits nothing, and is answered 500 when the logger prints at INFO, 200
    when it does not; on POST /webhook/fire-alert a confirmation whose
    [SubscribeURL] is [null] is answered 500 without a fetch when the
    logger prints at INFO, and 200 after a fetch of [null] when it does
    not.  The logger prints at INFO unless its level is WARN. *)
Theorem X28_null_url_trips_the_logger (req : request) (w : world) :
  (forall v,
     header_is (message_type req) "SubscriptionConfirmation" = true ->
     parse_body NumberToString JSON_parse_text (req_body req) = Ok v ->
     JS.nullish v = false ->
     subscribeUrl v = VNull ->
     let run := sns_webhook_ req w in
     fetches (new_events w run.2) = []
     /\ emits (new_events w run.2) = []
     /\ run.1 = Ok (if prints (getLogLevel LOG_LEVEL) "INFO"
                    then refused engine_message TypeError
                    else acknowledged now_iso (JS.prop v "MessageId")))
  /\ (forall message,
        parse_alert_body NumberToString JSON_parse_text req = Ok message ->
        JS.is_string (JS.prop message "Type") "SubscriptionConfirmation" = true ->
        JS.prop message "SubscribeURL" = VNull ->
        let run := fire_alert_webhook_ req w in
        emits (new_events w run.2) = []
        /\ if prints (getLogLevel LOG_LEVEL) "INFO"
           then run.1 = Ok alert_failed
                /\ fetches (new_events w run.2) = []
           else run.1 = Ok subscription_processed
                /\ fetches (new_events w run.2) = [VNull])
  /\ (prints (getLogLevel LOG_LEVEL) "INFO" = false
      <-> getLogLevel LOG_LEVEL = Numbered 1).
Proof.
  assert (Hnull : formatMessage_throws LOG_LEVEL "INFO" VNull
                  = prints (getLogLevel LOG_LEVEL) "INFO").
  { unfold formatMessage_throws. apply andb_true_r. }
  split; [|split].
  - intros v Hhdr Hparse Hv Hurl run. subst run.
    unfold sns_webhook. mrun. rewrite Hparse. mrun.
    unfold JS.member. rewrite Hv. mrun. rewrite Hhdr.
    destruct (prints (getLogLevel LOG_LEVEL) "INFO") eqn:Hprints.
    + rewrite confirmSubscription_throws by (rewrite Hurl; exact Hnull).
      mrun. rewrite new_events_extend. repeat split; reflexivity.
    + destruct (confirmSubscription_run network LOG_LEVEL v
                  (extend w [Log LInfo "Received SNS notification:"]))
        as (new & Hrun & Hfetch & Hemit & _).
      { rewrite Hurl. exact Hnull. }
      rewrite Hrun. mrun. rewrite new_events_extend.
      rewrite Hurl in Hfetch. simpl in Hfetch.
      split; [simpl; exact Hfetch|]. split; [|reflexivity].
      simpl. apply emits_none. exact Hemit.
  - intros message Hparse Htype Hurl run. subst run.
    assert (Hmessage : JS.nullish message = false).
    { destruct message; try reflexivity; discriminate Htype. }
    unfold fire_alert_webhook, log_with. change (method_of LInfo) with "INFO".
    mrun. rewrite Hparse. mrun.
    unfold JS.member. rewrite Hmessage. mrun.
    rewrite (formatMessage_throws_string LOG_LEVEL "INFO" _ _ Htype). mrun.
    rewrite Htype. mrun. rewrite Hurl, Hnull.
    destruct (prints (getLogLevel LOG_LEVEL) "INFO"); mrun.
    + rewrite new_events_extend. repeat split; reflexivity.
    + unfold fetch. mrun.
      destruct (network _ _) as [r|e]; mrun; rewrite new_events_extend;
        repeat split; reflexivity.
  - destruct (getLogLevel_cases LOG_LEVEL) as [->|[->| ->]]; simpl;
      split; intros H; try reflexivity; discriminate H.
Qed.

End Dispatch.

(** ** The table service *)

Ltac drun :=
  repeat (unfold mbind, D_bind, mret, D_ret, attempt, reject, send; simpl).

Lemma truthy_default_to (v : value) :
  JS.truthy (default_to v VNull) = JS.truthy v.
Proof. destruct v; reflexivity. Qed.

Lemma prop_default_to (options : value) (k : string) :
  JS.truthy (JS.prop options k) = true ->
  default_to options (obj []) = options.
Proof. destruct options; simpl; try discriminate; reflexivity. Qed.

Section FloatZero.

Lemma zero_spec (x : float) :
  PrimFloat.eqb x 0 = true -> exists s, Prim2SF x = S754_zero s.
Proof.
  rewrite FloatAxioms.eqb_spec.
  change (Prim2SF 0) with (S754_zero false).
  destruct (Prim2SF x) as [s|s| |s m e]; unfold SFeqb; simpl;
    [eauto|destruct s; discriminate|discriminate|destruct s; discriminate].
Qed.

Lemma zero_of_spec (x : float) (s : bool) :
  Prim2SF x = S754_zero s -> PrimFloat.eqb x 0 = true.
Proof.
  intros H. rewrite FloatAxioms.eqb_spec, H. reflexivity.
Qed.

Lemma add_zeros (x y : float) :
  PrimFloat.eqb x 0 = true -> PrimFloat.eqb y 0 = true ->
  PrimFloat.eqb (x + y) 0 = true.
Proof.
  intros Hx Hy.
  destruct (zero_spec x Hx) as (sx & Hsx). destruct (zero_spec y Hy) as (sy & Hsy).
  assert (H : exists s, Prim2SF (x + y) = S754_zero s).
  { rewrite FloatAxioms.add_spec, Hsx, Hsy.
    destruct sx, sy; eexists; reflexivity. }
  destruct H as (s & H). exact (zero_of_spec _ _ H).
Qed.

Lemma sum_of_zeros (l : list float) : forall acc : float,
  PrimFloat.eqb acc 0 = true ->
  Forall (fun x => PrimFloat.eqb x 0 = true) l ->
  PrimFloat.eqb (foldl PrimFloat.add acc l) 0 = true.
Proof.
  induction l as [|x l IH]; intros acc Hacc Hall; [exact Hacc|].
  apply Forall_cons in Hall as [Hx Hall]. simpl.
  apply IH; [apply add_zeros; assumption|exact Hall].
Qed.

(** Zero divided by anything is zero or NaN, that is, falsy. *)
Lemma zero_quotient_falsy (x n : float) :
  PrimFloat.eqb x 0 = true -> JS.truthy (VNum (x / n)) = false.
Proof.
  intros Hx. destruct (zero_spec x Hx) as (sx & Hsx).
  unfold JS.truthy, PrimFloat.is_nan.
  rewrite !FloatAxioms.eqb_spec, FloatAxioms.div_spec, Hsx.
  change (Prim2SF 0) with (S754_zero false).
  destruct (Prim2SF n); reflexivity.
Qed.

End FloatZero.

Section StoreFacts.

Variable NumberToString : float -> string.
Variable StringToNumber : string -> float.
Variable engine_message : error -> string.
Variable now_iso : string.
Variable Date_now : float.
Variable Math_floor : float -> float.
Variable stack_of : string -> string -> string.
Variable dynamoDb : list call -> call -> outcome Output.
Variable Array_sort : (value -> value -> result float) -> list value -> result (list value).
Variable Math_min : list float -> float.
Variable Math_max : list float -> float.
Variable toFixed2 : float -> float.
Variable DEFAULT_DEVICE_ID : option string.
Variable this : DynamoDBService.
Variable LOG_LEVEL : option string.

Local Abbreviation getDeviceData' :=
  (getDeviceData NumberToString StringToNumber engine_message stack_of dynamoDb
     Array_sort DEFAULT_DEVICE_ID this LOG_LEVEL).
Local Abbreviation getAnalyticsSummary' :=
  (getAnalyticsSummary NumberToString StringToNumber engine_message Date_now
     Math_floor stack_of dynamoDb Array_sort Math_min Math_max toFixed2
     DEFAULT_DEVICE_ID this LOG_LEVEL).
Local Abbreviation testConnection' := (testConnection dynamoDb this).
Local Abbreviation health_db' := (health_db now_iso dynamoDb this).
Local Abbreviation js_error' := (js_error stack_of).
Local Abbreviation rethrow' :=
  (rethrow NumberToString engine_message stack_of).
Local Abbreviation step_of' := (step_of engine_message stack_of).
Local Abbreviation analytics' := (analytics Math_min Math_max toFixed2).

Local Abbreviation plain' := (plain stack_of).
Local Abbreviation logged' := (logged engine_message stack_of LOG_LEVEL).

(** The logger formats everything but [null]. *)
Lemma logged_returns (method : string) (meta : value) (calls : list call) :
  meta <> VNull -> logged' method meta calls = (Resolved (), calls).
Proof.
  intros Hmeta. unfold logged.
  rewrite formatMessage_throws_not_null by exact Hmeta. reflexivity.
Qed.

Lemma name_of_plain (e : error) :
  name_of e ∈ ["Error"; "TypeError"; "SyntaxError"].
Proof. destruct e; repeat constructor. Qed.

Lemma step_of_cases {A} (r : result A) (calls : list call) :
  (exists a, r = Ok a /\ step_of' r calls = (Resolved a, calls))
  \/ (exists err, step_of' r calls = (Rejected err, calls) /\ plain' err).
Proof.
  destruct r as [a|e]; [left; eauto|right].
  eexists. split; [reflexivity|].
  exists (name_of e). eexists. split; [reflexivity|apply name_of_plain].
Qed.

Lemma rethrow_plain {A} (label : string) (error : thrown) (calls : list call) :
  exists err,
    rethrow NumberToString engine_message stack_of (A := A) label error calls
    = (Rejected err, calls)
    /\ plain' err.
Proof.
  unfold rethrow.
  destruct (step_of_cases (ToString NumberToString (err_message error)) calls)
    as [(message & _ & Hrun)|(err & Hrun & Hplain)].
  - unfold mbind, D_bind. rewrite Hrun. unfold reject.
    eexists. split; [reflexivity|].
    exists "Error". eexists. split; [reflexivity|repeat constructor].
  - unfold mbind, D_bind. rewrite Hrun. eauto.
Qed.

(** What a call of [getDeviceData] under a time range does: it rejects
    with a plain error, or it resolves to a page, and in both cases it has
    sent nothing or one scan. *)
Lemma getDeviceData_scans (deviceId options : value) (calls : list call) :
  timestampField this <> "" ->
  JS.truthy (JS.prop options "startTime")
  || JS.truthy (JS.prop options "endTime") = true ->
  exists made settled,
    getDeviceData' deviceId options calls = (settled, (calls ++ made)%list)
    /\ (made = [] \/ exists params, made = [Scan params])
    /\ match settled with
       | Resolved data =>
           JS.prop data "source" = VStr "scan"
           /\ exists items, JS.prop data "items" = VArr items
       | Rejected err => plain' err
       end.
Proof.
  intros Hts Hrange.
  assert (Hopt : default_to options (obj []) = options).
  { apply orb_true_iff in Hrange as [H|H]; eapply prop_default_to; exact H. }
  assert (Hfield : negb (String.eqb (timestampField this) "") = true).
  { destruct (String.eqb_spec (timestampField this) ""); [contradiction|reflexivity]. }
  unfold getDeviceData. rewrite Hopt, Hfield, !truthy_default_to, Hrange.
  unfold attempt at 1.
  destruct (step_of_cases (JS.member options "limit") calls)
    as [(limit & _ & Hlimit)|(err & Hlimit & Hplain)];
    unfold mbind at 1; unfold D_bind at 1; rewrite Hlimit.
  2:{ destruct (rethrow_plain (A := value) "Failed to get device data" err calls)
        as (err' & -> & Hplain').
      exists []. eexists. rewrite app_nil_r. split; [reflexivity|]. auto. }
  set (device := actualDeviceId DEFAULT_DEVICE_ID deviceId).
  set (limit' := default_to limit (VNum 100)).
  assert (Hqueried :
    (if JS.truthy device
     then attempt
            ((if true && true
              then reject (js_error' "ReferenceError"
                             "Cannot access 'params' before initialization")
              else mret ());;
             params ← step_of' (queryParams NumberToString StringToNumber this
                                  device limit'
                                  (default_to (JS.prop options "lastEvaluatedKey") VNull));
             result ← send dynamoDb (Query params);
             mret (Some (page (default [] (Items result)) result
                              [("source", VStr "query")])))
            (fun queryError =>
               logged' "WARN" (err_message queryError);; mret None)
     else mret None) calls = (Resolved None, calls)).
  { destruct (JS.truthy device); [|reflexivity].
    cbv [attempt mbind D_bind reject andb js_error err_message].
    rewrite logged_returns by discriminate. reflexivity. }
  unfold mbind at 1; unfold D_bind at 1. rewrite Hqueried.
  destruct (step_of_cases
              (scanParams NumberToString StringToNumber this device limit'
                 (default_to (JS.prop options "lastEvaluatedKey") VNull)
                 (default_to (JS.prop options "startTime") VNull)
                 (default_to (JS.prop options "endTime") VNull)) calls)
    as [(params & _ & Hparams)|(err & Hparams & Hplain)];
    unfold mbind at 1; unfold D_bind at 1; rewrite Hparams.
  2:{ destruct (rethrow_plain (A := value) "Failed to get device data" err calls)
        as (err' & -> & Hplain').
      exists []. eexists. rewrite app_nil_r. split; [reflexivity|]. auto. }
  unfold mbind at 1; unfold D_bind at 1. unfold send at 1.
  destruct (dynamoDb calls (Scan params)) as [result|err].
  2:{ destruct (rethrow_plain (A := value) "Failed to get device data" err
                  (calls ++ [Scan params]))
        as (err' & -> & Hplain').
      exists [Scan params]. eexists. split; [reflexivity|]. eauto. }
  destruct (step_of_cases (Array_sort (newest_first NumberToString StringToNumber this)
                             (default [] (Items result)))
              (calls ++ [Scan params]))
    as [(sorted & _ & Hsort)|(err & Hsort & Hplain)];
    unfold mbind at 1; unfold D_bind at 1; rewrite Hsort.
  2:{ destruct (rethrow_plain (A := value) "Failed to get device data" err
                  (calls ++ [Scan params]))
        as (err' & -> & Hplain').
      exists [Scan params]. eexists. split; [reflexivity|]. eauto. }
  exists [Scan params]. eexists. unfold mret, D_ret.
  split; [reflexivity|]. split; [eauto|]. split; [reflexivity|].
  exists sorted. reflexivity.
Qed.

Local Abbreviation new_DynamoDBService' := (new_DynamoDBService stack_of).

Lemma constructed_fields
    (DYNAMODB_TABLE_NAME TIMESTAMP_FIELD DEVICE_ID_FIELD : option string) :
  new_DynamoDBService' DYNAMODB_TABLE_NAME TIMESTAMP_FIELD DEVICE_ID_FIELD
  = Resolved this ->
  tableName this <> "" /\ timestampField this <> "" /\ deviceIdField this <> "".
Proof.
  assert (Hor : forall v fallback, fallback <> "" -> env_or v fallback <> "").
  { intros [s|] fallback Hf; simpl; [|exact Hf].
    destruct (String.eqb_spec s ""); assumption. }
  unfold new_DynamoDBService.
  destruct (String.eqb_spec (env_or DYNAMODB_TABLE_NAME "") "") as [|Htable];
    [discriminate|].
  intros [= <-]. simpl. split; [exact Htable|].
  split; apply Hor; discriminate.
Qed.

Lemma getAnalyticsSummary_scans (deviceId timeRange : value) (calls : list call) :
  timestampField this <> "" ->
  JS.truthy (VNum (Math_floor (Date_now / 1000))) = true ->
  exists made settled,
    getAnalyticsSummary' deviceId timeRange calls
    = (settled, (calls ++ made)%list)
    /\ (made = [] \/ exists params, made = [Scan params])
    /\ match settled with
       | Resolved summary => True
       | Rejected err => plain' err
       end.
Proof.
  intros Hts Hnow. unfold getAnalyticsSummary.
  match goal with
  | |- context [getDeviceData' _ ?o] => set (options := o)
  end.
  destruct (getDeviceData_scans (default_to deviceId VNull) options calls Hts)
    as (made & settled & Hrun & Hmade & Hsettled).
  { subst options. apply orb_true_iff. right. exact Hnow. }
  unfold attempt, mbind at 1. unfold D_bind at 1. rewrite Hrun.
  destruct settled as [data|err].
  - destruct Hsettled as (_ & items & Hitems). rewrite Hitems.
    destruct items as [|latest rest].
    + exists made. eexists. split; [reflexivity|]. auto.
    + destruct (step_of_cases
                  (map_throwing (fun item => JS.member item "value") (latest :: rest))
                  (calls ++ made))
        as [(values & _ & Hvalues)|(err & Hvalues & Hplain)];
        unfold mbind at 1; unfold D_bind at 1; rewrite Hvalues.
      * exists made. eexists. split; [reflexivity|]. auto.
      * destruct (rethrow_plain (A := value) "Failed to get analytics summary"
                    err (calls ++ made)) as (err' & -> & Hplain').
        exists made. eexists. split; [reflexivity|]. auto.
  - destruct (rethrow_plain (A := value) "Failed to get analytics summary"
                err (calls ++ made)) as (err' & -> & Hplain').
    exists made. eexists. split; [reflexivity|]. auto.
Qed.

(** X19: under a time range the Query path of the table service is dead.
    In [getDeviceData] the query branch reads [params] before its
    declaration whenever [startTime] or [endTime] is truthy, and the error
    is swallowed; so for a service built by the constructor such a call
    never sends a Query: it sends nothing or one Scan, and a page it
    resolves to has source 'scan'.  [getAnalyticsSummary] always passes a
    time range, so with a clock past the epoch it never sends a Query
    either. *)
Theorem X19_time_ranges_always_scan
    (DYNAMODB_TABLE_NAME TIMESTAMP_FIELD DEVICE_ID_FIELD : option string) :
  new_DynamoDBService' DYNAMODB_TABLE_NAME TIMESTAMP_FIELD DEVICE_ID_FIELD
  = Resolved this ->
  (forall deviceId options calls,
     JS.truthy (JS.prop options "startTime")
     || JS.truthy (JS.prop options "endTime") = true ->
     let run := getDeviceData' deviceId options calls in
     (exists made, run.2 = (calls ++ made)%list
                   /\ length made <= 1
                   /\ forall params, Query params ∉ made)
     /\ forall data, run.1 = Resolved data -> JS.prop data "source" = VStr "scan")
  /\ (forall deviceId timeRange calls,
        JS.truthy (VNum (Math_floor (Date_now / 1000))) = true ->
        let run := getAnalyticsSummary' deviceId timeRange calls in
        exists made, run.2 = (calls ++ made)%list
                     /\ length made <= 1
                     /\ forall params, Query params ∉ made).
Proof.
  intros Hnew. destruct (constructed_fields _ _ _ Hnew) as (_ & Hts & _).
  assert (Hscan : forall made : list call,
            made = [] \/ (exists params, made = [Scan params]) ->
            length made <= 1 /\ forall params, Query params ∉ made).
  { intros made [->|(params & ->)]; (split; [simpl; lia|]); intros p Hin;
      among Hin. }
  split.
  - intros deviceId options calls Hrange run. subst run.
    destruct (getDeviceData_scans deviceId options calls Hts Hrange)
      as (made & settled & -> & Hmade & Hsettled).
    cbn [fst snd]. split.
    + exists made. split; [reflexivity|]. apply Hscan. exact Hmade.
    + intros data ->. apply Hsettled.
  - intros deviceId timeRange calls Hnow run. subst run.
    destruct (getAnalyticsSummary_scans deviceId timeRange calls Hts Hnow)
      as (made & settled & -> & Hmade & _).
    cbn [snd]. exists made. split; [reflexivity|]. apply Hscan. exact Hmade.
Qed.

Lemma plain_answer (NODE_ENV : option string) (err : thrown) :
  plain' err ->
  reply_status (errorHandler now_iso NODE_ENV err) = VNum 500
  /\ reply_body (errorHandler now_iso NODE_ENV err) !! "message"
     = Some (VStr "Internal server error")
  /\ err_code err = VUndefined.
Proof.
  intros (name & message & -> & Hname). unfold errorHandler. simpl.
  among Hname; subst name; simpl; destruct (header_is NODE_ENV "development");
    repeat split; reflexivity.
Qed.

Lemma getDeviceData_rejects_plain (deviceId options : value) (calls : list call)
    (err : thrown) :
  (getDeviceData' deviceId options calls).1 = Rejected err -> plain' err.
Proof.
  unfold getDeviceData, attempt.
  match goal with
  | |- context [match ?body calls with _ => _ end] =>
      destruct (body calls) as [[data|error] calls']
  end.
  - discriminate.
  - destruct (rethrow_plain (A := value) "Failed to get device data" error calls')
      as (err' & -> & Hplain).
    intros [= <-]. exact Hplain.
Qed.

Lemma getAnalyticsSummary_rejects_plain (deviceId timeRange : value)
    (calls : list call) (err : thrown) :
  (getAnalyticsSummary' deviceId timeRange calls).1 = Rejected err -> plain' err.
Proof.
  unfold getAnalyticsSummary, attempt.
  match goal with
  | |- context [match ?body calls with _ => _ end] =>
      destruct (body calls) as [[data|error] calls']
  end.
  - discriminate.
  - destruct (rethrow_plain (A := value) "Failed to get analytics summary"
                error calls') as (err' & -> & Hplain).
    intros [= <-]. exact Hplain.
Qed.

(** X20: whatever goes wrong in [getDeviceData] or [getAnalyticsSummary],
    the error they reject with is a fresh [Error] or [TypeError] without
    [code], [statusCode] or [details]: the codes of the table's own errors
    (ResourceNotFoundException, AccessDeniedException, ThrottlingException)
    are lost in the rewrapping.  The error handler therefore answers every
    such failure with status 500 and 'Internal server error', and its
    answers 404, 403 and 503 cannot be reached through these methods. *)
Theorem X20_store_failures_are_answered_500
    (deviceId options timeRange : value) (calls : list call) (err : thrown)
    (NODE_ENV : option string) :
  (getDeviceData' deviceId options calls).1 = Rejected err
  \/ (getAnalyticsSummary' deviceId timeRange calls).1 = Rejected err ->
  err_code err = VUndefined
  /\ err_statusCode err = VUndefined
  /\ err_name err ∈ [VStr "Error"; VStr "TypeError"; VStr "SyntaxError"]
  /\ reply_status (errorHandler now_iso NODE_ENV err) = VNum 500
  /\ reply_body (errorHandler now_iso NODE_ENV err) !! "message"
     = Some (VStr "Internal server error").
Proof.
  intros Hrejected.
  assert (Hplain : plain' err).
  { destruct Hrejected as [H|H];
      [eapply getDeviceData_rejects_plain|eapply getAnalyticsSummary_rejects_plain];
      exact H. }
  destruct (plain_answer NODE_ENV err Hplain) as (Hstatus & Hmessage & Hcode).
  destruct Hplain as (name & message & -> & Hname).
  split; [reflexivity|]. split; [reflexivity|].
  split; [|split; [exact Hstatus|exact Hmessage]].
  simpl. among Hname; subst name; repeat constructor.
Qed.

(** X21: an average of zero is reported as missing.  When every numeric
    value of a window is zero, [analytics.averageValue] is null, because
    the average 0 is falsy, while [dataPoints] counts the values and
    [minValue] and [maxValue] are numbers. *)
Theorem X21_zero_average_is_reported_null (numericValues : list float) :
  numericValues <> [] ->
  Forall (fun x => PrimFloat.eqb x 0 = true) numericValues ->
  JS.prop (analytics' numericValues) "averageValue" = VNull
  /\ JS.prop (analytics' numericValues) "minValue" = VNum (Math_min numericValues)
  /\ JS.prop (analytics' numericValues) "maxValue" = VNum (Math_max numericValues)
  /\ JS.prop (analytics' numericValues) "dataPoints"
     = VNum (Number_of_nat (length numericValues)).
Proof.
  intros Hsome Hzero. destruct numericValues as [|x rest]; [contradiction|].
  unfold analytics.
  rewrite (zero_quotient_falsy _ _ (sum_of_zeros (x :: rest) 0 eq_refl Hzero)).
  repeat split; reflexivity.
Qed.

(** X22: GET /api/device/health/db never reaches the error handler.  It
    sends one Scan with Limit 1 and answers 200 with [success: true] when
    the scan resolves; when the scan rejects it answers 500 with
    [success: false] and the message of the table's own error, as it is. *)
Theorem X22_health_check_answers_itself (calls : list call) :
  let probe := Scan (obj [ ("TableName", VStr (tableName this));
                           ("Limit", VNum 1) ]) in
  let run := health_db' calls in
  run.2 = (calls ++ [probe])%list
  /\ match dynamoDb calls probe with
     | Resolved _ =>
         exists body, run.1 = Answered 200 body
                      /\ JS.prop body "success" = VBool true
     | Rejected err =>
         exists body, run.1 = Answered 500 body
                      /\ JS.prop body "success" = VBool false
                      /\ JS.prop body "message" = err_message err
     end.
Proof.
  intros probe run. subst probe run.
  unfold health_db, testConnection. drun.
  destruct (dynamoDb calls _) as [result|err]; simpl.
  - split; [reflexivity|]. eexists. split; [reflexivity|]. reflexivity.
  - split; [reflexivity|]. eexists. split; [reflexivity|].
    split; reflexivity.
Qed.

Local Abbreviation getLatestRecord' :=
  (getLatestRecord NumberToString StringToNumber engine_message stack_of
     dynamoDb Array_sort DEFAULT_DEVICE_ID this LOG_LEVEL).
Local Abbreviation latest' :=
  (latest NumberToString StringToNumber engine_message now_iso stack_of
     dynamoDb Array_sort DEFAULT_DEVICE_ID this LOG_LEVEL).
Local Abbreviation on_request_latest' :=
  (on_request_latest NumberToString StringToNumber engine_message stack_of
     dynamoDb Array_sort DEFAULT_DEVICE_ID this LOG_LEVEL).

Lemma getLatestRecord_rejects_plain (deviceId : value) (calls : list call)
    (err : thrown) :
  (getLatestRecord' deviceId calls).1 = Rejected err -> plain' err.
Proof.
  unfold getLatestRecord, attempt.
  match goal with
  | |- context [match ?body calls with _ => _ end] =>
      destruct (body calls) as [[data|error] calls']
  end.
  - discriminate.
  - destruct (rethrow_plain (A := value) "Failed to get latest record" error calls')
      as (err' & -> & Hplain).
    intros [= <-]. exact Hplain.
Qed.

(** X23: every record GET /api/device/latest finds is pushed to every
    socket.  When [getLatestRecord] resolves to a record, the route answers
    200 with it and, if the hub is up, emits exactly one event,
    [latest-data] with that record, which every connected client receives;
    when it resolves to nothing the route answers 404 and emits nothing;
    when it rejects, the error goes to [next], nothing is answered by the
    route and nothing is emitted.  The calls to the table are those of
    [getLatestRecord]. *)
Theorem X23_latest_is_pushed_to_everyone
    (deviceId : value) (calls : list call) (w : world) :
  let settled := getLatestRecord' deviceId calls in
  let run := latest' deviceId calls w in
  let new := new_events w run.2 in
  run.1.2 = settled.2
  /\ hub run.2 = hub w
  /\ match settled.1 with
     | Rejected error =>
         answer run.1.1 = None /\ passed_on run.1.1 = Some error
         /\ emits new = []
     | Resolved record =>
         if JS.truthy record then
           answer run.1.1
           = Some (200%Z, obj [ ("success", VBool true); ("data", record);
                                ("timestamp", VStr now_iso) ])
           /\ emits new
              = (if global_io w then [(ToAll, "latest-data", record)] else [])
           /\ (global_io w = true ->
               forall id, id ∈ clients (hub w) ->
                 received (hub w) id new = [(ToAll, "latest-data", record)])
         else
           (exists body, answer run.1.1 = Some (404%Z, body))
           /\ passed_on run.1.1 = None
           /\ emits new = []
     end.
Proof.
  intros settled run new. subst settled run new. unfold latest.
  destruct (getLatestRecord' deviceId calls) as [[record|error] calls'];
    cbn [fst snd]; unfold latest_settled.
  2:{ mrun. rewrite new_events_extend. repeat split; reflexivity. }
  destruct (JS.truthy record) eqn:Hrecord; mrun.
  2:{ unfold new_events. rewrite drop_all.
      split; [reflexivity|]. split; [reflexivity|].
      split; [eauto|]. split; reflexivity. }
  destruct (global_io w) eqn:Hio; mrun;
    destruct (ToString NumberToString (JS.or deviceId (VStr "default")));
    mrun; rewrite new_events_extend.
  all: split; [reflexivity|]; split; [reflexivity|]; split; [reflexivity|].
  all: split; [reflexivity|]; try discriminate.
  all: intros _ id Hid; rewrite received_cons_emit;
    rewrite bool_decide_eq_true_2 by exact Hid; reflexivity.
Qed.

(** X24: a [request-latest] is answered to the calling socket and to
    nobody else, with exactly one event: [latest-data] carrying what
    [getLatestRecord] resolved to, null included, or [error] carrying the
    fixed text 'Failed to fetch latest data' together with the message of
    the rewrapped error. *)
Theorem X24_request_latest_answers_the_caller
    (id : string) (deviceId : value) (calls : list call) (w : world) :
  let settled := getLatestRecord' deviceId calls in
  let run := on_request_latest' id deviceId calls w in
  let new := new_events w run.2 in
  run.1 = settled.2
  /\ hub run.2 = hub w
  /\ (forall other, other <> id -> received (hub w) other new = [])
  /\ match settled.1 with
     | Resolved record => emits new = [(ToSocket id, "latest-data", record)]
     | Rejected error =>
         exists payload text,
           emits new = [(ToSocket id, "error", payload)]
           /\ JS.prop payload "message" = VStr "Failed to fetch latest data"
           /\ JS.prop payload "error" = VStr text
           /\ err_message error = VStr text
     end.
Proof.
  intros settled run new. subst settled run new. unfold on_request_latest.
  destruct (getLatestRecord' deviceId calls) as [[record|error] calls'] eqn:Hrun;
    cbn [fst snd]; rewrite new_events_extend.
  - split; [reflexivity|]. split; [reflexivity|]. split; [|reflexivity].
    intros other Hne. rewrite received_cons_emit.
    rewrite bool_decide_eq_false_2 by (apply recipients_socket; exact Hne).
    reflexivity.
  - assert (Hplain : plain' error).
    { apply (getLatestRecord_rejects_plain deviceId calls). rewrite Hrun.
      reflexivity. }
    destruct Hplain as (name & message & -> & _).
    split; [reflexivity|]. split; [reflexivity|]. split.
    + intros other Hne. rewrite received_cons_log, received_cons_emit.
      rewrite bool_decide_eq_false_2 by (apply recipients_socket; exact Hne).
      reflexivity.
    + do 2 eexists. split; [reflexivity|]. repeat split; reflexivity.
Qed.

Local Abbreviation latestParams' := (latestParams this).
Local Abbreviation actualDeviceId' := (actualDeviceId DEFAULT_DEVICE_ID).

(** [logger.warn] always prints, so it throws on a [null] meta. *)
Lemma logged_warn_null (calls : list call) :
  logged' "WARN" VNull calls
  = (Rejected (js_error' "TypeError" (engine_message TypeError)), calls).
Proof.
  unfold logged, formatMessage_throws.
  destruct (getLogLevel_cases LOG_LEVEL) as [->|[->| ->]]; reflexivity.
Qed.

(** X29: what [getLatestRecord] does when its query is rejected.  The
    rejection is caught and handed to [logger.warn] by its message.  When
    the message is [null] the logger throws, so the call rejects with
    'Failed to get latest record: ' followed by the message of that
    TypeError, having sent the query and nothing else; with any other
    message the call goes on to exactly one scan. *)
Theorem X29_rejected_query_falls_back_unless_unexplained
    (deviceId : value) (calls : list call) (err : thrown) :
  JS.truthy (actualDeviceId' deviceId) = true ->
  dynamoDb calls (Query (latestParams' (actualDeviceId' deviceId)))
  = Rejected err ->
  let settled := getLatestRecord' deviceId calls in
  (err_message err = VNull ->
   settled
   = (Rejected (js_error' "Error"
                  ("Failed to get latest record: "
                   +:+ engine_message TypeError)),
      (calls ++ [Query (latestParams' (actualDeviceId' deviceId))])%list))
  /\ (err_message err <> VNull ->
      exists params,
        settled.2
        = (calls ++ [Query (latestParams' (actualDeviceId' deviceId));
                     Scan params])%list).
Proof.
  intros Hdevice Hquery settled. subst settled.
  unfold getLatestRecord. rewrite Hdevice.
  cbv [attempt mbind D_bind send mret D_ret]. rewrite Hquery.
  split.
  - intros ->. rewrite logged_warn_null. reflexivity.
  - intros Hmessage. rewrite logged_returns by exact Hmessage.
    eexists. rewrite <- app_assoc. cbn [app].
    destruct (dynamoDb _ (Scan _)) as [result|error].
    2:{ match goal with
        | |- context [rethrow _ _ _ ?label error ?made] =>
            destruct (rethrow_plain (A := value) label error made)
              as (err' & -> & _)
        end. reflexivity. }
    destruct (default [] (Items result)) as [|item items]; [reflexivity|].
    match goal with
    | |- context [step_of' ?r ?made] =>
        destruct (step_of_cases r made)
          as [(sorted & _ & Hsort)|(err' & Hsort & _)]; rewrite Hsort
    end.
    + reflexivity.
    + match goal with
      | |- context [rethrow _ _ _ ?label err' ?made] =>
          destruct (rethrow_plain (A := value) label err' made)
            as (err'' & -> & _)
      end. reflexivity.
Qed.

Local Abbreviation on_request_analytics' :=
  (on_request_analytics NumberToString StringToNumber engine_message Date_now
     Math_floor stack_of dynamoDb Array_sort Math_min Math_max toFixed2
     DEFAULT_DEVICE_ID this LOG_LEVEL).

(** X27: a [request-analytics] without a payload is never answered.  The
    handler takes its parameter apart before its [try] is entered: for a
    payload that is null or undefined its promise rejects with a TypeError,
    no call reaches the table and nothing is emitted, not even [error].
    For every other payload the promise resolves and the calling socket,
    and nobody else, receives exactly one event, [analytics-data] or
    [error]. *)
Theorem X27_request_analytics_needs_a_payload
    (id : string) (payload : value) (calls : list call) (w : world) :
  let run := on_request_analytics' id payload calls w in
  let new := new_events w run.2 in
  hub run.2 = hub w
  /\ (forall other, other <> id -> received (hub w) other new = [])
  /\ if JS.nullish payload then
       (exists err, run.1.1 = Rejected err /\ err_name err = VStr "TypeError")
       /\ run.1.2 = calls /\ run.2 = w
     else
       run.1.1 = Resolved ()
       /\ exists name sent,
            emits new = [(ToSocket id, name, sent)]
            /\ (name = "analytics-data" \/ name = "error").
Proof.
  intros run new. subst run new. unfold on_request_analytics, JS.member.
  destruct (JS.nullish payload); cbn [fst snd].
  - split; [reflexivity|]. split.
    + intros other _. unfold new_events. rewrite drop_all. reflexivity.
    + split; [eexists; split; reflexivity|]. split; reflexivity.
  - destruct (getAnalyticsSummary' _ _ calls) as [[summary|error] calls'];
      cbn [fst snd]; rewrite new_events_extend.
    + split; [reflexivity|]. split.
      * intros other Hne. rewrite received_cons_emit.
        rewrite bool_decide_eq_false_2 by (apply recipients_socket; exact Hne).
        reflexivity.
      * split; [reflexivity|]. do 2 eexists. split; [reflexivity|]. auto.
    + split; [reflexivity|]. split.
      * intros other Hne. rewrite received_cons_log, received_cons_emit.
        rewrite bool_decide_eq_false_2 by (apply recipients_socket; exact Hne).
        reflexivity.
      * split; [reflexivity|]. do 2 eexists. split; [reflexivity|]. auto.
Qed.

End StoreFacts.

(** ** Example runs *)

Lemma X1_severity_monotone_witness :
  exists tier tier',
    calculateSeverity Sample.NumberToString Sample.StringToNumber Scenario.calm
    = Ok (Spec.tier_name tier)
    /\ calculateSeverity Sample.NumberToString Sample.StringToNumber Sample.readings
       = Ok (Spec.tier_name tier')
    /\ tier_rank tier <= tier_rank tier'.
Proof.
  exact (X1_severity_monotone Sample.NumberToString Sample.StringToNumber
           Scenario.calm Sample.readings 20 60.5 10 40 95.5 15.25 950 120
           eq_refl eq_refl eq_refl eq_refl eq_refl eq_refl eq_refl eq_refl
           eq_refl eq_refl eq_refl eq_refl).
Defined.

Lemma X2_absent_reading_adds_nothing_witness :
  (Some 95.5%float = None -> @None float = None -> @None float = None ->
   @None float = None ->
   calculateSeverity Sample.NumberToString Sample.StringToNumber
     Scenario.temperature_only = Ok "LOW")
  /\ exists tier tier',
       calculateSeverity Sample.NumberToString Sample.StringToNumber Sample.readings
       = Ok (Spec.tier_name tier)
       /\ calculateSeverity Sample.NumberToString Sample.StringToNumber
            Scenario.temperature_only
          = Ok (Spec.tier_name tier')
       /\ tier_rank tier' <= tier_rank tier.
Proof.
  exact (X2_absent_reading_adds_nothing Sample.NumberToString Sample.StringToNumber
           Sample.readings Scenario.temperature_only
           (Some 95.5%float) (Some 15.25%float) (Some 950%float) (Some 120%float)
           (Some 95.5%float) None None None
           eq_refl eq_refl eq_refl eq_refl eq_refl eq_refl eq_refl eq_refl
           (or_introl eq_refl) (or_intror eq_refl) (or_intror eq_refl)
           (or_intror eq_refl)).
Defined.

Lemma X3_processFireAlert_stores_or_leaves_witness :
  match processFireAlert Sample.NumberToString Sample.StringToNumber
          Sample.now_iso Sample.Date_now Sample.random_suffix
          Sample.complete Sample.world0 with
  | (Ok alert, w') =>
      (getRecentAlerts (Some 1%Z) w').1 = Ok [alert]
      /\ length (alertHistory (service w'))
         = Nat.min (S (length (alertHistory (service Sample.world0))))
                   (maxHistorySize (service Sample.world0))
      /\ maxHistorySize (service w') = maxHistorySize (service Sample.world0)
  | (Throw _, w') => service w' = service Sample.world0
  end.
Proof.
  apply (X3_processFireAlert_stores_or_leaves Sample.NumberToString
           Sample.StringToNumber Sample.now_iso Sample.Date_now
           Sample.random_suffix Sample.complete Sample.world0).
  simpl. lia.
Defined.

Lemma X4_history_stays_well_formed_witness :
  history_invariant (service Scenario.after_three).
Proof.
  exact (X4_history_stays_well_formed Sample.NumberToString Sample.StringToNumber
           Sample.now_iso Sample.Date_now Sample.random_suffix
           [Sample.complete; Sample.no_location; Sample.located]
           Sample.world0 eq_refl).
Defined.

Lemma after_three_invariant : history_invariant (service Scenario.after_three).
Proof.
  unfold Scenario.after_three. simpl foldl.
  do 3 apply processFireAlert_keeps.
  repeat split; simpl; [lia|constructor].
Qed.

Lemma X5_breakdown_adds_up_witness :
  exists b,
    getSeverityBreakdown Sample.NumberToString Scenario.after_three
    = (Ok b, Scenario.after_three)
    /\ (forall k, k ∈ Spec.tier_names ->
          b !! k = Some (Count (length (with_severity k
                     (alertHistory (service Scenario.after_three))))))
    /\ counted_total b = length (alertHistory (service Scenario.after_three)).
Proof.
  exact (X5_breakdown_adds_up Sample.NumberToString Scenario.after_three
           after_three_invariant).
Defined.

Lemma X6_stats_are_ordered_witness :
  exists stats,
    getAlertStats Sample.NumberToString Sample.now_iso Scenario.Date_parse_text
      Scenario.NumberToTime Scenario.now_ms Scenario.after_three
    = (Ok stats, Scenario.after_three)
    /\ stats_total stats = length (alertHistory (service Scenario.after_three))
    /\ stats_last24Hours stats <= stats_lastWeek stats <= stats_total stats
    /\ counted_total (stats_severityBreakdown stats) = stats_total stats
    /\ stats_timestamp stats = Sample.now_iso.
Proof.
  apply (X6_stats_are_ordered Sample.NumberToString Sample.now_iso
           Scenario.Date_parse_text Scenario.NumberToTime Scenario.now_ms
           Scenario.after_three after_three_invariant).
  unfold Scenario.now_ms. lia.
Defined.

Lemma X7_broadcast_follows_severity_witness :
  exists tier code,
    calculateSeverity Sample.NumberToString Sample.StringToNumber Sample.complete
    = Ok (Spec.tier_name tier)
    /\ broadcast_level Scenario.broadcast = VStr (Spec.tier_name tier)
    /\ JS.prop (broadcast_alert Scenario.broadcast) "severity"
       = broadcast_level Scenario.broadcast
    /\ service Scenario.broadcast_run.2
       = stored (broadcast_alert Scenario.broadcast) (service Sample.world0)
    /\ ui_autoExpire (broadcast_ui Scenario.broadcast) = (tier_rank tier <=? 1)%nat
    /\ ui_priority (broadcast_ui Scenario.broadcast)
       = (if (3 <=? tier_rank tier)%nat then "HIGH" else "NORMAL")
    /\ (Spec.tier_name tier, code) ∈ severity_colors
    /\ ui_color (broadcast_ui Scenario.broadcast) = Hex code.
Proof.
  apply (X7_broadcast_follows_severity Sample.NumberToString Sample.StringToNumber
           Sample.now_iso Sample.Date_now Sample.random_suffix
           Sample.complete Sample.world0 Scenario.broadcast
           Scenario.broadcast_run.2).
  vm_compute. reflexivity.
Defined.

Lemma X8_broadcast_can_fail_after_storing_witness :
  exists w',
    createEmergencyBroadcast Sample.NumberToString Sample.StringToNumber
      Sample.now_iso Sample.Date_now Sample.random_suffix
      Scenario.unprintable Sample.world0
    = (Throw TypeError, w')
    /\ service w'
       = stored (assessment Sample.NumberToString Sample.now_iso Sample.Date_now
                   Sample.random_suffix Scenario.unprintable "MODERATE")
                (service Sample.world0).
Proof.
  exact (X8_broadcast_can_fail_after_storing Sample.NumberToString
           Sample.StringToNumber Sample.now_iso Sample.Date_now
           Sample.random_suffix Scenario.unprintable Sample.world0
           {[ "toString" := VNum 1 ]} "MODERATE" eq_refl eq_refl eq_refl eq_refl).
Defined.

Lemma X13_device_room_round_trip_witness :
  received (hub Visit.subscribed) "c1" (new_events Visit.subscribed Visit.updated)
  = [(ToRoom ("device-" +:+ "0"), "device-update", VBool true)]
  /\ received (hub Visit.unsubscribed) "c1"
       (new_events Visit.unsubscribed Visit.updated_again) = []
  /\ forall other, other <> "c1" ->
       received (hub Visit.subscribed) other
         (new_events Visit.connected Visit.subscribed) = []
       /\ received (hub Visit.unsubscribed) other
            (new_events Visit.updated Visit.unsubscribed) = []
       /\ (other ∉ default ∅ (rooms (hub Visit.connected) !! ("device-" +:+ "0")) ->
           received (hub Visit.subscribed) other
             (new_events Visit.subscribed Visit.updated) = []).
Proof.
  apply (X13_device_room_round_trip Sample.NumberToString "c1" (VNum 7)
           (VStr "0") (VBool true) "0" Visit.connected eq_refl eq_refl).
  vm_compute. set_solver.
Defined.

Lemma X18_mobile_version_is_read_off_the_agent_witness :
  "0.72.4" <> "" /\ version_run "0.72.4" = "0.72.4"
  /\ JS.includes Visit.mobile ("React Native/" +:+ "0.72.4") = true
  /\ clientType (clientDetection (Some Visit.mobile) None (Some "9.9"))
     = "react-native"
  /\ clientVersion (clientDetection (Some Visit.mobile) None (Some "9.9"))
     = "0.72.4"
  /\ X_Detected_Version (clientDetection (Some Visit.mobile) None (Some "9.9"))
     = Some "0.72.4".
Proof.
  exact (X18_mobile_version_is_read_off_the_agent Visit.mobile "0.72.4"
           (Some "9.9") eq_refl).
Defined.

Lemma X19_time_ranges_always_scan_witness :
  (forall deviceId options calls,
     JS.truthy (JS.prop options "startTime")
     || JS.truthy (JS.prop options "endTime") = true ->
     (exists made,
        (getDeviceData Sample.NumberToString Sample.StringToNumber
           Sample.engine_message Table.stack_of Table.missing Table.Array_sort
           (Some "device_001") Table.service Sample.LOG_LEVEL deviceId options calls).2
        = (calls ++ made)%list
        /\ length made <= 1
        /\ forall params, Query params ∉ made)
     /\ forall data,
          (getDeviceData Sample.NumberToString Sample.StringToNumber
             Sample.engine_message Table.stack_of Table.missing Table.Array_sort
             (Some "device_001") Table.service Sample.LOG_LEVEL deviceId options calls).1
          = Resolved data ->
          JS.prop data "source" = VStr "scan")
  /\ (forall deviceId timeRange calls,
        JS.truthy (VNum (Table.Math_floor (Table.Date_now / 1000))) = true ->
        exists made,
          (getAnalyticsSummary Sample.NumberToString Sample.StringToNumber
             Sample.engine_message Table.Date_now Table.Math_floor Table.stack_of
             Table.missing Table.Array_sort Table.Math_min Table.Math_max
             Table.toFixed2 (Some "device_001") Table.service Sample.LOG_LEVEL
             deviceId timeRange calls).2
          = (calls ++ made)%list
          /\ length made <= 1
          /\ forall params, Query params ∉ made).
Proof.
  exact (X19_time_ranges_always_scan Sample.NumberToString Sample.StringToNumber
           Sample.engine_message Table.Date_now Table.Math_floor Table.stack_of
           Table.missing Table.Array_sort Table.Math_min Table.Math_max
           Table.toFixed2 (Some "device_001") Table.service Sample.LOG_LEVEL
           (Some "wildfire-sensor-data") None None eq_refl).
Defined.

Lemma X20_store_failures_are_answered_500_witness :
  err_code Table.failure = VUndefined
  /\ err_statusCode Table.failure = VUndefined
  /\ err_name Table.failure ∈ [VStr "Error"; VStr "TypeError"; VStr "SyntaxError"]
  /\ reply_status (errorHandler Sample.now_iso (Some "production") Table.failure)
     = VNum 500
  /\ reply_body (errorHandler Sample.now_iso (Some "production") Table.failure)
       !! "message"
     = Some (VStr "Internal server error").
Proof.
  apply (X20_store_failures_are_answered_500 Sample.NumberToString
           Sample.StringToNumber Sample.engine_message Sample.now_iso
           Table.Date_now Table.Math_floor Table.stack_of Table.missing
           Table.Array_sort Table.Math_min Table.Math_max Table.toFixed2
           (Some "device_001") Table.service Sample.LOG_LEVEL VUndefined VUndefined VUndefined []
           Table.failure (Some "production")).
  left. vm_compute. reflexivity.
Defined.

Lemma X21_zero_average_is_reported_null_witness :
  JS.prop (analytics Table.Math_min Table.Math_max Table.toFixed2 [0; -0; 0]%float)
    "averageValue" = VNull
  /\ JS.prop (analytics Table.Math_min Table.Math_max Table.toFixed2 [0; -0; 0]%float)
       "minValue" = VNum (Table.Math_min [0; -0; 0]%float)
  /\ JS.prop (analytics Table.Math_min Table.Math_max Table.toFixed2 [0; -0; 0]%float)
       "maxValue" = VNum (Table.Math_max [0; -0; 0]%float)
  /\ JS.prop (analytics Table.Math_min Table.Math_max Table.toFixed2 [0; -0; 0]%float)
       "dataPoints" = VNum (Number_of_nat (length [0; -0; 0]%float)).
Proof.
  apply (X21_zero_average_is_reported_null Table.Math_min Table.Math_max
           Table.toFixed2 [0; -0; 0]%float).
  - discriminate.
  - repeat constructor.
Defined.

Lemma X26_mobile_form_keeps_four_fields_witness :
  (exists latest history stats,
     formatResponseForClient "react-native" Table.gathered
     = Ok (obj [("latest", latest); ("history", VArr history); ("stats", stats)])
     /\ length history = length [Sample.readings; Scenario.calm]
     /\ forall i record, [Sample.readings; Scenario.calm] !! i = Some record ->
          exists entry,
            history !! i = Some entry
            /\ JS.prop entry "id" = JS.prop record "deviceId"
            /\ JS.prop entry "value" = JS.prop record "value"
            /\ JS.prop entry "time" = JS.prop record "timestamp"
            /\ JS.prop entry "status" = JS.prop record "status"
            /\ forall k, k ∉ ["id"; "value"; "time"; "status"] ->
                         JS.prop entry k = VUndefined)
  /\ forall clientType, clientType <> "react-native" ->
       formatResponseForClient clientType Table.gathered = Ok Table.gathered.
Proof.
  apply (X26_mobile_form_keeps_four_fields Table.gathered
           [Sample.readings; Scenario.calm] eq_refl eq_refl).
  - repeat constructor.
  - reflexivity.
Defined.

Lemma X28_null_url_trips_the_logger_witness :
  subscribeUrl Sample.unaddressed = VNull
  /\ prints (getLogLevel Sample.LOG_LEVEL) "INFO" = true
  /\ (sns_webhook Sample.NumberToString Sample.JSON_parse_text
        Sample.unreachable Sample.now_iso Sample.Date_now
        Sample.engine_message Sample.LOG_LEVEL
        Sample.confirmation_without_url Sample.world0).1
     = Ok (refused Sample.engine_message TypeError)
  /\ fetches (new_events Sample.world0
                (sns_webhook Sample.NumberToString Sample.JSON_parse_text
                   Sample.unreachable Sample.now_iso Sample.Date_now
                   Sample.engine_message Sample.LOG_LEVEL
                   Sample.confirmation_without_url Sample.world0).2) = []
  /\ (fire_alert_webhook Sample.NumberToString Sample.JSON_parse_text
        Sample.unreachable Sample.now_iso Sample.LOG_LEVEL
        Sample.alias_confirmation_without_url Sample.world0).1
     = Ok alert_failed
  /\ fetches (new_events Sample.world0
                (fire_alert_webhook Sample.NumberToString
                   Sample.JSON_parse_text Sample.unreachable Sample.now_iso
                   Sample.LOG_LEVEL Sample.alias_confirmation_without_url
                   Sample.world0).2) = [].
Proof.
  destruct (X28_null_url_trips_the_logger Sample.NumberToString
              Sample.JSON_parse_text Sample.unreachable Sample.now_iso
              Sample.Date_now Sample.engine_message Sample.LOG_LEVEL
              Sample.confirmation_without_url Sample.world0)
    as (Hsns & _ & _).
  destruct (X28_null_url_trips_the_logger Sample.NumberToString
              Sample.JSON_parse_text Sample.unreachable Sample.now_iso
              Sample.Date_now Sample.engine_message Sample.LOG_LEVEL
              Sample.alias_confirmation_without_url Sample.world0)
    as (_ & Halias & _).
  destruct (Hsns Sample.unaddressed eq_refl eq_refl eq_refl eq_refl)
    as (Hfetch & _ & Hanswer).
  destruct (Halias Sample.unaddressed eq_refl eq_refl eq_refl)
    as (_ & Hrefused & Hnone).
  split; [reflexivity|]. split; [reflexivity|].
  split; [exact Hanswer|]. split; [exact Hfetch|].
  split; [exact Hrefused|exact Hnone].
Defined.

Lemma X29_rejected_query_falls_back_unless_unexplained_witness :
  (forall calls params,
     Table.unqueryable calls (Scan params)
     = Resolved {| Items := Some [Sample.readings];
                   LastEvaluatedKey := VUndefined |})
  /\ getLatestRecord Sample.NumberToString Sample.StringToNumber
       Sample.engine_message Table.stack_of Table.unqueryable Table.Array_sort
       (Some "device_001") Table.service Sample.LOG_LEVEL VUndefined []
     = (Rejected (js_error Table.stack_of "Error"
                    ("Failed to get latest record: "
                     +:+ Sample.engine_message TypeError)),
        [Query (latestParams Table.service (VStr "device_001"))]).
Proof.
  split; [reflexivity|].
  exact (proj1 (X29_rejected_query_falls_back_unless_unexplained
           Sample.NumberToString Sample.StringToNumber Sample.engine_message
           Table.stack_of Table.unqueryable Table.Array_sort
           (Some "device_001") Table.service Sample.LOG_LEVEL
           VUndefined [] Table.unexplained eq_refl eq_refl) eq_refl).
Defined.

Lemma X23_latest_is_pushed_to_everyone_witness :
  (Table.unexplained_latest).1.2
  = [Query (latestParams Table.service (VStr "device_001"))]
  /\ answer (Table.unexplained_latest).1.1 = None
  /\ passed_on (Table.unexplained_latest).1.1
     = Some (js_error Table.stack_of "Error"
               ("Failed to get latest record: "
                +:+ Sample.engine_message TypeError))
  /\ emits (new_events Sample.world0 (Table.unexplained_latest).2) = [].
Proof.
  destruct (X23_latest_is_pushed_to_everyone Sample.NumberToString
              Sample.StringToNumber Sample.engine_message Sample.now_iso
              Table.stack_of Table.unqueryable Table.Array_sort
              (Some "device_001") Table.service Sample.LOG_LEVEL
              VUndefined [] Sample.world0)
    as (Hcalls & _ & Hnone & Hnext & Hemits).
  split; [exact Hcalls|]. split; [exact Hnone|].
  split; [exact Hnext|exact Hemits].
Defined.

Lemma X24_request_latest_answers_the_caller_witness :
  (Table.unexplained_request).1
  = [Query (latestParams Table.service (VStr "device_001"))]
  /\ exists payload,
       emits (new_events Sample.world0 (Table.unexplained_request).2)
       = [(ToSocket "c1", "error", payload)]
       /\ JS.prop payload "message" = VStr "Failed to fetch latest data"
       /\ JS.prop payload "error"
          = VStr ("Failed to get latest record: "
                  +:+ Sample.engine_message TypeError).
Proof.
  destruct (X24_request_latest_answers_the_caller Sample.NumberToString
              Sample.StringToNumber Sample.engine_message
              Table.stack_of Table.unqueryable Table.Array_sort
              (Some "device_001") Table.service Sample.LOG_LEVEL
              "c1" VUndefined [] Sample.world0)
    as (Hcalls & _ & _ & payload & text & Hemits & Hfixed & Herror & Htext).
  split; [exact Hcalls|]. exists payload.
  split; [exact Hemits|]. split; [exact Hfixed|].
  rewrite Herror. f_equal. injection Htext as <-. reflexivity.
Defined.
